(** * code-annotation: response envelopes and experiment handlers

    A shallow embedding of [server/serializer/serializers.go] and
    [server/handler/experiments.go], and the properties of the response
    envelope, of the typed HTTP error and of the progress arithmetic.

    Conventions of the embedding:
    - a Go [int] is a [Z]; where a statement depends on the width of [int]
      the bound [maxInt] (64-bit) is a hypothesis of that statement;
    - a Go [float32] is a [spec_float] of the Standard Library at precision
      24 and maximal exponent 128 (IEEE 754 binary32), with the library's
      round-to-nearest-even operations;
    - a Go [error] is a value of [error]; the nil error is [None];
    - an [interface{}] holding a dynamic value is [Some v], the nil
      interface is [None];
    - a slice is [nilSlice] or [mkSlice l]: the nil slice and an allocated
      slice of length zero are different values, as they are in Go;
    - a handler is a computation in a state and failure monad whose state
      is the database together with the log of the collaborator calls
      made so far. *)

From Stdlib Require Import ZArith Lia Bool List String Ascii.
From Stdlib Require Import Floats.SpecFloat.
From Stdlib Require Import Reals Lra.
Import ListNotations.

Open Scope string_scope.
Open Scope list_scope.
Open Scope Z_scope.

(** ** Go values *)

Module Go.

(** Slices: [var s []T] is [nilSlice]; [make([]T, n)] and [append] give
    allocated slices. *)
Inductive slice (A : Type) : Type :=
| nilSlice : slice A
| mkSlice (l : list A) : slice A.
Arguments nilSlice {A}.
Arguments mkSlice {A} l.

Definition elems {A} (s : slice A) : list A :=
  match s with
  | nilSlice => []
  | mkSlice l => l
  end.

Definition len {A} (s : slice A) : nat := List.length (elems s).

Definition isNil {A} (s : slice A) : bool :=
  match s with
  | nilSlice => true
  | mkSlice _ => false
  end.

(** [make([]T, n)]: an allocated slice of [n] zero values. *)
Definition make {A} (zero : A) (n : nat) : slice A := mkSlice (repeat zero n).

(** [append(s, x)]: the result is always allocated. *)
Definition append {A} (s : slice A) (x : A) : slice A := mkSlice (elems s ++ [x]).

(** [s[i]] as an r-value: [None] is the run-time panic "index out of range". *)
Definition index {A} (s : slice A) (i : nat) : option A := nth_error (elems s) i.

(** The backing list with [x] at position [i]. *)
Fixpoint update {A} (l : list A) (i : nat) (x : A) : list A :=
  match l, i with
  | [], _ => []
  | _ :: t, O => x :: t
  | h :: t, S j => h :: update t j x
  end.

(** [s[i] = x]: [None] is the run-time panic "index out of range". *)
Definition assign {A} (s : slice A) (i : nat) (x : A) : option (slice A) :=
  if (i <? len s)%nat then Some (mkSlice (update (elems s) i x)) else None.

(** The largest [int] of a 64-bit platform. *)
Definition maxInt : Z := 2 ^ 63 - 1.

End Go.

(** ** float32 arithmetic *)

Module Float32.

Definition prec : Z := 24.
Definition emax : Z := 128.

Definition float32 : Type := spec_float.

(** The conversion [float32(n)] of an integer: one rounding to nearest,
    ties to even. *)
Definition of_int (n : Z) : float32 := binary_normalize prec emax n 0 false.

Definition mul (x y : float32) : float32 := SFmul prec emax x y.
Definition div (x y : float32) : float32 := SFdiv prec emax x y.

(** The comparison [x <= y] of Go: false as soon as one side is a NaN. *)
Definition leb (x y : float32) : bool := SFleb x y.

(** The constant [0] at type [float32]. *)
Definition zero : float32 := S754_zero false.

(** The untyped constant [100.0] converted to [float32] (exact). *)
Definition hundred : float32 := S754_finite false 13107200 (-17).

(** [25.0] at type [float32]. *)
Definition twenty_five : float32 := S754_finite false 13107200 (-19).

Definition is_nan (x : float32) : bool :=
  match x with
  | S754_nan => true
  | _ => false
  end.

Definition is_inf (x : float32) : bool :=
  match x with
  | S754_infinity _ => true
  | _ => false
  end.

(** A float that has an integral value: a non-negative exponent, or a
    mantissa that the negative exponent divides. *)
Definition is_integral (x : float32) : bool :=
  match x with
  | S754_zero _ => true
  | S754_finite _ m e => (0 <=? e) || (Z.pos m mod 2 ^ (- e) =? 0)
  | _ => false
  end.

End Float32.

(** ** net/http *)

Module http.

Definition StatusOK : Z := 200.
Definition StatusNoContent : Z := 204.
Definition StatusBadRequest : Z := 400.
Definition StatusNotFound : Z := 404.
Definition StatusInternalServerError : Z := 500.

(** [http.StatusText]: the table of the Go standard library; the empty
    string for a code that is not in the table. *)
Definition statusText : list (Z * string) :=
  [ (100, "Continue"); (101, "Switching Protocols"); (102, "Processing");
    (200, "OK"); (201, "Created"); (202, "Accepted");
    (203, "Non-Authoritative Information"); (204, "No Content");
    (205, "Reset Content"); (206, "Partial Content"); (207, "Multi-Status");
    (208, "Already Reported"); (226, "IM Used");
    (300, "Multiple Choices"); (301, "Moved Permanently"); (302, "Found");
    (303, "See Other"); (304, "Not Modified"); (305, "Use Proxy");
    (307, "Temporary Redirect"); (308, "Permanent Redirect");
    (400, "Bad Request"); (401, "Unauthorized"); (402, "Payment Required");
    (403, "Forbidden"); (404, "Not Found"); (405, "Method Not Allowed");
    (406, "Not Acceptable"); (407, "Proxy Authentication Required");
    (408, "Request Timeout"); (409, "Conflict"); (410, "Gone");
    (411, "Length Required"); (412, "Precondition Failed");
    (413, "Request Entity Too Large"); (414, "Request URI Too Long");
    (415, "Unsupported Media Type");
    (416, "Requested Range Not Satisfiable"); (417, "Expectation Failed");
    (418, "I'm a teapot"); (422, "Unprocessable Entity"); (423, "Locked");
    (424, "Failed Dependency"); (426, "Upgrade Required");
    (428, "Precondition Required"); (429, "Too Many Requests");
    (431, "Request Header Fields Too Large");
    (451, "Unavailable For Legal Reasons");
    (500, "Internal Server Error"); (501, "Not Implemented");
    (502, "Bad Gateway"); (503, "Service Unavailable");
    (504, "Gateway Timeout"); (505, "HTTP Version Not Supported");
    (506, "Variant Also Negotiates"); (507, "Insufficient Storage");
    (508, "Loop Detected"); (510, "Not Extended");
    (511, "Network Authentication Required") ].

Fixpoint lookup (code : Z) (t : list (Z * string)) : string :=
  match t with
  | [] => ""
  | (c, s) :: t' => if c =? code then s else lookup code t'
  end.

Definition StatusText (code : Z) : string := lookup code statusText.

End http.

(** ** package strings *)

Module strings.

(** [strings.Join(elems, sep)]. *)
Fixpoint Join (elems : list string) (sep : string) : string :=
  match elems with
  | [] => ""
  | [s] => s
  | s :: rest => (s ++ sep ++ Join rest sep)%string
  end.

End strings.

(** ** package model *)

Module model.

(** Modelled from the spec: the struct [model.Experiment], declared in a
    package outside the two files embedded here. An experiment has an
    integer identity, a name and a description; these are the three fields
    the handlers and the serializers read and write. *)
Record Experiment : Type := mkExperiment {
  ID : Z;
  Name : string;
  Description : string
}.

End model.

(** ** package serializer *)

Module serializer.

Import Go.

(** [type httpError struct]. *)
Record httpError : Type := mkHttpError {
  Status : Z;
  Title : string;
  Details : string
}.

(** [func (e httpError) StatusCode() int]. *)
Definition StatusCode (e : httpError) : Z := Status e.

Definition nonEmpty (s : string) : bool :=
  match s with
  | EmptyString => false
  | String _ _ => true
  end.

(** [func (e httpError) Error() string]. *)
Definition httpError_Error (e : httpError) : string :=
  let msg := Title e in
  if nonEmpty msg then msg
  else
    let msg := http.StatusText (Status e) in
    if nonEmpty msg then msg
    else http.StatusText http.StatusInternalServerError.

(** The values of the interface [error] that the handlers meet: a value of
    the concrete type [httpError], which also implements [HTTPError], or
    an untyped error that only carries its message ([errors.New],
    [fmt.Errorf], a driver or decoder error). *)
Inductive error : Type :=
| errorString (msg : string)
| HTTPError (e : httpError).

(** [err.Error()]. *)
Definition Error (e : error) : string :=
  match e with
  | errorString msg => msg
  | HTTPError h => httpError_Error h
  end.

(** [func NewHTTPError(statusCode int, msg ...string) HTTPError]. *)
Definition NewHTTPError (statusCode : Z) (msg : list string) : error :=
  HTTPError (mkHttpError statusCode (strings.Join msg " ") "").

(** [type experimentResponse struct]. *)
Record experimentResponse : Type := mkExperimentResponse {
  respID : Z;
  respName : string;
  respDescription : string;
  respProgress : Float32.float32
}.

Definition zeroExperimentResponse : experimentResponse :=
  mkExperimentResponse 0 "" "" Float32.zero.

(** [type countResponse struct], [type versionResponse struct],
    [type tokenResponse struct]. *)
Record countResponse : Type := mkCountResponse { Count : Z }.
Record versionResponse : Type := mkVersionResponse { Version : string }.
Record tokenResponse : Type := mkTokenResponse { Token : string }.

(** The dynamic values that the constructors embedded here store in the
    field [Data interface{}]. *)
Inductive any : Type :=
| anyExperiment (e : experimentResponse)
| anyExperiments (l : slice experimentResponse)
| anyCount (c : countResponse)
| anyVersion (v : versionResponse)
| anyToken (t : tokenResponse).

(** [type Response struct]. [Data = None] is the nil interface, which
    [omitempty] leaves out of the JSON body. *)
Record Response : Type := mkResponse {
  respStatus : Z;
  Data : option any;
  Errors : slice error
}.

(** [func newResponse(c interface{}) *Response]. *)
Definition newResponse (c : option any) : Response :=
  match c with
  | None => mkResponse http.StatusNoContent None nilSlice
  | Some v => mkResponse http.StatusOK (Some v) nilSlice
  end.

(** [func NewEmptyResponse() *Response]. *)
Definition NewEmptyResponse : Response := mkResponse 0 None nilSlice.

(** [func NewExperimentResponse(e *model.Experiment, progress float32)]. *)
Definition NewExperimentResponse (e : model.Experiment)
    (progress : Float32.float32) : Response :=
  newResponse (Some (anyExperiment
    (mkExperimentResponse (model.ID e) (model.Name e) (model.Description e)
       progress))).

(** The loop [for i, e := range experiments { result[i] = ... }] from
    index [i] on; [None] is the panic of an index out of range, in
    [progresses[i]] or in [result[i]]. *)
Fixpoint fillExperiments (i : nat) (experiments : list model.Experiment)
    (progresses : slice Float32.float32) (result : slice experimentResponse)
    : option (slice experimentResponse) :=
  match experiments with
  | [] => Some result
  | e :: rest =>
      match index progresses i with
      | None => None
      | Some p =>
          match assign result i
                  (mkExperimentResponse (model.ID e) (model.Name e)
                     (model.Description e) p) with
          | None => None
          | Some result' => fillExperiments (S i) rest progresses result'
          end
      end
  end.

(** [func NewExperimentsResponse(experiments []*model.Experiment,
    progresses []float32) *Response]; [None] is a run-time panic. *)
Definition NewExperimentsResponse (experiments : slice model.Experiment)
    (progresses : slice Float32.float32) : option Response :=
  let result := make zeroExperimentResponse (len experiments) in
  match fillExperiments 0 (elems experiments) progresses result with
  | None => None
  | Some result' => Some (newResponse (Some (anyExperiments result')))
  end.

(** [func NewCountResponse(c int) *Response]. *)
Definition NewCountResponse (c : Z) : Response :=
  newResponse (Some (anyCount (mkCountResponse c))).

(** [func NewVersionResponse(version string) *Response]. *)
Definition NewVersionResponse (version : string) : Response :=
  newResponse (Some (anyVersion (mkVersionResponse version))).

(** [func NewTokenResponse(token string) *Response]. *)
Definition NewTokenResponse (token : string) : Response :=
  newResponse (Some (anyToken (mkTokenResponse token))).

End serializer.

(** ** package handler *)

Module handler.

Import Go serializer.

(** *** Collaborators

    The packages [repository] and [service], the helper [urlParamInt] and
    the request itself are outside the two files embedded here: they are
    parameters of the handlers. A repository method is a function of the
    database; the two writing methods return the new database and the
    entity behind the pointer they were given. *)

Inductive result (A : Type) : Type :=
| Ok (a : A)
| Err (e : error).
Arguments Ok {A} a.
Arguments Err {A} e.

(** [type createExperimentReq struct] and [type updateExperimentReq struct]. *)
Record experimentReq : Type := mkExperimentReq {
  reqName : string;
  reqDescription : string
}.

Record Env : Type := mkEnv {
  Request : Type;
  DB : Type;
  (** [service.GetUserID(r.Context())] *)
  GetUserID : Request -> result Z;
  (** [urlParamInt(r, name)] *)
  urlParamInt : Request -> string -> result Z;
  (** [ioutil.ReadAll(r.Body)] *)
  ReadAll : Request -> result string;
  (** [json.Unmarshal(body, &req)] *)
  Unmarshal : string -> result experimentReq;
  (** [repo.GetByID(id)]: [Ok None] is the nil pointer with a nil error *)
  GetByID : DB -> Z -> result (option model.Experiment);
  (** [repo.GetAll()] *)
  GetAll : DB -> result (slice model.Experiment);
  (** [repo.Create(e)] and [repo.Update(e)] *)
  Create : DB -> model.Experiment -> DB * model.Experiment * option error;
  Update : DB -> model.Experiment -> DB * model.Experiment * option error;
  (** [repo.CountUserAssignment(experimentID, userID)] and
      [repo.CountCompleteUserAssignment(experimentID, userID)] *)
  CountUserAssignment : DB -> Z -> Z -> result Z;
  CountCompleteUserAssignment : DB -> Z -> Z -> result Z
}.

(** The collaborator calls a handler makes, in the order it makes them. *)
Inductive Call : Type :=
| CallGetUserID
| CallUrlParamInt (name : string)
| CallReadAll
| CallUnmarshal (body : string)
| CallGetByID (id : Z)
| CallGetAll
| CallCreate (e : model.Experiment)
| CallUpdate (e : model.Experiment)
| CallCountUserAssignment (experimentID userID : Z)
| CallCountCompleteUserAssignment (experimentID userID : Z).

Definition isPersist (c : Call) : bool :=
  match c with
  | CallCreate _ | CallUpdate _ => true
  | _ => false
  end.

Definition isGetUserID (c : Call) : bool :=
  match c with
  | CallGetUserID => true
  | _ => false
  end.

(** What a handler hands back: [(resp, nil)], [(nil, err)] or a panic. *)
Inductive Outcome (A : Type) : Type :=
| Return (a : A)
| Fail (e : error)
| Panic.
Arguments Return {A} a.
Arguments Fail {A} e.
Arguments Panic {A}.

Section Handlers.

Context (env : Env).

Record World : Type := mkWorld {
  db : DB env;
  calls : list Call
}.

Definition M (A : Type) : Type := World -> Outcome A * World.

Definition ret {A} (a : A) : M A := fun w => (Return a, w).

Definition fail {A} (e : error) : M A := fun w => (Fail e, w).

Definition panic {A} : M A := fun w => (Panic, w).

Definition bind {A B} (m : M A) (k : A -> M B) : M B :=
  fun w =>
    match m w with
    | (Return a, w') => k a w'
    | (Fail e, w') => (Fail e, w')
    | (Panic, w') => (Panic, w')
    end.

Definition record (c : Call) (w : World) : World :=
  mkWorld (db w) (calls w ++ [c]).

(** A reading call: logged, the database is left as it is. The result is
    handed to the caller, who inspects [err]. *)
Definition reading {A} (c : Call) (f : DB env -> result A) : M (result A) :=
  fun w => (Return (f (db w)), record c w).

(** A writing call: logged, the database replaced. *)
Definition writing (c : Call)
    (f : DB env -> DB env * model.Experiment * option error)
    : M (model.Experiment * option error) :=
  fun w =>
    let '(d, e, err) := f (db w) in
    (Return (e, err), mkWorld d (calls w ++ [c])).

(** [if err != nil { return nil, err }]. *)
Definition try {A} (m : M (result A)) : M A :=
  bind m (fun r => match r with Ok a => ret a | Err e => fail e end).

(** [if err != nil { return nil, f(err) }]. *)
Definition tryWith {A} (f : error -> error) (m : M (result A)) : M A :=
  bind m (fun r => match r with Ok a => ret a | Err e => fail (f e) end).

End Handlers.

Arguments ret {env A} a.
Arguments fail {env A} e.
Arguments panic {env A}.
Arguments bind {env A B} m k.
Arguments try {env A} m.
Arguments tryWith {env A} f m.
Arguments reading {env A} c f.
Arguments writing {env} c f.
Arguments mkWorld {env} db calls.
Arguments db {env} w.
Arguments calls {env} w.

Declare Scope handler_scope.
Delimit Scope handler_scope with handler.
Notation "x <- m ;; k" := (bind m (fun x => k))
  (at level 100, m at next level, right associativity) : handler_scope.
Notation "' p <- m ;; k" := (bind m (fun x => let p := x in k))
  (at level 100, p pattern, m at next level, right associativity)
  : handler_scope.

Section Experiments.

Context (env : Env).

Local Open Scope handler_scope.

(** [fmt.Errorf(format + ": %v", err)]: the verb [%v] prints [err.Error()]. *)
Definition Errorf (context : string) (err : error) : error :=
  errorString (context ++ Error err)%string.

(** [func experimentProgress(repo, experimentID, userID) (float32, error)]. *)
Definition experimentProgress (experimentID userID : Z)
    : M env Float32.float32 :=
  countAll <- tryWith (Errorf "Error count of assigments from the DB: ")
    (reading (CallCountUserAssignment experimentID userID)
       (fun d => CountUserAssignment env d experimentID userID)) ;;
  countComplete <-
    tryWith (Errorf "Error count of complete assigments from the DB: ")
    (reading (CallCountCompleteUserAssignment experimentID userID)
       (fun d => CountCompleteUserAssignment env d experimentID userID)) ;;
  if countAll =? 0 then ret Float32.zero
  else
    ret (Float32.div
           (Float32.mul Float32.hundred (Float32.of_int countComplete))
           (Float32.of_int countAll)).

(** [func GetExperimentDetails(repo, assignmentsRepo) RequestProcessFunc]. *)
Definition GetExperimentDetails (r : Request env) : M env Response :=
  userID <- try (reading CallGetUserID (fun _ => GetUserID env r)) ;;
  experimentID <- try (reading (CallUrlParamInt "experimentId")
                         (fun _ => urlParamInt env r "experimentId")) ;;
  experiment <- try (reading (CallGetByID experimentID)
                       (fun d => GetByID env d experimentID)) ;;
  match experiment with
  | None => fail (NewHTTPError http.StatusNotFound ["no experiment found"])
  | Some experiment =>
      progress <- experimentProgress (model.ID experiment) userID ;;
      ret (NewExperimentResponse experiment progress)
  end.

(** The loop of [GetExperiments] over the experiments that are left. *)
Fixpoint progressLoop (experiments : list model.Experiment) (userID : Z)
    (progresses : slice Float32.float32) : M env (slice Float32.float32) :=
  match experiments with
  | [] => ret progresses
  | e :: rest =>
      progress <- experimentProgress (model.ID e) userID ;;
      progressLoop rest userID (append progresses progress)
  end.

(** [func GetExperiments(repo, assignmentsRepo) RequestProcessFunc]. *)
Definition GetExperiments (r : Request env) : M env Response :=
  userID <- try (reading CallGetUserID (fun _ => GetUserID env r)) ;;
  experiments <- try (reading CallGetAll (fun d => GetAll env d)) ;;
  progresses <- progressLoop (elems experiments) userID nilSlice ;;
  match NewExperimentsResponse experiments progresses with
  | Some resp => ret resp
  | None => panic
  end.

(** [func CreateExperiment(repo) RequestProcessFunc]. *)
Definition CreateExperiment (r : Request env) : M env Response :=
  body <- tryWith (fun err => NewHTTPError http.StatusBadRequest [Error err])
            (reading CallReadAll (fun _ => ReadAll env r)) ;;
  createExperimentReq <-
    tryWith (fun err => NewHTTPError http.StatusBadRequest [Error err])
      (reading (CallUnmarshal body) (fun _ => Unmarshal env body)) ;;
  let experiment :=
    model.mkExperiment 0 (reqName createExperimentReq)
      (reqDescription createExperimentReq) in
  '(experiment, err) <- writing (CallCreate experiment)
                          (fun d => Create env d experiment) ;;
  match err with
  | Some err => fail err
  | None => ret (NewExperimentResponse experiment Float32.zero)
  end.

(** [func UpdateExperiment(repo, assignmentsRepo) RequestProcessFunc]. *)
Definition UpdateExperiment (r : Request env) : M env Response :=
  userID <- try (reading CallGetUserID (fun _ => GetUserID env r)) ;;
  experimentID <- try (reading (CallUrlParamInt "experimentId")
                         (fun _ => urlParamInt env r "experimentId")) ;;
  experiment <- try (reading (CallGetByID experimentID)
                       (fun d => GetByID env d experimentID)) ;;
  match experiment with
  | None => fail (NewHTTPError http.StatusNotFound ["no experiment found"])
  | Some experiment =>
      body <- tryWith
                (fun err => NewHTTPError http.StatusBadRequest [Error err])
                (reading CallReadAll (fun _ => ReadAll env r)) ;;
      updateExperimentReq <-
        tryWith (fun err => NewHTTPError http.StatusBadRequest [Error err])
          (reading (CallUnmarshal body) (fun _ => Unmarshal env body)) ;;
      let experiment :=
        model.mkExperiment (model.ID experiment)
          (reqName updateExperimentReq)
          (reqDescription updateExperimentReq) in
      '(experiment, err) <- writing (CallUpdate experiment)
                              (fun d => Update env d experiment) ;;
      match err with
      | Some err => fail err
      | None =>
          progress <- experimentProgress (model.ID experiment) userID ;;
          ret (NewExperimentResponse experiment progress)
      end
  end.

(** A run of a handler on a database, from an empty log. *)
Definition run {A} (h : M env A) (d : DB env) : Outcome A * World env :=
  h (mkWorld d []).

End Experiments.

(** Modelled from the spec: the dispatcher that renders a returned failure
    is outside the two files embedded here. A failure that carries a
    status code is rendered with that code; any other failure is an
    [Internal] one and is rendered with status 500. *)
Definition failureStatus (e : error) : Z :=
  match e with
  | HTTPError h => StatusCode h
  | errorString _ => http.StatusInternalServerError
  end.

Definition isInternal (e : error) : bool :=
  failureStatus e =? http.StatusInternalServerError.

End handler.

(** ** An in-memory instance of the collaborators

    Used to run the handlers on concrete requests. A request carries the
    caller, the path parameter and the body, each of which may be missing;
    the body format of this instance is [name;description]. *)

Module memory.

Import Go serializer handler.

Record request : Type := mkRequest {
  caller : option Z;
  experimentIdParam : option Z;
  body : option string
}.

(** An assignment: experiment, user, and whether it has an answer. *)
Record assignment : Type := mkAssignment {
  asExperiment : Z;
  asUser : Z;
  answered : bool
}.

Record database : Type := mkDatabase {
  experiments : list model.Experiment;
  assignments : list assignment;
  (** faults injected in the experiment store and in the two counters *)
  storeDown : bool;
  countDown : bool;
  countCompleteDown : bool
}.

Definition fault : error := errorString "sql: database is closed".

Definition getUserID (r : request) : result Z :=
  match caller r with
  | Some u => Ok u
  | None => Err (errorString "User ID is not set in the context")
  end.

Definition urlParam (r : request) (name : string) : result Z :=
  match experimentIdParam r with
  | Some n => Ok n
  | None => Err (NewHTTPError http.StatusBadRequest
                   ["Wrong format for URL parameter"; name])
  end.

Definition readAll (r : request) : result string :=
  match body r with
  | Some b => Ok b
  | None => Err (errorString "unexpected EOF")
  end.

(** Splits [s] at its first semicolon. *)
Fixpoint splitSemi (s : string) : option (string * string) :=
  match s with
  | EmptyString => None
  | String c rest =>
      if Ascii.eqb c ";"%char then Some (EmptyString, rest)
      else
        match splitSemi rest with
        | Some (a, b) => Some (String c a, b)
        | None => None
        end
  end.

Definition unmarshal (b : string) : result experimentReq :=
  match splitSemi b with
  | Some (n, d) => Ok (mkExperimentReq n d)
  | None => Err (errorString "unexpected end of JSON input")
  end.

Definition getByID (d : database) (id : Z) : result (option model.Experiment) :=
  if storeDown d then Err fault
  else Ok (find (fun e => model.ID e =? id) (experiments d)).

Definition getAll (d : database) : result (slice model.Experiment) :=
  if storeDown d then Err fault
  else
    match experiments d with
    | [] => Ok nilSlice
    | l => Ok (mkSlice l)
    end.

Definition withExperiments (d : database) (l : list model.Experiment)
    : database :=
  mkDatabase l (assignments d) (storeDown d) (countDown d)
    (countCompleteDown d).

Definition create (d : database) (e : model.Experiment)
    : database * model.Experiment * option error :=
  if storeDown d then (d, e, Some fault)
  else
    let e' :=
      model.mkExperiment (Z.of_nat (List.length (experiments d)) + 1)
        (model.Name e) (model.Description e) in
    (withExperiments d (experiments d ++ [e']), e', None).

Definition update (d : database) (e : model.Experiment)
    : database * model.Experiment * option error :=
  if storeDown d then (d, e, Some fault)
  else
    (withExperiments d
       (map (fun x => if model.ID x =? model.ID e then e else x)
          (experiments d)),
     e, None).

Definition countWhere (p : assignment -> bool) (d : database) : Z :=
  Z.of_nat (List.length (filter p (assignments d))).

Definition countUserAssignment (d : database) (experimentID userID : Z)
    : result Z :=
  if countDown d then Err fault
  else
    Ok (countWhere
          (fun a => (asExperiment a =? experimentID) && (asUser a =? userID))
          d).

Definition countCompleteUserAssignment (d : database)
    (experimentID userID : Z) : result Z :=
  if countCompleteDown d then Err fault
  else
    Ok (countWhere
          (fun a => (asExperiment a =? experimentID) && (asUser a =? userID)
                    && answered a)
          d).

Definition env : Env :=
  mkEnv request database getUserID urlParam readAll unmarshal getByID getAll
    create update countUserAssignment countCompleteUserAssignment.

(** Sample data. *)
Definition emptyDB : database := mkDatabase [] [] false false false.

Definition study : model.Experiment :=
  model.mkExperiment 1 "A/B test" "compare styles".

(** One experiment; user 7 has four assignments, one of them answered. *)
Definition sampleDB : database :=
  mkDatabase [study]
    [mkAssignment 1 7 true; mkAssignment 1 7 false; mkAssignment 1 7 false;
     mkAssignment 1 7 false]
    false false false.

Definition countFaultDB : database :=
  mkDatabase [study] [] false true false.

Definition countCompleteFaultDB : database :=
  mkDatabase [study] [] false false true.

Definition storeFaultDB : database :=
  mkDatabase [study] [] true false false.

(** No caller attached to the request. *)
Definition anonymous (b : string) : request :=
  mkRequest None (Some 1) (Some b).

Definition fromUser (u id : Z) (b : option string) : request :=
  mkRequest (Some u) (Some id) b.

(** A second instance, for the progress arithmetic alone: the database is
    the pair of the two counts, and nothing else is stored. *)
Definition tally : Env :=
  mkEnv unit (Z * Z)
    (fun _ => Ok 0) (fun _ _ => Ok 0) (fun _ => Ok "")
    (fun _ => Ok (mkExperimentReq "" ""))
    (fun _ _ => Ok None) (fun _ => Ok nilSlice)
    (fun d e => (d, e, None)) (fun d e => (d, e, None))
    (fun d _ _ => Ok (fst d)) (fun d _ _ => Ok (snd d)).

(** A third instance: the in-memory collaborators behind a lookup that
    reports its failure as a typed HTTP error of its own. *)
Definition unavailable : error :=
  NewHTTPError 503 ["experiment store unavailable"].

Definition typed : Env :=
  mkEnv request database getUserID urlParam readAll unmarshal
    (fun _ _ => Err unavailable) getAll create update
    countUserAssignment countCompleteUserAssignment.

End memory.

(** ** What the request state machine asks of a handler *)

Module protocol.

Import Go serializer handler.

(** The handler resolves the caller before anything else: [GetUserID] is
    the first call of every run, and when it fails the run ends there,
    with that failure, the database untouched and no other call made. *)
Definition authenticatesFirst (env : Env)
    (h : Request env -> M env Response) : Prop :=
  forall (r : Request env) (d : DB env),
    hd_error (calls (snd (run env (h r) d))) = Some CallGetUserID /\
    (forall e, GetUserID env r = Err e ->
       run env (h r) d = (Fail e, mkWorld d [CallGetUserID])).

(** The handler never asks for the caller. *)
Definition neverAuthenticates (env : Env)
    (h : Request env -> M env Response) : Prop :=
  forall (r : Request env) (d : DB env),
    existsb isGetUserID (calls (snd (run env (h r) d))) = false.

(** Every experiment handler resolves the caller first. *)
Definition allAuthenticateFirst (env : Env) : Prop :=
  authenticatesFirst env (GetExperimentDetails env) /\
  authenticatesFirst env (GetExperiments env) /\
  authenticatesFirst env (CreateExperiment env) /\
  authenticatesFirst env (UpdateExperiment env).

End protocol.

(** ** Rounding to nearest even, on located values

    The operations of [SpecFloat] round a real number that they hold as a
    mantissa, an exponent and the position of the number between the
    mantissa and its successor. The definitions below give that position
    a number, the code, on which one right shift and the final rounding
    are monotone functions; they are used to relate the [float32] results
    of [experimentProgress] to the real numbers they approximate. *)

Module rounding.

Definition pow2 (e : Z) : R := powerRZ 2 e.

Definition b2z (b : bool) : Z := if b then 1 else 0.

(** The code of a shift record: four times the mantissa, plus two for the
    round bit, plus one for the sticky bit. *)
Definition code (r : shr_record) : Z :=
  4 * shr_m r + 2 * b2z (shr_r r) + b2z (shr_s r).

(** The code of a mantissa with a location. *)
Definition codeOf (m : Z) (l : location) : Z :=
  code (shr_record_of_loc m l).

(** The real [v] is at code [c] for the exponent [e]: in units of a
    quarter of [2^e], an even code is the number itself and an odd code is
    the open interval between its two even neighbours. *)
Definition located (v : R) (c e : Z) : Prop :=
  if Z.even c then v = (IZR c * pow2 (e - 2))%R
  else (IZR (c - 1) * pow2 (e - 2) < v < IZR (c + 1) * pow2 (e - 2))%R.

(** One right shift, on codes. *)
Definition shr1c (c : Z) : Z :=
  2 * (c / 4) + (if c mod 4 =? 0 then 0 else 1).

(** Rounding to nearest, ties to even, on codes. *)
Definition rnec (c : Z) : Z :=
  let m := c / 4 in
  let l := c mod 4 in
  if l <=? 1 then m
  else if l =? 2 then (if Z.even m then m else m + 1)
  else m + 1.

Section Format.

Variables prec emax : Z.

(** The mantissa and exponent that rounding gives in the normal range:
    [n] shifts bring the mantissa to [prec] digits, the code is rounded,
    and a mantissa that reached [2^prec] is renormalised. *)
Definition rnd (c e n : Z) : Z * Z :=
  let k := rnec (Nat.iter (Z.to_nat n) shr1c c) in
  if k <? 2 ^ prec then (k, e + n) else (2 ^ (prec - 1), e + n + 1).

(** A mantissa of exactly [prec] digits. *)
Definition normalMantissa (m : Z) : Prop :=
  2 ^ (prec - 1) <= m < 2 ^ prec.

(** The order of positive normal floats: by exponent, then by mantissa. *)
Definition lexle (x y : Z * Z) : Prop :=
  snd x < snd y \/ (snd x = snd y /\ fst x <= fst y).

(** The real value of a mantissa and exponent. *)
Definition F2R (m e : Z) : R := (IZR m * pow2 e)%R.

(** The real value of a float; zero for what is not a finite number. *)
Definition B2R (x : spec_float) : R :=
  match x with
  | S754_finite s m e =>
      if s then (- F2R (Z.pos m) e)%R else F2R (Z.pos m) e
  | _ => 0%R
  end.

(** A positive float with a mantissa of [prec] digits and an exponent
    between [lo] and [hi]. *)
Definition posNormal (x : spec_float) (lo hi : Z) : Prop :=
  exists m e,
    x = S754_finite false (Z.to_pos m) e /\
    normalMantissa m /\ lo <= e <= hi.

(** The float [x] is the rounding of the real [v]: [v] is located at a
    code whose mantissa has [prec + n] digits, and [x] is what [rnd]
    gives for it; [lo] and [hi] bound the exponent before
    renormalisation. *)
Definition rounded (v : R) (x : spec_float) (lo hi : Z) : Prop :=
  exists c e n,
    0 <= c /\ 0 <= n /\
    2 ^ (prec + n - 1) <= c / 4 < 2 ^ (prec + n) /\
    located v c e /\
    lo <= e + n <= hi /\
    x = S754_finite false (Z.to_pos (fst (rnd c e n))) (snd (rnd c e n)).

End Format.

(** The expression of [experimentProgress] on its two counts. *)
Definition percent (countComplete countAll : Z) : Float32.float32 :=
  Float32.div (Float32.mul Float32.hundred (Float32.of_int countComplete))
    (Float32.of_int countAll).

(** The largest count [n] for which [100 * n] is below [2^26]: up to it
    the product [100.0 * float32(n)] is exact. *)
Definition exactBound : Z := 671088.

End rounding.

(** ** Notions used to state the behaviour of the handlers *)

Module behaviour.

Import Go serializer handler.

(** The wire shape of an experiment with a progress. *)
Definition view (e : model.Experiment) (p : Float32.float32)
    : experimentResponse :=
  mkExperimentResponse (model.ID e) (model.Name e) (model.Description e) p.

(** The wire shapes of a list of experiments with their progresses, in
    the order of the list. *)
Definition views (es : list model.Experiment) (ps : list Float32.float32)
    : list experimentResponse :=
  map (fun ep => view (fst ep) (snd ep)) (combine es ps).

(** The value of [experimentProgress] on the two counts. *)
Definition progressValue (countAll countComplete : Z) : Float32.float32 :=
  if countAll =? 0 then Float32.zero
  else rounding.percent countComplete countAll.

(** The two counts of an experiment and a user, when both are available. *)
Definition counts (env : Env) (d : DB env) (experimentID userID : Z)
    : option (Z * Z) :=
  match CountUserAssignment env d experimentID userID with
  | Ok countAll =>
      match CountCompleteUserAssignment env d experimentID userID with
      | Ok countComplete => Some (countAll, countComplete)
      | Err _ => None
      end
  | Err _ => None
  end.

(** The progress of a user in an experiment of the database; [0] stands in
    when a count is not available. *)
Definition progressIn (env : Env) (d : DB env) (userID : Z)
    (e : model.Experiment) : Float32.float32 :=
  match counts env d (model.ID e) userID with
  | Some (countAll, countComplete) => progressValue countAll countComplete
  | None => Float32.zero
  end.

(** The two counting calls made for an experiment. *)
Definition countCalls (userID : Z) (e : model.Experiment) : list Call :=
  [CallCountUserAssignment (model.ID e) userID;
   CallCountCompleteUserAssignment (model.ID e) userID].

(** A run from the database [d] that left it as it was and made no
    persisting call. *)
Definition readOnly {env : Env} {A : Type} (d : DB env)
    (res : Outcome A * World env) : Prop :=
  db (snd res) = d /\ existsb isPersist (calls (snd res)) = false.

Definition isPanic {A : Type} (o : Outcome A) : bool :=
  match o with
  | Panic => true
  | _ => false
  end.

(** The calls that reach a repository. *)
Definition isRepository (c : Call) : bool :=
  match c with
  | CallGetByID _ | CallGetAll | CallCreate _ | CallUpdate _
  | CallCountUserAssignment _ _ | CallCountCompleteUserAssignment _ _ => true
  | _ => false
  end.

Definition isCount (c : Call) : bool :=
  match c with
  | CallCountUserAssignment _ _ | CallCountCompleteUserAssignment _ _ => true
  | _ => false
  end.

(** A success envelope: status 200, a payload, no error list. *)
Definition successEnvelope (resp : Response) : Prop :=
  respStatus resp = 200 /\ Data resp <> None /\ Errors resp = nilSlice.

(** The in-memory collaborators with a store that refuses every write:
    [Create] and [Update] fail and change nothing. *)
Definition refused : error := errorString "attempt to write a readonly database".

Definition frozen : Env :=
  mkEnv memory.request memory.database memory.getUserID memory.urlParam
    memory.readAll memory.unmarshal memory.getByID memory.getAll
    (fun d e => (d, e, Some refused)) (fun d e => (d, e, Some refused))
    memory.countUserAssignment memory.countCompleteUserAssignment.

End behaviour.

(** ** The list of experiments as a slice of pointers

    [NewExperimentsResponse] receives a [[]*model.Experiment]: an element
    may be the nil pointer, [None] here, and the loop dereferences every
    element it visits. [serializer.NewExperimentsResponse] above is this
    function on a listing whose pointers are all set, which it receives
    as the experiments themselves. *)

Module pointers.

Import Go serializer.

(** The loop [for i, e := range experiments { result[i] = ... }] from
    index [i] on; [None] is a panic: the nil pointer dereferenced by
    [e.ID], or an index out of range in [progresses[i]] or in
    [result[i]]. *)
Fixpoint fillExperiments (i : nat)
    (experiments : list (option model.Experiment))
    (progresses : slice Float32.float32) (result : slice experimentResponse)
    : option (slice experimentResponse) :=
  match experiments with
  | [] => Some result
  | None :: _ => None
  | Some e :: rest =>
      match index progresses i with
      | None => None
      | Some p =>
          match assign result i
                  (mkExperimentResponse (model.ID e) (model.Name e)
                     (model.Description e) p) with
          | None => None
          | Some result' => fillExperiments (S i) rest progresses result'
          end
      end
  end.

(** [func NewExperimentsResponse(experiments []*model.Experiment,
    progresses []float32) *Response]; [None] is a run-time panic. *)
Definition NewExperimentsResponse
    (experiments : slice (option model.Experiment))
    (progresses : slice Float32.float32) : option Response :=
  let result := make zeroExperimentResponse (len experiments) in
  match fillExperiments 0 (elems experiments) progresses result with
  | None => None
  | Some result' => Some (newResponse (Some (anyExperiments result')))
  end.

(** The slice of the pointers to the experiments of a slice. *)
Definition addresses (s : slice model.Experiment)
    : slice (option model.Experiment) :=
  match s with
  | nilSlice => nilSlice
  | mkSlice l => mkSlice (map Some l)
  end.

End pointers.

(** * Properties *)

(** ** The response envelope *)

Module envelope_facts.

Import Go serializer.

(** C1. [newResponse] is a total function (its type has no failure case).
    On the nil payload the envelope has status 204 and no data; on a
    payload [v] it has status 200 and carries [v] as its data. *)
Theorem newResponse_status :
  respStatus (newResponse None) = 204 /\
  Data (newResponse None) = None /\
  forall v : any,
    respStatus (newResponse (Some v)) = 200 /\
    Data (newResponse (Some v)) = Some v.
Proof.
  repeat split.
Qed.

Lemma nonEmpty_false (s : string) : nonEmpty s = false <-> s = "".
Proof.
  destruct s; simpl; split; congruence.
Qed.

Lemma nonEmpty_true (s : string) : nonEmpty s = true <-> s <> "".
Proof.
  destruct s; simpl; split; congruence.
Qed.

(** C6. The message of a typed HTTP error: the title when it is not empty;
    with an empty title, the standard text of the status code when there
    is one; with neither, the standard text of status 500. *)
Theorem httpError_Error_fallback :
  (forall e : httpError, Title e <> "" -> httpError_Error e = Title e) /\
  (forall e : httpError,
     Title e = "" -> http.StatusText (Status e) <> "" ->
     httpError_Error e = http.StatusText (Status e)) /\
  (forall e : httpError,
     Title e = "" -> http.StatusText (Status e) = "" ->
     httpError_Error e = http.StatusText 500).
Proof.
  unfold httpError_Error.
  split; [| split]; intros e.
  - intros Ht. apply nonEmpty_true in Ht. now rewrite Ht.
  - intros Ht Hs. apply nonEmpty_false in Ht. apply nonEmpty_true in Hs.
    now rewrite Ht, Hs.
  - intros Ht Hs. apply nonEmpty_false in Ht. rewrite Ht.
    assert (Hn : nonEmpty (http.StatusText (Status e)) = false)
      by now apply nonEmpty_false.
    now rewrite Hn.
Qed.

Lemma httpError_Error_fallback_witness :
  httpError_Error (mkHttpError 404 "no experiment found" "") =
    "no experiment found" /\
  httpError_Error (mkHttpError 404 "" "") = "Not Found" /\
  httpError_Error (mkHttpError 999 "" "") = "Internal Server Error".
Proof.
  destruct httpError_Error_fallback as [H1 [H2 H3]].
  split; [| split].
  - apply (H1 (mkHttpError 404 "no experiment found" "")). discriminate.
  - apply (H2 (mkHttpError 404 "" "")); [reflexivity | discriminate].
  - apply (H3 (mkHttpError 999 "" "")); reflexivity.
Defined.

Lemma fillExperiments_nil (i : nat) (ps : slice Float32.float32)
    (result : slice experimentResponse) :
  fillExperiments i [] ps result = Some result.
Proof.
  reflexivity.
Qed.

Lemma len_zero_elems {A} (s : slice A) : len s = 0%nat -> elems s = [].
Proof.
  unfold len. now intros H%length_zero_iff_nil.
Qed.

(** The envelope built for an empty list of experiments. *)
Lemma NewExperimentsResponse_empty (experiments : slice model.Experiment)
    (progresses : slice Float32.float32) :
  len experiments = 0%nat ->
  NewExperimentsResponse experiments progresses =
    Some (mkResponse 200 (Some (anyExperiments (mkSlice []))) nilSlice).
Proof.
  intros H. unfold NewExperimentsResponse.
  rewrite (len_zero_elems _ H), H. reflexivity.
Qed.

End envelope_facts.

(** ** The handlers *)

Module handler_facts.

Import Go serializer handler protocol envelope_facts.

Section WithEnv.

Context (env : Env).

(** Unfolds one run of a handler down to the collaborator results. *)
Ltac step :=
  unfold run, GetExperimentDetails, GetExperiments, CreateExperiment,
    UpdateExperiment, experimentProgress, try, tryWith, bind, reading,
    writing, ret, fail, panic, record; cbn.

Lemma experimentProgress_run (experimentID userID : Z) (w : World env) :
  experimentProgress env experimentID userID w =
    let w1 := record env (CallCountUserAssignment experimentID userID) w in
    match CountUserAssignment env (db w) experimentID userID with
    | Err e =>
        (Fail (Errorf "Error count of assigments from the DB: " e), w1)
    | Ok countAll =>
        let w2 :=
          record env (CallCountCompleteUserAssignment experimentID userID) w1
        in
        match CountCompleteUserAssignment env (db w) experimentID userID with
        | Err e =>
            (Fail (Errorf "Error count of complete assigments from the DB: "
                     e), w2)
        | Ok countComplete =>
            (Return
               (if countAll =? 0 then Float32.zero
                else Float32.div
                       (Float32.mul Float32.hundred
                          (Float32.of_int countComplete))
                       (Float32.of_int countAll)), w2)
        end
    end.
Proof.
  destruct w as [d l]. step.
  destruct (CountUserAssignment env d experimentID userID) as [countAll |];
    cbn; [| reflexivity].
  destruct (CountCompleteUserAssignment env d experimentID userID);
    cbn; [| reflexivity].
  now destruct (countAll =? 0).
Qed.

(** A run of [experimentProgress] leaves the database as it found it. *)
Lemma experimentProgress_db (experimentID userID : Z) (w : World env) :
  db (snd (experimentProgress env experimentID userID w)) = db w.
Proof.
  rewrite experimentProgress_run. cbv zeta.
  destruct (CountUserAssignment env (db w) experimentID userID);
    [| reflexivity].
  now destruct (CountCompleteUserAssignment env (db w) experimentID userID).
Qed.

End WithEnv.

(** C3. With no assignment counted for the user, [experimentProgress]
    returns the float [0], with no error, whatever the number of complete
    assignments is; the value is neither a NaN nor an infinity. *)
Theorem experimentProgress_zero (env : Env) (experimentID userID : Z)
    (d : DB env) (countComplete : Z) :
  CountUserAssignment env d experimentID userID = Ok 0 ->
  CountCompleteUserAssignment env d experimentID userID = Ok countComplete ->
  exists p,
    fst (run env (experimentProgress env experimentID userID) d) = Return p /\
    p = Float32.zero /\
    Float32.is_nan p = false /\ Float32.is_inf p = false.
Proof.
  intros Hall Hcomplete. exists Float32.zero.
  unfold run. rewrite experimentProgress_run. simpl.
  rewrite Hall, Hcomplete. simpl. repeat split.
Qed.

Lemma experimentProgress_zero_witness :
  exists p,
    fst (run memory.env (experimentProgress memory.env 1 7) memory.emptyDB)
      = Return p /\
    p = Float32.zero /\
    Float32.is_nan p = false /\ Float32.is_inf p = false.
Proof.
  apply (experimentProgress_zero memory.env 1 7 memory.emptyDB 0);
    reflexivity.
Defined.

(** C4. With [countAll > 0], [experimentProgress] returns
    [100.0 * float32(countComplete) / float32(countAll)], the product and
    the quotient taken in [float32] and the result not rounded to a whole
    number; with four assignments of which one is complete the result is
    [25.0], and with three of which one is complete it is not integral. *)
Theorem experimentProgress_quotient (env : Env) (experimentID userID : Z)
    (d : DB env) :
  (forall countAll countComplete : Z,
     0 < countAll ->
     CountUserAssignment env d experimentID userID = Ok countAll ->
     CountCompleteUserAssignment env d experimentID userID
       = Ok countComplete ->
     fst (run env (experimentProgress env experimentID userID) d) =
       Return (Float32.div
                 (Float32.mul Float32.hundred (Float32.of_int countComplete))
                 (Float32.of_int countAll))) /\
  (CountUserAssignment env d experimentID userID = Ok 4 ->
   CountCompleteUserAssignment env d experimentID userID = Ok 1 ->
   fst (run env (experimentProgress env experimentID userID) d) =
     Return Float32.twenty_five) /\
  (CountUserAssignment env d experimentID userID = Ok 3 ->
   CountCompleteUserAssignment env d experimentID userID = Ok 1 ->
   exists p,
     fst (run env (experimentProgress env experimentID userID) d) = Return p /\
     Float32.is_integral p = false).
Proof.
  assert (G : forall countAll countComplete : Z,
     0 < countAll ->
     CountUserAssignment env d experimentID userID = Ok countAll ->
     CountCompleteUserAssignment env d experimentID userID
       = Ok countComplete ->
     fst (run env (experimentProgress env experimentID userID) d) =
       Return (Float32.div
                 (Float32.mul Float32.hundred (Float32.of_int countComplete))
                 (Float32.of_int countAll))).
  { intros countAll countComplete Hpos Hall Hcomplete.
    unfold run. rewrite experimentProgress_run. simpl.
    rewrite Hall, Hcomplete. simpl.
    destruct (Z.eqb_spec countAll 0) as [E | _]; [lia | reflexivity]. }
  split; [exact G | split].
  - intros Hall Hcomplete. now rewrite (G 4 1).
  - intros Hall Hcomplete. eexists. split.
    + now apply (G 3 1).
    + reflexivity.
Qed.

Lemma experimentProgress_quotient_witness :
  fst (run memory.env (experimentProgress memory.env 1 7) memory.sampleDB) =
    Return Float32.twenty_five.
Proof.
  apply (proj1 (proj2
    (experimentProgress_quotient memory.env 1 7 memory.sampleDB)));
    reflexivity.
Defined.

(** C5. A fault of either counting call makes [experimentProgress] fail:
    the failure is an untyped error whose message is the context text
    followed by the message of the fault, it is rendered as an internal
    failure, and no progress value, zero or other, is returned. *)
Theorem experimentProgress_fault (env : Env) (experimentID userID : Z)
    (d : DB env) :
  (forall e,
     CountUserAssignment env d experimentID userID = Err e ->
     exists err,
       fst (run env (experimentProgress env experimentID userID) d)
         = Fail err /\
       err = errorString
               ("Error count of assigments from the DB: " ++ Error e) /\
       isInternal err = true /\
       forall p,
         fst (run env (experimentProgress env experimentID userID) d)
           <> Return p) /\
  (forall e countAll,
     CountUserAssignment env d experimentID userID = Ok countAll ->
     CountCompleteUserAssignment env d experimentID userID = Err e ->
     exists err,
       fst (run env (experimentProgress env experimentID userID) d)
         = Fail err /\
       err = errorString
               ("Error count of complete assigments from the DB: " ++ Error e)
       /\
       isInternal err = true /\
       forall p,
         fst (run env (experimentProgress env experimentID userID) d)
           <> Return p).
Proof.
  split.
  - intros e Hall. eexists. unfold run. rewrite experimentProgress_run.
    simpl. rewrite Hall. simpl. repeat split. discriminate.
  - intros e countAll Hall Hcomplete. eexists. unfold run.
    rewrite experimentProgress_run. simpl. rewrite Hall, Hcomplete. simpl.
    repeat split. discriminate.
Qed.

Lemma experimentProgress_fault_witness :
  (exists err,
     fst (run memory.env (experimentProgress memory.env 1 7)
            memory.countFaultDB) = Fail err /\
     err = errorString
             "Error count of assigments from the DB: sql: database is closed"
     /\ isInternal err = true /\
     forall p,
       fst (run memory.env (experimentProgress memory.env 1 7)
              memory.countFaultDB) <> Return p) /\
  (exists err,
     fst (run memory.env (experimentProgress memory.env 1 7)
            memory.countCompleteFaultDB) = Fail err /\
     err = errorString
             "Error count of complete assigments from the DB: sql: database is closed"
     /\ isInternal err = true /\
     forall p,
       fst (run memory.env (experimentProgress memory.env 1 7)
              memory.countCompleteFaultDB) <> Return p).
Proof.
  split.
  - apply (proj1 (experimentProgress_fault memory.env 1 7
                    memory.countFaultDB) memory.fault).
    reflexivity.
  - apply (proj2 (experimentProgress_fault memory.env 1 7
                    memory.countCompleteFaultDB) memory.fault 0);
      reflexivity.
Defined.

(** C7, as the code has it. Once the caller and the path parameter are
    resolved, [GetExperimentDetails] on an identifier whose lookup
    succeeds without an entity fails with the typed error of status 404
    and title "no experiment found". A fault of the lookup, whatever it
    is, is handed back as it is: an untyped fault is rendered as an
    internal failure, and a typed one keeps the status code it carries. *)
Theorem GetExperimentDetails_missing (env : Env) (r : Request env)
    (d : DB env) (userID experimentID : Z) :
  GetUserID env r = Ok userID ->
  urlParamInt env r "experimentId" = Ok experimentID ->
  (GetByID env d experimentID = Ok None ->
   exists h,
     fst (run env (GetExperimentDetails env r) d) = Fail (HTTPError h) /\
     StatusCode h = 404 /\ Title h = "no experiment found") /\
  (forall e,
     GetByID env d experimentID = Err e ->
     fst (run env (GetExperimentDetails env r) d) = Fail e /\
     (forall msg, e = errorString msg -> isInternal e = true) /\
     (forall h, e = HTTPError h -> failureStatus e = StatusCode h)).
Proof.
  intros Huser Hparam. split.
  - intros Hget. eexists.
    unfold run, GetExperimentDetails, try, bind, reading, ret, fail. simpl.
    rewrite Huser, Hparam. simpl. rewrite Hget. simpl. repeat split.
  - intros e Hget. split; [| split].
    + unfold run, GetExperimentDetails, try, bind, reading, ret, fail. simpl.
      rewrite Huser, Hparam. simpl. rewrite Hget. reflexivity.
    + intros msg ->. reflexivity.
    + intros h ->. reflexivity.
Qed.

Lemma GetExperimentDetails_missing_witness :
  (exists h,
     fst (run memory.env
            (GetExperimentDetails memory.env (memory.fromUser 7 42 None))
            memory.sampleDB) = Fail (HTTPError h) /\
     StatusCode h = 404 /\ Title h = "no experiment found") /\
  (fst (run memory.env
          (GetExperimentDetails memory.env (memory.fromUser 7 1 None))
          memory.storeFaultDB) = Fail memory.fault /\
   (forall msg, memory.fault = errorString msg ->
                isInternal memory.fault = true) /\
   (forall h, memory.fault = HTTPError h ->
              failureStatus memory.fault = StatusCode h)).
Proof.
  split.
  - apply (proj1 (GetExperimentDetails_missing memory.env
                    (memory.fromUser 7 42 None) memory.sampleDB 7 42
                    eq_refl eq_refl)).
    reflexivity.
  - apply (proj2 (GetExperimentDetails_missing memory.env
                    (memory.fromUser 7 1 None) memory.storeFaultDB 7 1
                    eq_refl eq_refl) memory.fault).
    reflexivity.
Defined.

(** C7, as it is worded, fails: a lookup fault is not always an internal
    failure. When the lookup reports a typed error of status 503,
    [GetExperimentDetails] returns that error as it is, and it is rendered
    with status 503, not 500. *)
Lemma GetExperimentDetails_typed_fault :
  GetUserID memory.typed (memory.fromUser 7 1 None) = Ok 7 /\
  urlParamInt memory.typed (memory.fromUser 7 1 None) "experimentId"
    = Ok 1 /\
  GetByID memory.typed memory.sampleDB 1 = Err memory.unavailable /\
  fst (run memory.typed
         (GetExperimentDetails memory.typed (memory.fromUser 7 1 None))
         memory.sampleDB) = Fail memory.unavailable /\
  failureStatus memory.unavailable = 503 /\
  isInternal memory.unavailable = false.
Proof.
  repeat split.
Qed.

(** C8. Once the caller, the path parameter and the experiment are
    resolved, [UpdateExperiment] on a body that cannot be read, or that is
    read and cannot be parsed, fails with a typed error of status 400
    whose title is the message of the read or parse error; [Update] is not
    called (no persisting call is) and the database is the one the run
    started from, so the stored experiment is still the one looked up. *)
Theorem UpdateExperiment_malformed (env : Env) (r : Request env) (d : DB env)
    (userID experimentID : Z) (experiment : model.Experiment) (e : error) :
  GetUserID env r = Ok userID ->
  urlParamInt env r "experimentId" = Ok experimentID ->
  GetByID env d experimentID = Ok (Some experiment) ->
  ReadAll env r = Err e \/
  (exists body, ReadAll env r = Ok body /\ Unmarshal env body = Err e) ->
  let '(out, w) := run env (UpdateExperiment env r) d in
  out = Fail (HTTPError (mkHttpError 400 (Error e) "")) /\
  existsb isPersist (calls w) = false /\
  db w = d /\
  GetByID env (db w) experimentID = Ok (Some experiment).
Proof.
  intros Huser Hparam Hget Hbody.
  unfold run, UpdateExperiment, tryWith, try, bind, reading, ret, fail.
  simpl. rewrite Huser, Hparam. simpl. rewrite Hget. simpl.
  destruct Hbody as [Hread | [body [Hread Hparse]]].
  - rewrite Hread. simpl. repeat split. exact Hget.
  - rewrite Hread. simpl. rewrite Hparse. simpl. repeat split. exact Hget.
Qed.

Lemma UpdateExperiment_malformed_witness :
  let '(out, w) :=
    run memory.env
      (UpdateExperiment memory.env (memory.fromUser 7 1 (Some "{name")))
      memory.sampleDB in
  out = Fail (HTTPError
                (mkHttpError 400 "unexpected end of JSON input" "")) /\
  existsb isPersist (calls w) = false /\
  db w = memory.sampleDB /\
  GetByID memory.env (db w) 1 = Ok (Some memory.study).
Proof.
  apply (UpdateExperiment_malformed memory.env
           (memory.fromUser 7 1 (Some "{name")) memory.sampleDB 7 1
           memory.study (errorString "unexpected end of JSON input")).
  - reflexivity.
  - reflexivity.
  - reflexivity.
  - right. exists "{name". split; reflexivity.
Defined.

(** C10. For an experiment list of length zero [NewExperimentsResponse]
    wraps an allocated empty slice, so the envelope has status 200 and an
    empty list as data; [GetExperiments], once the caller is resolved and
    the listing returns no experiment, returns that envelope, which is not
    the 204 envelope of the nil payload. *)
Theorem GetExperiments_empty (env : Env) (r : Request env) (d : DB env)
    (userID : Z) (experiments : slice model.Experiment) :
  GetUserID env r = Ok userID ->
  GetAll env d = Ok experiments ->
  len experiments = 0%nat ->
  (forall progresses,
     NewExperimentsResponse experiments progresses =
       Some (mkResponse 200 (Some (anyExperiments (mkSlice []))) nilSlice)) /\
  fst (run env (GetExperiments env r) d) =
    Return (mkResponse 200 (Some (anyExperiments (mkSlice []))) nilSlice) /\
  fst (run env (GetExperiments env r) d) <> Return (newResponse None).
Proof.
  intros Huser Hall Hlen.
  assert (Hrun : fst (run env (GetExperiments env r) d) =
    Return (mkResponse 200 (Some (anyExperiments (mkSlice []))) nilSlice)).
  { unfold run, GetExperiments, try, bind, reading, ret, fail. simpl.
    rewrite Huser. simpl. rewrite Hall. simpl.
    rewrite (len_zero_elems _ Hlen). simpl.
    unfold ret. now rewrite NewExperimentsResponse_empty. }
  split; [| split].
  - intros progresses. now apply NewExperimentsResponse_empty.
  - exact Hrun.
  - rewrite Hrun. discriminate.
Qed.

Lemma GetExperiments_empty_witness :
  (forall progresses,
     NewExperimentsResponse nilSlice progresses =
       Some (mkResponse 200 (Some (anyExperiments (mkSlice []))) nilSlice)) /\
  fst (run memory.env
         (GetExperiments memory.env (memory.fromUser 7 1 None))
         memory.emptyDB) =
    Return (mkResponse 200 (Some (anyExperiments (mkSlice []))) nilSlice) /\
  fst (run memory.env
         (GetExperiments memory.env (memory.fromUser 7 1 None))
         memory.emptyDB) <> Return (newResponse None).
Proof.
  apply (GetExperiments_empty memory.env (memory.fromUser 7 1 None)
           memory.emptyDB 7 nilSlice); reflexivity.
Defined.

(** *** The order of the steps *)

Lemma experimentProgress_calls (env : Env) (experimentID userID : Z)
    (w : World env) :
  exists l',
    calls (snd (experimentProgress env experimentID userID w)) = calls w ++ l'.
Proof.
  rewrite experimentProgress_run. cbv zeta.
  destruct (CountUserAssignment env (db w) experimentID userID);
    [| eexists; cbn; reflexivity].
  destruct (CountCompleteUserAssignment env (db w) experimentID userID);
    eexists; cbn; rewrite <- app_assoc; reflexivity.
Qed.

(** Case analysis on the collaborator results met along a run. *)
Ltac run_cases :=
  repeat (cbn;
    match goal with
    | |- context [match ?x with Ok _ => _ | Err _ => _ end] => destruct x
    | |- context [match ?x with Some _ => _ | None => _ end] => destruct x
    | |- context [Create ?env ?d ?e] =>
        destruct (Create env d e) as [[? ?] ?]
    | |- context [Update ?env ?d ?e] =>
        destruct (Update env d e) as [[? ?] ?]
    | |- context [experimentProgress ?env ?a ?b ?w] =>
        let H := fresh "Hcalls" in
        destruct (experimentProgress_calls env a b w) as [? H];
        destruct (experimentProgress env a b w) as [[? | ? |] ?];
        cbn in H; cbn; rewrite H
    end);
  cbn; try reflexivity.

Lemma progressLoop_calls (env : Env) (l : list model.Experiment)
    (userID : Z) (ps : slice Float32.float32) (w : World env) :
  exists l', calls (snd (progressLoop env l userID ps w)) = calls w ++ l'.
Proof.
  revert ps w. induction l as [| e l IH]; intros ps w; cbn.
  - exists []. now rewrite app_nil_r.
  - unfold bind. rewrite experimentProgress_run. cbv zeta.
    destruct (CountUserAssignment env (db w) (model.ID e) userID);
      [| eexists; cbn; reflexivity].
    destruct (CountCompleteUserAssignment env (db w) (model.ID e) userID);
      [| eexists; cbn; rewrite <- app_assoc; reflexivity].
    match goal with
    | |- context [progressLoop env l userID ?ps' ?w'] =>
        destruct (IH ps' w') as [l' Hl']; rewrite Hl'
    end.
    eexists. cbn. rewrite <- !app_assoc. reflexivity.
Qed.

Lemma GetExperimentDetails_authenticates (env : Env) :
  authenticatesFirst env (GetExperimentDetails env).
Proof.
  intros r d. split.
  - unfold run, GetExperimentDetails, try, tryWith, bind, reading, ret, fail.
    run_cases.
  - intros e He.
    unfold run, GetExperimentDetails, try, bind, reading, ret, fail. cbn.
    now rewrite He.
Qed.

Lemma UpdateExperiment_authenticates (env : Env) :
  authenticatesFirst env (UpdateExperiment env).
Proof.
  intros r d. split.
  - unfold run, UpdateExperiment, try, tryWith, bind, reading, writing, ret,
      fail.
    run_cases.
  - intros e He.
    unfold run, UpdateExperiment, try, bind, reading, ret, fail. cbn.
    now rewrite He.
Qed.

Lemma GetExperiments_authenticates (env : Env) :
  authenticatesFirst env (GetExperiments env).
Proof.
  intros r d. split.
  - unfold run, GetExperiments, try, bind, reading, ret, fail, panic. cbn.
    destruct (GetUserID env r) as [userID |]; cbn; [| reflexivity].
    destruct (GetAll env d) as [experiments |]; cbn; [| reflexivity].
    match goal with
    | |- context [progressLoop env ?l ?u ?ps ?w] =>
        destruct (progressLoop_calls env l u ps w) as [l' Hl'];
        destruct (progressLoop env l u ps w) as [[ps' | e |] w']
    end; cbn in Hl' |- *;
      try destruct (NewExperimentsResponse experiments ps');
      cbn; rewrite Hl'; reflexivity.
  - intros e He.
    unfold run, GetExperiments, try, bind, reading, ret, fail. cbn.
    now rewrite He.
Qed.

Lemma CreateExperiment_neverAuthenticates (env : Env) :
  neverAuthenticates env (CreateExperiment env).
Proof.
  intros r d.
  unfold run, CreateExperiment, try, tryWith, bind, reading, writing, ret,
    fail.
  run_cases.
Qed.

Lemma CreateExperiment_first_call (env : Env) (r : Request env)
    (d : DB env) :
  hd_error (calls (snd (run env (CreateExperiment env r) d)))
    = Some CallReadAll.
Proof.
  unfold run, CreateExperiment, try, tryWith, bind, reading, writing, ret,
    fail.
  run_cases.
Qed.

(** C2, as the code has it. [GetExperimentDetails], [GetExperiments] and
    [UpdateExperiment] resolve the caller first: [GetUserID] is their
    first call, and when it fails they fail with its error before any
    parameter or body is read and before anything is persisted.
    [CreateExperiment] does not resolve the caller at all: in every run
    its first call is the reading of the body, and no call to [GetUserID]
    follows. *)
Theorem handlers_authentication (env : Env) :
  authenticatesFirst env (GetExperimentDetails env) /\
  authenticatesFirst env (GetExperiments env) /\
  authenticatesFirst env (UpdateExperiment env) /\
  neverAuthenticates env (CreateExperiment env) /\
  (forall (r : Request env) (d : DB env),
     hd_error (calls (snd (run env (CreateExperiment env r) d)))
       = Some CallReadAll).
Proof.
  split; [| split; [| split; [| split]]].
  - apply GetExperimentDetails_authenticates.
  - apply GetExperiments_authenticates.
  - apply UpdateExperiment_authenticates.
  - apply CreateExperiment_neverAuthenticates.
  - apply CreateExperiment_first_call.
Qed.

Lemma handlers_authentication_witness :
  run memory.env
    (UpdateExperiment memory.env (memory.anonymous "A/B test;compare styles"))
    memory.sampleDB =
  (Fail (errorString "User ID is not set in the context"),
   @mkWorld memory.env memory.sampleDB [CallGetUserID]).
Proof.
  apply (proj2 (proj1 (proj2 (proj2 (handlers_authentication memory.env)))
                  (memory.anonymous "A/B test;compare styles")
                  memory.sampleDB)).
  reflexivity.
Defined.

(** C2, as it is worded, fails: on a request with no caller attached
    [CreateExperiment] reads the body, persists the experiment and
    returns it, without a call to [GetUserID]. *)
Lemma CreateExperiment_unauthenticated :
  GetUserID memory.env (memory.anonymous "A/B test;compare styles") =
    Err (errorString "User ID is not set in the context") /\
  run memory.env
    (CreateExperiment memory.env (memory.anonymous "A/B test;compare styles"))
    memory.emptyDB =
  (Return (NewExperimentResponse memory.study Float32.zero),
   @mkWorld memory.env
     (memory.withExperiments memory.emptyDB [memory.study])
     [CallReadAll; CallUnmarshal "A/B test;compare styles";
      CallCreate (model.mkExperiment 0 "A/B test" "compare styles")]) /\
  ~ allAuthenticateFirst memory.env.
Proof.
  split; [reflexivity | split; [reflexivity |]].
  intros [_ [_ [H _]]].
  destruct (H (memory.anonymous "A/B test;compare styles") memory.emptyDB)
    as [Hhd _].
  discriminate Hhd.
Qed.

(** *** The scenarios of the specification, run on the in-memory instance *)

(** Listing: one experiment, a quarter of the assignments answered. *)
Example GetExperiments_sample :
  fst (run memory.env (GetExperiments memory.env (memory.fromUser 7 1 None))
         memory.sampleDB) =
  Return (mkResponse 200
            (Some (anyExperiments
                     (mkSlice [mkExperimentResponse 1 "A/B test"
                                 "compare styles" Float32.twenty_five])))
            nilSlice).
Proof.
  reflexivity.
Qed.

(** Create, then read: the new experiment has progress 0 both times. *)
Example create_then_read :
  let '(created, w) :=
    run memory.env
      (CreateExperiment memory.env
         (memory.fromUser 7 1 (Some "A/B test;compare styles")))
      memory.emptyDB in
  created = Return (NewExperimentResponse memory.study Float32.zero) /\
  fst (run memory.env
         (GetExperimentDetails memory.env (memory.fromUser 7 1 None))
         (db w)) =
    Return (NewExperimentResponse memory.study Float32.zero).
Proof.
  split; reflexivity.
Qed.

(** Update: the stored experiment is replaced, its identity kept. *)
Example update_sample :
  let '(updated, w) :=
    run memory.env
      (UpdateExperiment memory.env
         (memory.fromUser 7 1 (Some "renamed;new text")))
      memory.sampleDB in
  updated =
    Return (NewExperimentResponse
              (model.mkExperiment 1 "renamed" "new text")
              Float32.twenty_five) /\
  memory.experiments (db w) = [model.mkExperiment 1 "renamed" "new text"].
Proof.
  split; reflexivity.
Qed.

End handler_facts.

(** ** Rounding *)

Module rounding_facts.

Import rounding.

Local Open Scope Z_scope.

Ltac zdiv := Z.to_euclidean_division_equations; lia.

Ltac push_IZR :=
  repeat (rewrite plus_IZR in * || rewrite minus_IZR in * ||
          rewrite mult_IZR in *).

(** *** Codes *)

Lemma code_nonneg (r : shr_record) : 0 <= shr_m r -> 0 <= code r.
Proof.
  unfold code, b2z. destruct (shr_r r), (shr_s r); lia.
Qed.

Lemma code_div4 (r : shr_record) : code r / 4 = shr_m r.
Proof.
  unfold code, b2z. destruct (shr_r r), (shr_s r); zdiv.
Qed.

Lemma code_shr_1 (r : shr_record) :
  0 <= shr_m r -> code (shr_1 r) = shr1c (code r).
Proof.
  destruct r as [m rb sb]. unfold shr1c, code. cbn [shr_m shr_r shr_s].
  intros Hm.
  destruct m as [| p | p]; [| | lia].
  - destruct rb, sb; reflexivity.
  - destruct p as [p | p |]; cbn [shr_1 shr_m shr_r shr_s].
    + replace (Z.pos p~1) with (2 * Z.pos p + 1) by lia.
      destruct rb, sb; cbn [b2z orb];
        match goal with
        | |- context [?a mod 4 =? 0] => destruct (Z.eqb_spec (a mod 4) 0)
        end; zdiv.
    + replace (Z.pos p~0) with (2 * Z.pos p) by lia.
      destruct rb, sb; cbn [b2z orb];
        match goal with
        | |- context [?a mod 4 =? 0] => destruct (Z.eqb_spec (a mod 4) 0)
        end; zdiv.
    + destruct rb, sb; reflexivity.
Qed.

Lemma shr_1_nonneg (r : shr_record) : 0 <= shr_m r -> 0 <= shr_m (shr_1 r).
Proof.
  destruct r as [m rb sb]. cbn [shr_m]. intros Hm.
  destruct m as [| p | p]; [| | lia]; cbn.
  - lia.
  - destruct p; cbn; lia.
Qed.

Lemma shr1c_nonneg (c : Z) : 0 <= c -> 0 <= shr1c c.
Proof.
  unfold shr1c. intros H. destruct (c mod 4 =? 0); zdiv.
Qed.

Lemma shr1c_div4 (c : Z) : shr1c c / 4 = c / 4 / 2.
Proof.
  unfold shr1c. destruct (c mod 4 =? 0); zdiv.
Qed.

Lemma shr1c_mono (c1 c2 : Z) : c1 <= c2 -> shr1c c1 <= shr1c c2.
Proof.
  unfold shr1c. intros H.
  destruct (Z.eqb_spec (c1 mod 4) 0), (Z.eqb_spec (c2 mod 4) 0); zdiv.
Qed.

Lemma rnec_mono (c1 c2 : Z) : c1 <= c2 -> rnec c1 <= rnec c2.
Proof.
  unfold rnec. intros H.
  destruct (Z.leb_spec (c1 mod 4) 1), (Z.leb_spec (c2 mod 4) 1),
    (Z.eqb_spec (c1 mod 4) 2), (Z.eqb_spec (c2 mod 4) 2),
    (Z.even (c1 / 4)) eqn:E1, (Z.even (c2 / 4)) eqn:E2;
    try zdiv.
  all: assert (c1 / 4 = c2 / 4 \/ c1 / 4 < c2 / 4) as [Heq | Hlt] by zdiv;
    [rewrite Heq in E1; congruence | lia].
Qed.

Lemma rnec_bounds (c : Z) : c / 4 <= rnec c <= c / 4 + 1.
Proof.
  unfold rnec.
  destruct (c mod 4 <=? 1), (c mod 4 =? 2), (Z.even (c / 4)); lia.
Qed.

Lemma rnec_code (r : shr_record) :
  round_nearest_even (shr_m r) (loc_of_shr_record r) = rnec (code r).
Proof.
  destruct r as [m rb sb]. unfold rnec, code. cbn [shr_m shr_r shr_s].
  destruct rb, sb; cbn [loc_of_shr_record round_nearest_even b2z].
  - replace ((4 * m + 2 * 1 + 1) mod 4) with 3 by zdiv.
    replace ((4 * m + 2 * 1 + 1) / 4) with m by zdiv. reflexivity.
  - replace ((4 * m + 2 * 1 + 0) mod 4) with 2 by zdiv.
    replace ((4 * m + 2 * 1 + 0) / 4) with m by zdiv. reflexivity.
  - replace ((4 * m + 2 * 0 + 1) mod 4) with 1 by zdiv.
    replace ((4 * m + 2 * 0 + 1) / 4) with m by zdiv. reflexivity.
  - replace ((4 * m + 2 * 0 + 0) mod 4) with 0 by zdiv.
    replace ((4 * m + 2 * 0 + 0) / 4) with m by zdiv. reflexivity.
Qed.

Lemma iter_shr1c_mono (n : nat) (c1 c2 : Z) :
  c1 <= c2 -> Nat.iter n shr1c c1 <= Nat.iter n shr1c c2.
Proof.
  intros H. induction n as [| n IH]; [exact H |].
  rewrite !Nat.iter_succ. now apply shr1c_mono.
Qed.

Lemma iter_shr1c_div4 (n : nat) (c : Z) :
  0 <= c -> Nat.iter n shr1c c / 4 = c / 4 / 2 ^ Z.of_nat n.
Proof.
  intros Hc. induction n as [| n IH].
  - cbn. now rewrite Z.div_1_r.
  - rewrite Nat.iter_succ, shr1c_div4, IH.
    rewrite Nat2Z.inj_succ, Z.pow_succ_r by lia.
    rewrite Z.div_div by lia. f_equal. lia.
Qed.

Lemma iter_shr_1_code (n : nat) (r : shr_record) :
  0 <= shr_m r ->
  0 <= shr_m (Nat.iter n shr_1 r) /\
  code (Nat.iter n shr_1 r) = Nat.iter n shr1c (code r).
Proof.
  intros Hr. induction n as [| n [IHm IHc]].
  - split; [exact Hr | reflexivity].
  - rewrite !Nat.iter_succ. split; [now apply shr_1_nonneg |].
    now rewrite code_shr_1, IHc.
Qed.

Lemma iter_pos_nat {A} (f : A -> A) (p : positive) (x : A) :
  SpecFloat.iter_pos f p x = Nat.iter (Pos.to_nat p) f x.
Proof.
  revert x. induction p as [p IH | p IH |]; intros x; cbn [SpecFloat.iter_pos].
  - rewrite !IH, Pos2Nat.inj_xI.
    replace (S (2 * Pos.to_nat p)) with (Pos.to_nat p + (Pos.to_nat p + 1))%nat
      by lia.
    rewrite !Nat.iter_add. cbn. reflexivity.
  - rewrite !IH, Pos2Nat.inj_xO.
    replace (2 * Pos.to_nat p)%nat with (Pos.to_nat p + Pos.to_nat p)%nat
      by lia.
    now rewrite Nat.iter_add.
  - reflexivity.
Qed.

Lemma shr_nat (r : shr_record) (e n : Z) :
  0 <= n -> shr r e n = (Nat.iter (Z.to_nat n) shr_1 r, e + n).
Proof.
  intros Hn. destruct n as [| p | p]; [| | lia]; cbn [shr].
  - cbn. now rewrite Z.add_0_r.
  - now rewrite iter_pos_nat, Z2Nat.inj_pos.
Qed.

Lemma even_4q_r (q r : Z) : Z.even (4 * q + r) = Z.even r.
Proof.
  rewrite Z.even_add, Z.even_mul. change (Z.even 4) with true.
  now destruct (Z.even r).
Qed.

(** *** Digits *)

Lemma digits2_bounds (p : positive) :
  2 ^ (Z.pos (digits2_pos p) - 1) <= Z.pos p < 2 ^ Z.pos (digits2_pos p).
Proof.
  induction p as [p IH | p IH |]; cbn [digits2_pos].
  - rewrite Pos2Z.inj_succ.
    replace (Z.succ (Z.pos (digits2_pos p)) - 1)
      with (Z.succ (Z.pos (digits2_pos p) - 1)) by lia.
    rewrite !Z.pow_succ_r by lia. lia.
  - rewrite Pos2Z.inj_succ.
    replace (Z.succ (Z.pos (digits2_pos p)) - 1)
      with (Z.succ (Z.pos (digits2_pos p) - 1)) by lia.
    rewrite !Z.pow_succ_r by lia. lia.
  - cbn. lia.
Qed.

Lemma Zdigits2_bounds (m : Z) :
  0 < m -> 2 ^ (Zdigits2 m - 1) <= m < 2 ^ Zdigits2 m.
Proof.
  destruct m as [| p | p]; try lia. intros _. apply digits2_bounds.
Qed.

Lemma Zdigits2_pos (m : Z) : 0 < m -> 0 < Zdigits2 m.
Proof.
  destruct m as [| p | p]; try lia. intros _. cbn. lia.
Qed.

Lemma pow2_lt_inv (a b : Z) : 0 <= b -> 2 ^ a < 2 ^ b -> a < b.
Proof.
  intros Hb H. destruct (Z_lt_le_dec a b) as [| Hle]; [assumption |].
  apply (Z.pow_le_mono_r 2) in Hle; lia.
Qed.

Lemma Zdigits2_unique (m d : Z) :
  0 < m -> 2 ^ (d - 1) <= m < 2 ^ d -> Zdigits2 m = d.
Proof.
  intros Hm [Hlo Hhi].
  pose proof (Zdigits2_bounds m Hm) as [Hlo' Hhi'].
  pose proof (Zdigits2_pos m Hm) as Hd'.
  assert (Hd : 0 < d).
  { destruct (Z_lt_le_dec 0 d) as [| Hle]; [assumption |].
    assert (2 ^ d <= 2 ^ 0) by (apply Z.pow_le_mono_r; lia).
    change (2 ^ 0) with 1 in *. lia. }
  assert (d - 1 < Zdigits2 m) by (apply pow2_lt_inv; lia).
  assert (Zdigits2 m - 1 < d) by (apply pow2_lt_inv; lia).
  lia.
Qed.

(** *** Powers of two, in the reals *)

Local Open Scope R_scope.

Lemma pow2_pos (e : Z) : 0 < pow2 e.
Proof.
  apply powerRZ_lt. lra.
Qed.

Lemma pow2_add (a b : Z) : pow2 (a + b) = pow2 a * pow2 b.
Proof.
  apply powerRZ_add. lra.
Qed.

Lemma pow2_succ (e : Z) : pow2 (e + 1) = 2 * pow2 e.
Proof.
  assert (H : pow2 1 = 2) by (unfold pow2; apply (powerRZ_1 2)).
  rewrite pow2_add, H. lra.
Qed.

Lemma pow2_IZR (n : Z) : (0 <= n)%Z -> pow2 n = IZR (2 ^ n).
Proof.
  revert n. apply natlike_ind.
  - unfold pow2. cbn. reflexivity.
  - intros n Hn IH. unfold Z.succ.
    rewrite pow2_succ, IH, Z.pow_add_r, mult_IZR by lia.
    change (2 ^ 1)%Z with 2%Z. lra.
Qed.

Lemma pow2_le (a b : Z) : (a <= b)%Z -> pow2 a <= pow2 b.
Proof.
  intros H. replace b with (a + (b - a))%Z by lia.
  rewrite pow2_add, (pow2_IZR (b - a)) by lia.
  assert (1 <= IZR (2 ^ (b - a))).
  { apply IZR_le. assert (0 < 2 ^ (b - a))%Z by (apply Z.pow_pos_nonneg; lia).
    lia. }
  pose proof (pow2_pos a). nra.
Qed.

Lemma pow2_lt_le (a b : Z) : pow2 a < pow2 b -> (a < b)%Z.
Proof.
  intros H. destruct (Z_lt_le_dec a b) as [| Hle]; [assumption |].
  apply pow2_le in Hle. lra.
Qed.

Lemma pow2_quarter (e : Z) : pow2 e = 4 * pow2 (e - 2).
Proof.
  replace e with (e - 2 + 1 + 1)%Z at 1 by lia.
  rewrite !pow2_succ. lra.
Qed.

(** *** Located values *)

Lemma located_exact (m e : Z) : located (F2R m e) (4 * m) e.
Proof.
  unfold located, F2R.
  replace (Z.even (4 * m)) with true
    by (rewrite Z.even_mul; reflexivity).
  rewrite (pow2_quarter e), mult_IZR. lra.
Qed.

(** A located value lies between its mantissa and the successor. *)
Lemma located_bounds (v : R) (c e : Z) :
  located v c e -> F2R (c / 4) e <= v < F2R (c / 4 + 1) e.
Proof.
  unfold located, F2R. intros H.
  rewrite (pow2_quarter e).
  pose proof (pow2_pos (e - 2)) as HB.
  set (B := pow2 (e - 2)) in *.
  assert (Hc : (c = 4 * (c / 4) + c mod 4 /\ 0 <= c mod 4 < 4)%Z) by zdiv.
  destruct Hc as [Hc Hr]. set (q := (c / 4)%Z) in *.
  assert (Hcases : (c mod 4 = 0 \/ c mod 4 = 1 \/ c mod 4 = 2 \/ c mod 4 = 3)%Z)
    by lia.
  rewrite Hc in H.
  destruct Hcases as [E | [E | [E | E]]]; rewrite E in H;
    rewrite even_4q_r in H; cbn [Z.even] in H;
    push_IZR; nra.
Qed.

Lemma located_shr1c (v : R) (c e : Z) :
  located v c e -> located v (shr1c c) (e + 1).
Proof.
  unfold located, shr1c. intros H.
  replace (e + 1 - 2)%Z with (e - 2 + 1)%Z by lia.
  rewrite !pow2_succ.
  pose proof (pow2_pos (e - 2)) as HB.
  set (B := pow2 (e - 2)) in *.
  assert (Hc : (c = 4 * (c / 4) + c mod 4 /\ 0 <= c mod 4 < 4)%Z) by zdiv.
  destruct Hc as [Hc Hr]. set (q := (c / 4)%Z) in *.
  assert (Hcases : (c mod 4 = 0 \/ c mod 4 = 1 \/ c mod 4 = 2 \/ c mod 4 = 3)%Z)
    by lia.
  rewrite Hc in H.
  destruct Hcases as [E | [E | [E | E]]]; rewrite E in H |- *;
    rewrite even_4q_r in H; cbn [Z.even] in H;
    cbn [Z.eqb]; rewrite Z.even_add, Z.even_mul;
    cbn [Z.even orb negb Bool.eqb];
    push_IZR; nra.
Qed.

Lemma located_iter (v : R) (c e : Z) (n : nat) :
  located v c e -> located v (Nat.iter n shr1c c) (e + Z.of_nat n).
Proof.
  intros H. induction n as [| n IH].
  - cbn. now rewrite Z.add_0_r.
  - rewrite Nat.iter_succ, Nat2Z.inj_succ.
    replace (e + Z.succ (Z.of_nat n))%Z with (e + Z.of_nat n + 1)%Z by lia.
    now apply located_shr1c.
Qed.

(** At one exponent the codes are ordered as the values are. *)
Lemma located_mono (v1 v2 : R) (c1 c2 e : Z) :
  located v1 c1 e -> located v2 c2 e -> v1 <= v2 -> (c1 <= c2)%Z.
Proof.
  unfold located. intros H1 H2 Hv.
  pose proof (pow2_pos (e - 2)) as HB.
  set (B := pow2 (e - 2)) in *.
  destruct (Z.even c1) eqn:E1, (Z.even c2) eqn:E2.
  - apply le_IZR. nra.
  - assert (IZR c1 < IZR (c2 + 1)) by nra.
    apply lt_IZR in H. lia.
  - assert (IZR (c1 - 1) < IZR c2) by nra.
    apply lt_IZR in H. lia.
  - assert (IZR (c1 - 1) < IZR (c2 + 1)) by nra.
    apply lt_IZR in H.
    assert (c1 <> c2 + 1)%Z.
    { intros ->. rewrite Z.even_add in E1. rewrite E2 in E1. discriminate. }
    lia.
Qed.

(** *** Rounding in the normal range *)

Local Open Scope Z_scope.

Section Normal.

Variables prec emax : Z.
Hypothesis Hprec : 0 < prec.

Local Abbreviation emin := (SpecFloat.emin prec emax).
Local Abbreviation fexp := (SpecFloat.fexp prec emax).

Lemma shr_record_of_loc_m (m : Z) (l : location) :
  shr_m (shr_record_of_loc m l) = m.
Proof.
  now destruct l as [| []].
Qed.

Lemma codeOf_div4 (m : Z) (l : location) : codeOf m l / 4 = m.
Proof.
  unfold codeOf. now rewrite code_div4, shr_record_of_loc_m.
Qed.

Lemma codeOf_nonneg (m : Z) (l : location) : 0 <= m -> 0 <= codeOf m l.
Proof.
  intros H. apply code_nonneg. now rewrite shr_record_of_loc_m.
Qed.

(** The mantissa after the shifts that leave [prec] digits. *)
Lemma shifted_normal (m n : Z) :
  0 <= n -> 2 ^ (prec + n - 1) <= m < 2 ^ (prec + n) ->
  normalMantissa prec (m / 2 ^ n).
Proof.
  intros Hn [Hlo Hhi]. unfold normalMantissa.
  assert (Hp : 0 < 2 ^ n) by (apply Z.pow_pos_nonneg; lia).
  replace (prec + n - 1) with (n + (prec - 1)) in Hlo by lia.
  replace (prec + n) with (n + prec) in Hhi by lia.
  rewrite Z.pow_add_r in Hlo, Hhi by lia.
  split.
  - apply Z.div_le_lower_bound; lia.
  - apply Z.div_lt_upper_bound; lia.
Qed.

Lemma rnd_normal (c e n : Z) :
  0 <= c -> 0 <= n ->
  2 ^ (prec + n - 1) <= c / 4 < 2 ^ (prec + n) ->
  normalMantissa prec (fst (rnd prec c e n)) /\
  e + n <= snd (rnd prec c e n) <= e + n + 1.
Proof.
  intros Hc Hn Hm. unfold rnd.
  pose proof (shifted_normal (c / 4) n Hn Hm) as Hs.
  rewrite <- (Z2Nat.id n) in Hs at 1 by lia.
  rewrite <- iter_shr1c_div4 in Hs by lia.
  pose proof (rnec_bounds (Nat.iter (Z.to_nat n) shr1c c)) as Hk.
  unfold normalMantissa in *.
  destruct (Z.ltb_spec (rnec (Nat.iter (Z.to_nat n) shr1c c)) (2 ^ prec));
    cbn [fst snd].
  - lia.
  - assert (2 ^ prec = 2 * 2 ^ (prec - 1)).
    { replace prec with (Z.succ (prec - 1)) at 1 by lia.
      rewrite Z.pow_succ_r by lia. reflexivity. }
    assert (0 < 2 ^ (prec - 1)) by (apply Z.pow_pos_nonneg; lia).
    lia.
Qed.

(** [binary_round_aux] on a positive mantissa of at least [prec] digits,
    in the normal range. *)
Lemma binary_round_aux_normal (sx : bool) (mx ex : Z) (lx : location) :
  0 < mx -> prec <= Zdigits2 mx -> emin <= Zdigits2 mx + ex - prec ->
  binary_round_aux prec emax sx mx ex lx =
    let '(mf, ef) := rnd prec (codeOf mx lx) ex (Zdigits2 mx - prec) in
    if ef <=? emax - prec then S754_finite sx (Z.to_pos mf) ef
    else S754_infinity sx.
Proof.
  intros Hmx Hd Hemin.
  set (d := Zdigits2 mx) in *. set (n := d - prec).
  assert (Hn : 0 <= n) by (unfold n; lia).
  pose proof (Zdigits2_bounds mx Hmx) as Hdig. fold d in Hdig.
  unfold binary_round_aux, shr_fexp. fold d.
  replace (fexp (d + ex) - ex) with n
    by (unfold SpecFloat.fexp, n; lia).
  rewrite shr_nat by exact Hn.
  set (r1 := Nat.iter (Z.to_nat n) shr_1 (shr_record_of_loc mx lx)).
  assert (Hr1 : 0 <= shr_m r1 /\
                code r1 = Nat.iter (Z.to_nat n) shr1c (codeOf mx lx)).
  { apply iter_shr_1_code. rewrite shr_record_of_loc_m. lia. }
  destruct Hr1 as [Hr1m Hr1c].
  rewrite rnec_code, Hr1c.
  unfold rnd. fold n.
  set (c1 := Nat.iter (Z.to_nat n) shr1c (codeOf mx lx)) in *.
  assert (Hm1 : normalMantissa prec (c1 / 4)).
  { unfold c1. rewrite iter_shr1c_div4 by (apply codeOf_nonneg; lia).
    rewrite codeOf_div4, Z2Nat.id by lia.
    apply shifted_normal; [exact Hn |].
    replace (prec + n) with d by (unfold n; lia). exact Hdig. }
  pose proof (rnec_bounds c1) as Hk.
  set (k := rnec c1) in *.
  unfold normalMantissa in Hm1.
  assert (Hpow : 2 ^ prec = 2 * 2 ^ (prec - 1)).
  { replace prec with (Z.succ (prec - 1)) at 1 by lia.
    rewrite Z.pow_succ_r by lia. reflexivity. }
  assert (Hpow' : 0 < 2 ^ (prec - 1)) by (apply Z.pow_pos_nonneg; lia).
  destruct (Z.ltb_spec k (2 ^ prec)) as [Hlt | Hge].
  - assert (Hdk : Zdigits2 k = prec) by (apply Zdigits2_unique; lia).
    rewrite Hdk.
    replace (fexp (prec + (ex + n)) - (ex + n)) with 0
      by (unfold SpecFloat.fexp, n; lia).
    cbn [shr shr_record_of_loc shr_m].
    destruct k as [| p | p]; try lia. reflexivity.
  - assert (Hk2 : k = 2 ^ prec) by lia.
    assert (Hdk : Zdigits2 k = prec + 1).
    { apply Zdigits2_unique; [lia |].
      replace (prec + 1 - 1) with prec by lia.
      replace (prec + 1) with (Z.succ prec) by lia.
      rewrite Z.pow_succ_r by lia. lia. }
    rewrite Hdk.
    replace (fexp (prec + 1 + (ex + n)) - (ex + n)) with 1
      by (unfold SpecFloat.fexp, n; lia).
    rewrite shr_nat by lia.
    change (Z.to_nat 1) with 1%nat. cbn [Nat.iter nat_rect].
    assert (Hm : shr_m (shr_1 (shr_record_of_loc k loc_Exact))
                 = 2 ^ (prec - 1)).
    { rewrite <- code_div4, code_shr_1 by (cbn; lia).
      cbn [shr_record_of_loc]. unfold code. cbn [shr_m shr_r shr_s b2z].
      rewrite shr1c_div4. zdiv. }
    rewrite Hm.
    destruct (2 ^ (prec - 1)) as [| p | p] eqn:Ep; try lia.
    reflexivity.
Qed.

Lemma pow_prec_double : 2 ^ prec = 2 * 2 ^ (prec - 1).
Proof.
  replace prec with (Z.succ (prec - 1)) at 1 by lia.
  rewrite Z.pow_succ_r by lia. reflexivity.
Qed.

(** The rounded mantissa before renormalisation. *)
Lemma rnec_shifted (c n : Z) :
  0 <= c -> 0 <= n ->
  2 ^ (prec + n - 1) <= c / 4 < 2 ^ (prec + n) ->
  2 ^ (prec - 1) <= rnec (Nat.iter (Z.to_nat n) shr1c c) <= 2 ^ prec.
Proof.
  intros Hc Hn Hm.
  pose proof (shifted_normal (c / 4) n Hn Hm) as Hs.
  rewrite <- (Z2Nat.id n) in Hs at 1 by lia.
  rewrite <- iter_shr1c_div4 in Hs by lia.
  pose proof (rnec_bounds (Nat.iter (Z.to_nat n) shr1c c)) as Hk.
  unfold normalMantissa in Hs. lia.
Qed.

(** The binade of a located value whose mantissa has [prec + n] digits. *)
Lemma located_binade (v : R) (c e n : Z) :
  0 <= n ->
  2 ^ (prec + n - 1) <= c / 4 < 2 ^ (prec + n) ->
  located v c e ->
  (pow2 (prec + n + e - 1) <= v < pow2 (prec + n + e))%R.
Proof.
  intros Hn [Hlo Hhi] Hloc.
  apply located_bounds in Hloc. unfold F2R in Hloc.
  replace (prec + n + e - 1) with (prec + n - 1 + e) by lia.
  rewrite (pow2_add (prec + n - 1) e), (pow2_add (prec + n) e).
  rewrite (pow2_IZR (prec + n - 1)), (pow2_IZR (prec + n)) by lia.
  pose proof (pow2_pos e) as He.
  assert (H1 : (IZR (2 ^ (prec + n - 1)) <= IZR (c / 4))%R)
    by now apply IZR_le.
  assert (H2 : (IZR (c / 4 + 1) <= IZR (2 ^ (prec + n)))%R)
    by (apply IZR_le; lia).
  split; nra.
Qed.

(** Rounding is monotone: the results of two located values are ordered
    as the values are. *)
Lemma rnd_mono (v1 v2 : R) (c1 e1 n1 c2 e2 n2 : Z) :
  0 <= c1 -> 0 <= n1 -> 2 ^ (prec + n1 - 1) <= c1 / 4 < 2 ^ (prec + n1) ->
  0 <= c2 -> 0 <= n2 -> 2 ^ (prec + n2 - 1) <= c2 / 4 < 2 ^ (prec + n2) ->
  located v1 c1 e1 -> located v2 c2 e2 -> (v1 <= v2)%R ->
  lexle (rnd prec c1 e1 n1) (rnd prec c2 e2 n2).
Proof.
  intros Hc1 Hn1 Hm1 Hc2 Hn2 Hm2 Hl1 Hl2 Hv.
  pose proof (located_binade v1 c1 e1 n1 Hn1 Hm1 Hl1) as [Hb1 _].
  pose proof (located_binade v2 c2 e2 n2 Hn2 Hm2 Hl2) as [_ Hb2].
  assert (HM : prec + n1 + e1 - 1 < prec + n2 + e2)
    by (apply pow2_lt_le; lra).
  pose proof (rnec_shifted c1 n1 Hc1 Hn1 Hm1) as Hk1.
  pose proof (rnec_shifted c2 n2 Hc2 Hn2 Hm2) as Hk2.
  pose proof pow_prec_double as Hpow.
  assert (Hpow' : 0 < 2 ^ (prec - 1)) by (apply Z.pow_pos_nonneg; lia).
  assert (HE : e1 + n1 = e2 + n2 \/ e1 + n1 < e2 + n2) by lia.
  unfold rnd, lexle.
  destruct HE as [HE | HE].
  - apply (located_iter _ _ _ (Z.to_nat n1)) in Hl1.
    apply (located_iter _ _ _ (Z.to_nat n2)) in Hl2.
    rewrite Z2Nat.id in Hl1, Hl2 by lia. rewrite HE in Hl1.
    pose proof (located_mono _ _ _ _ _ Hl1 Hl2 Hv) as Hc.
    apply rnec_mono in Hc.
    destruct (Z.ltb_spec (rnec (Nat.iter (Z.to_nat n1) shr1c c1)) (2 ^ prec)),
      (Z.ltb_spec (rnec (Nat.iter (Z.to_nat n2) shr1c c2)) (2 ^ prec));
      cbn [fst snd]; lia.
  - destruct (Z.ltb_spec (rnec (Nat.iter (Z.to_nat n1) shr1c c1)) (2 ^ prec)),
      (Z.ltb_spec (rnec (Nat.iter (Z.to_nat n2) shr1c c2)) (2 ^ prec));
      cbn [fst snd]; lia.
Qed.

(** On normal mantissas the order [lexle] is the order of the values. *)
Lemma lexle_F2R (m1 e1 m2 e2 : Z) :
  normalMantissa prec m1 -> normalMantissa prec m2 ->
  lexle (m1, e1) (m2, e2) -> (F2R m1 e1 <= F2R m2 e2)%R.
Proof.
  unfold normalMantissa, lexle, F2R. cbn [fst snd].
  intros [Hlo1 Hhi1] [Hlo2 Hhi2] [Hlt | [Heq Hle]].
  - pose proof (pow2_pos e1) as He1. pose proof (pow2_pos e2) as He2.
    assert (H1 : (IZR m1 <= IZR (2 ^ prec))%R) by (apply IZR_le; lia).
    assert (H2 : (IZR (2 ^ (prec - 1)) <= IZR m2)%R) by now apply IZR_le.
    rewrite <- pow2_IZR in H1, H2 by lia.
    assert (H3 : (pow2 prec * pow2 e1 <= pow2 (prec - 1) * pow2 e2)%R).
    { rewrite <- !pow2_add. apply pow2_le. lia. }
    pose proof (pow2_pos prec). pose proof (pow2_pos (prec - 1)).
    apply Rle_trans with (pow2 prec * pow2 e1)%R; [nra |].
    apply Rle_trans with (pow2 (prec - 1) * pow2 e2)%R; [exact H3 | nra].
  - subst e2. pose proof (pow2_pos e1).
    assert (IZR m1 <= IZR m2)%R by now apply IZR_le.
    nra.
Qed.

Lemma rounded_posNormal (v : R) (x : spec_float) (lo hi : Z) :
  rounded prec v x lo hi -> posNormal prec x lo (hi + 1).
Proof.
  intros (c & e & n & Hc & Hn & Hm & _ & He & ->).
  destruct (rnd_normal c e n Hc Hn Hm) as [Hnm Hex].
  exists (fst (rnd prec c e n)), (snd (rnd prec c e n)).
  split; [reflexivity | split; [exact Hnm | lia]].
Qed.

Lemma rounded_weaken (v : R) (x : spec_float) (lo hi lo' hi' : Z) :
  lo' <= lo -> hi <= hi' -> rounded prec v x lo hi -> rounded prec v x lo' hi'.
Proof.
  clear Hprec. intros Hlo Hhi (c & e & n & Hc & Hn & Hm & Hl & He & Hx).
  exists c, e, n.
  split; [exact Hc |]. split; [exact Hn |]. split; [exact Hm |].
  split; [exact Hl |]. split; [lia | exact Hx].
Qed.

Lemma normalMantissa_pos (m : Z) : normalMantissa prec m -> 0 < m.
Proof.
  unfold normalMantissa. intros [Hlo _].
  assert (0 < 2 ^ (prec - 1)) by (apply Z.pow_pos_nonneg; lia). lia.
Qed.

Lemma B2R_posNormal (m e : Z) :
  0 < m -> B2R (S754_finite false (Z.to_pos m) e) = F2R m e.
Proof.
  intros Hm. cbn. now rewrite Z2Pos.id.
Qed.

Lemma posNormal_positive (x : spec_float) (lo hi : Z) :
  posNormal prec x lo hi -> (0 < B2R x)%R.
Proof.
  intros (m & e & -> & Hm & _).
  pose proof (normalMantissa_pos m Hm) as Hpos.
  rewrite B2R_posNormal by exact Hpos. unfold F2R.
  pose proof (pow2_pos e). assert (0 < IZR m)%R by now apply IZR_lt.
  nra.
Qed.

(** The comparison of two positive floats ordered by [lexle]. *)
Lemma SFleb_lexle (m1 e1 m2 e2 : Z) :
  0 < m1 -> 0 < m2 -> lexle (m1, e1) (m2, e2) ->
  SFleb (S754_finite false (Z.to_pos m1) e1)
        (S754_finite false (Z.to_pos m2) e2) = true.
Proof.
  unfold lexle, SFleb, SFcompare. cbn [fst snd].
  intros H1 H2 [Hlt | [Heq Hle]].
  - apply Z.compare_lt_iff in Hlt. now rewrite Hlt.
  - subst e2. rewrite Z.compare_refl.
    change (Pos.compare_cont Eq (Z.to_pos m1) (Z.to_pos m2))
      with (Z.to_pos m1 ?= Z.to_pos m2)%positive.
    destruct (Pos.compare_spec (Z.to_pos m1) (Z.to_pos m2)) as [| | Hgt];
      try reflexivity.
    apply Pos2Z.pos_lt_pos in Hgt. rewrite !Z2Pos.id in Hgt by lia. lia.
Qed.

(** Rounding is monotone, as a comparison of floats and as an order of
    their values. *)
Lemma rounded_mono (v1 v2 : R) (x1 x2 : spec_float) (lo1 hi1 lo2 hi2 : Z) :
  rounded prec v1 x1 lo1 hi1 -> rounded prec v2 x2 lo2 hi2 ->
  (v1 <= v2)%R ->
  SFleb x1 x2 = true /\ (B2R x1 <= B2R x2)%R.
Proof.
  intros (c1 & e1 & n1 & Hc1 & Hn1 & Hm1 & Hl1 & _ & ->)
         (c2 & e2 & n2 & Hc2 & Hn2 & Hm2 & Hl2 & _ & ->) Hv.
  pose proof (rnd_mono v1 v2 c1 e1 n1 c2 e2 n2
                Hc1 Hn1 Hm1 Hc2 Hn2 Hm2 Hl1 Hl2 Hv) as Hlex.
  destruct (rnd_normal c1 e1 n1 Hc1 Hn1 Hm1) as [Hnm1 _].
  destruct (rnd_normal c2 e2 n2 Hc2 Hn2 Hm2) as [Hnm2 _].
  destruct (rnd prec c1 e1 n1) as [mf1 ef1], (rnd prec c2 e2 n2) as [mf2 ef2].
  cbn [fst snd] in *.
  pose proof (normalMantissa_pos mf1 Hnm1).
  pose proof (normalMantissa_pos mf2 Hnm2).
  split.
  - now apply SFleb_lexle.
  - rewrite !B2R_posNormal by assumption. now apply lexle_F2R.
Qed.

Lemma rnd_exact (m e : Z) :
  normalMantissa prec m -> rnd prec (4 * m) e 0 = (m, e).
Proof.
  unfold normalMantissa, rnd. intros [Hlo Hhi].
  change (Z.to_nat 0) with 0%nat. cbn [Nat.iter nat_rect].
  assert (Hr : rnec (4 * m) = m).
  { unfold rnec. replace (4 * m mod 4) with 0 by zdiv.
    replace (4 * m / 4) with m by zdiv. reflexivity. }
  rewrite Hr. destruct (Z.ltb_spec m (2 ^ prec)); [| lia].
  now rewrite Z.add_0_r.
Qed.

Lemma lexle_antisym (x y : Z * Z) : lexle x y -> lexle y x -> x = y.
Proof.
  destruct x as [m1 e1], y as [m2 e2]. unfold lexle. cbn [fst snd].
  intros [H1 | [H1 H1']] [H2 | [H2 H2']]; try lia.
  f_equal; lia.
Qed.

(** A value that is a float is rounded to itself. *)
Lemma rounded_exact (v : R) (x : spec_float) (lo hi m e : Z) :
  rounded prec v x lo hi -> normalMantissa prec m -> v = F2R m e ->
  x = S754_finite false (Z.to_pos m) e.
Proof.
  intros (c & e0 & n & Hc & Hn & Hm & Hl & _ & ->) Hnm ->.
  pose proof (normalMantissa_pos m Hnm) as Hmpos.
  assert (Hm' : 2 ^ (prec + 0 - 1) <= 4 * m / 4 < 2 ^ (prec + 0)).
  { replace (4 * m / 4) with m by zdiv. rewrite Z.add_0_r. exact Hnm. }
  pose proof (located_exact m e) as Hl'.
  assert (Hle : (F2R m e <= F2R m e)%R) by lra.
  pose proof (rnd_mono _ _ c e0 n (4 * m) e 0 Hc Hn Hm
                ltac:(lia) ltac:(lia) Hm' Hl Hl' Hle) as H1.
  pose proof (rnd_mono _ _ (4 * m) e 0 c e0 n
                ltac:(lia) ltac:(lia) Hm' Hc Hn Hm Hl' Hl Hle) as H2.
  rewrite (rnd_exact m e Hnm) in H1, H2.
  now rewrite (lexle_antisym _ _ H1 H2).
Qed.

(** [binary_round_aux] rounds the value it is given, when that value is in
    the normal range and below the overflow threshold. *)
Lemma binary_round_aux_rounded (v : R) (mx ex : Z) (lx : location) :
  0 < mx -> prec <= Zdigits2 mx ->
  emin <= Zdigits2 mx + ex - prec ->
  Zdigits2 mx + ex - prec + 1 <= emax - prec ->
  located v (codeOf mx lx) ex ->
  rounded prec v (binary_round_aux prec emax false mx ex lx)
    (Zdigits2 mx + ex - prec) (Zdigits2 mx + ex - prec).
Proof.
  intros Hmx Hd Hemin Hemax Hloc.
  rewrite binary_round_aux_normal by assumption.
  pose proof (Zdigits2_bounds mx Hmx) as Hdig.
  set (n := Zdigits2 mx - prec) in *.
  assert (Hm : 2 ^ (prec + n - 1) <= codeOf mx lx / 4 < 2 ^ (prec + n)).
  { rewrite codeOf_div4. replace (prec + n) with (Zdigits2 mx)
      by (unfold n; lia). exact Hdig. }
  assert (Hc : 0 <= codeOf mx lx) by (apply codeOf_nonneg; lia).
  assert (Hn : 0 <= n) by (unfold n; lia).
  destruct (rnd_normal (codeOf mx lx) ex n Hc Hn Hm) as [_ Hex].
  exists (codeOf mx lx), ex, n.
  split; [exact Hc |]. split; [exact Hn |]. split; [exact Hm |].
  split; [exact Hloc |]. split; [unfold n; lia |].
  destruct (rnd prec (codeOf mx lx) ex n) as [mf ef]. cbn [fst snd] in *.
  destruct (Z.leb_spec ef (emax - prec)); [reflexivity | unfold n in *; lia].
Qed.

End Normal.

(** *** Alignment and division *)

Lemma codeOf_exact (m : Z) : codeOf m loc_Exact = 4 * m.
Proof.
  unfold codeOf, code. cbn. lia.
Qed.

Lemma shl_align_spec (mx : positive) (ex ex' : Z) :
  Z.pos (fst (shl_align mx ex ex')) = Z.pos mx * 2 ^ (ex - Z.min ex ex') /\
  snd (shl_align mx ex ex') = Z.min ex ex'.
Proof.
  unfold shl_align.
  destruct (ex' - ex) as [| d | d] eqn:E; cbn [fst snd].
  - replace (Z.min ex ex') with ex by lia.
    rewrite Z.sub_diag. cbn. lia.
  - replace (Z.min ex ex') with ex by lia.
    rewrite Z.sub_diag. cbn. lia.
  - replace (Z.min ex ex') with ex' by lia.
    replace (ex - ex') with (Z.pos d) by lia.
    change (Pos.iter xO mx d) with (shift_pos d mx).
    rewrite shift_pos_correct. change (Z.pow_pos 2 d) with (2 ^ Z.pos d).
    lia.
Qed.

Lemma F2R_shift (m e k : Z) :
  0 <= k -> F2R (m * 2 ^ k) (e - k) = F2R m e.
Proof.
  intros Hk. unfold F2R.
  rewrite mult_IZR, <- pow2_IZR by lia.
  replace e with (k + (e - k)) at 2 by lia.
  rewrite pow2_add. lra.
Qed.

(** The quotient [a / b] scaled by [2^e] is where [new_location] says,
    next to the integer quotient. *)
Lemma new_location_located (a b q r e : Z) :
  0 < b -> a = b * q + r -> 0 <= r < b ->
  located (IZR a / IZR b * pow2 e) (codeOf q (new_location b r)) e.
Proof.
  intros Hb Ha Hr.
  assert (HbR : (0 < IZR b)%R) by now apply IZR_lt.
  set (x := (IZR r / IZR b)%R).
  assert (Hx : (x * IZR b = IZR r)%R) by (unfold x; field; lra).
  assert (Hv : (IZR a / IZR b * pow2 e = (IZR q + x) * (4 * pow2 (e - 2)))%R).
  { rewrite <- pow2_quarter. subst a. unfold x.
    rewrite plus_IZR, mult_IZR. field. lra. }
  rewrite Hv. clear Hv.
  pose proof (pow2_pos (e - 2)) as HB. set (B := pow2 (e - 2)) in *.
  assert (Hx0 : (0 <= x)%R).
  { assert (0 <= IZR r)%R by (apply IZR_le; lia). nra. }
  assert (Hlt : forall k : Z, (2 * r < k * b)%Z -> (2 * x < IZR k)%R).
  { intros k Hk. apply IZR_lt in Hk. rewrite !mult_IZR in Hk. nra. }
  assert (Hgt : forall k : Z, (k * b < 2 * r)%Z -> (IZR k < 2 * x)%R).
  { intros k Hk. apply IZR_lt in Hk. rewrite !mult_IZR in Hk. nra. }
  assert (Hzero : r = 0%Z ->
            located ((IZR q + x) * (4 * B)) (codeOf q loc_Exact) e).
  { intros Hr0. assert (x = 0)%R by (subst r; nra).
    unfold located. fold B.
    rewrite codeOf_exact, Z.even_mul. cbn [Z.even orb].
    rewrite mult_IZR. nra. }
  unfold new_location.
  destruct (Z.even b) eqn:Eb;
    unfold new_location_even, new_location_odd;
    destruct (Z.eqb_spec r 0) as [Hr0 | Hr0]; try (now apply Hzero);
    pose proof (Hgt 0%Z ltac:(lia)) as Hpos;
    pose proof (Hlt 2%Z ltac:(lia)) as Hone;
    unfold located; fold B.
  - destruct (Z.compare_spec (2 * r) b) as [Heq | Hlt' | Hgt'];
      unfold codeOf, code; cbn [shr_record_of_loc shr_m shr_r shr_s b2z].
    + replace (4 * q + 2 * 1 + 0)%Z with (4 * q + 2)%Z by lia.
      rewrite even_4q_r. cbn [Z.even].
      assert (2 * x = 1)%R.
      { apply IZR_eq in Heq. rewrite mult_IZR in Heq. nra. }
      push_IZR. nra.
    + replace (4 * q + 2 * 0 + 1)%Z with (4 * q + 1)%Z by lia.
      rewrite even_4q_r. cbn [Z.even].
      pose proof (Hlt 1%Z ltac:(lia)).
      push_IZR. nra.
    + replace (4 * q + 2 * 1 + 1)%Z with (4 * q + 3)%Z by lia.
      rewrite even_4q_r. cbn [Z.even].
      pose proof (Hgt 1%Z ltac:(lia)).
      push_IZR. nra.
  - assert (Hodd : (2 * r <> b)%Z).
    { intros <-. rewrite Z.even_mul in Eb. discriminate. }
    destruct (Z.compare_spec (2 * r + 1) b) as [Heq | Hlt' | Hgt'];
      unfold codeOf, code; cbn [shr_record_of_loc shr_m shr_r shr_s b2z].
    + replace (4 * q + 2 * 0 + 1)%Z with (4 * q + 1)%Z by lia.
      rewrite even_4q_r. cbn [Z.even].
      pose proof (Hlt 1%Z ltac:(lia)).
      push_IZR. nra.
    + replace (4 * q + 2 * 0 + 1)%Z with (4 * q + 1)%Z by lia.
      rewrite even_4q_r. cbn [Z.even].
      pose proof (Hlt 1%Z ltac:(lia)).
      push_IZR. nra.
    + replace (4 * q + 2 * 1 + 1)%Z with (4 * q + 3)%Z by lia.
      rewrite even_4q_r. cbn [Z.even].
      pose proof (Hgt 1%Z ltac:(lia)).
      push_IZR. nra.
Qed.

End rounding_facts.

(** ** The float32 operations of [experimentProgress] *)

Module float32_facts.

Import rounding rounding_facts.

Local Open Scope Z_scope.

Lemma prec_pos : 0 < Float32.prec.
Proof.
  reflexivity.
Qed.

(** [float32(n)] rounds the integer [n]. *)
Lemma of_int_rounded (n : Z) :
  0 < n <= Go.maxInt ->
  rounded Float32.prec (IZR n) (Float32.of_int n) (-23) 39.
Proof.
  intros [Hpos Hmax].
  destruct n as [| p | p]; try lia.
  unfold Float32.of_int, binary_normalize, binary_round.
  pose proof (digits2_bounds p) as Hdig.
  set (d := Z.pos (digits2_pos p)) in *.
  assert (Hd1 : 1 <= d) by (unfold d; lia).
  assert (Hd63 : d <= 63).
  { assert (d - 1 < 63); [| lia].
    apply pow2_lt_inv; [lia |]. unfold Go.maxInt in Hmax. lia. }
  replace (fexp Float32.prec Float32.emax (d + 0)) with (d - 24)
    by (unfold fexp, emin, Float32.prec, Float32.emax; lia).
  pose proof (shl_align_spec p 0 (d - 24)) as [Hmz Hez].
  destruct (shl_align p 0 (d - 24)) as [mz ez]. cbn [fst snd] in Hmz, Hez.
  subst ez.
  set (k := 0 - Z.min 0 (d - 24)) in *.
  assert (Hk : 0 <= k) by (unfold k; lia).
  assert (Hv : IZR (Z.pos p) = F2R (Z.pos mz) (Z.min 0 (d - 24))).
  { rewrite Hmz. replace (Z.min 0 (d - 24)) with (0 - k) by (unfold k; lia).
    rewrite F2R_shift by exact Hk. unfold F2R, pow2. cbn. lra. }
  assert (Hdz : Zdigits2 (Z.pos mz) = d + k).
  { apply Zdigits2_unique; [lia |]. rewrite Hmz.
    replace (d + k - 1) with (d - 1 + k) by lia.
    rewrite !Z.pow_add_r by lia.
    assert (0 < 2 ^ k) by (apply Z.pow_pos_nonneg; lia). nia. }
  rewrite Hv.
  apply rounded_weaken
    with (lo := Zdigits2 (Z.pos mz) + Z.min 0 (d - 24) - Float32.prec)
         (hi := Zdigits2 (Z.pos mz) + Z.min 0 (d - 24) - Float32.prec);
    try (rewrite Hdz; unfold k, Float32.prec; lia).
  apply binary_round_aux_rounded.
  - exact prec_pos.
  - lia.
  - rewrite Hdz. unfold k, Float32.prec. lia.
  - rewrite Hdz. unfold k, emin, Float32.prec, Float32.emax. lia.
  - rewrite Hdz. unfold k, Float32.prec, Float32.emax. lia.
  - rewrite codeOf_exact. apply located_exact.
Qed.

Lemma pow2_m17 : (pow2 (-17) * 131072 = 1)%R.
Proof.
  change 131072%R with (IZR (2 ^ 17)). rewrite <- pow2_IZR by lia.
  rewrite <- pow2_add. reflexivity.
Qed.

(** [100.0 * x] rounds the product of 100 and the value of [x]. *)
Lemma mul_hundred_rounded (x : Float32.float32) (lo hi : Z) :
  -100 <= lo -> hi <= 80 ->
  posNormal Float32.prec x lo hi ->
  rounded Float32.prec (100 * B2R x) (Float32.mul Float32.hundred x)
    (lo + 6) (hi + 7).
Proof.
  intros Hlo Hhi (m & e & -> & Hm & He).
  pose proof (normalMantissa_pos _ prec_pos m Hm) as Hmpos.
  rewrite B2R_posNormal by exact Hmpos.
  unfold Float32.mul, Float32.hundred, SFmul. cbn [xorb].
  rewrite Pos2Z.inj_mul, Z2Pos.id by exact Hmpos.
  unfold normalMantissa, Float32.prec in Hm.
  change (2 ^ (24 - 1)) with 8388608 in Hm.
  change (2 ^ 24) with 16777216 in Hm.
  set (P := 13107200 * m).
  assert (HP : 0 < P) by (unfold P; lia).
  assert (Hv : (100 * F2R m e)%R = F2R P (-17 + e)).
  { unfold F2R, P. rewrite mult_IZR, pow2_add.
    pose proof pow2_m17. nra. }
  assert (Hd : Zdigits2 P = 47 \/ Zdigits2 P = 48).
  { destruct (Z_lt_le_dec P (2 ^ 47)).
    - left. apply Zdigits2_unique; [exact HP |].
      change (2 ^ (47 - 1)) with 70368744177664.
      change (2 ^ 47) with 140737488355328 in *. unfold P in *. lia.
    - right. apply Zdigits2_unique; [exact HP |].
      change (2 ^ (48 - 1)) with 140737488355328.
      change (2 ^ 47) with 140737488355328 in *.
      change (2 ^ 48) with 281474976710656. unfold P in *. lia. }
  rewrite Hv.
  apply rounded_weaken
    with (lo := Zdigits2 P + (-17 + e) - Float32.prec)
         (hi := Zdigits2 P + (-17 + e) - Float32.prec);
    try (unfold Float32.prec; lia).
  apply binary_round_aux_rounded.
  - exact prec_pos.
  - exact HP.
  - unfold Float32.prec. lia.
  - unfold emin, Float32.prec, Float32.emax. lia.
  - unfold Float32.prec, Float32.emax. lia.
  - rewrite codeOf_exact. apply located_exact.
Qed.

Lemma normal_digits (m : Z) :
  normalMantissa Float32.prec m -> Zdigits2 m = 24.
Proof.
  intros Hm. pose proof (normalMantissa_pos _ prec_pos m Hm).
  apply Zdigits2_unique; [assumption | exact Hm].
Qed.

(** [p / y] rounds the quotient of the values of [p] and [y]. *)
Lemma div_rounded (p y : Float32.float32) (lop hip loy hiy : Z) :
  -100 <= lop - hiy -> hip - loy <= 100 ->
  posNormal Float32.prec p lop hip -> posNormal Float32.prec y loy hiy ->
  rounded Float32.prec (B2R p / B2R y) (Float32.div p y)
    (lop - hiy - 24) (hip - loy - 23).
Proof.
  intros Hlo Hhi (mp & ep & -> & Hmp & Hep) (my & ey & -> & Hmy & Hey).
  pose proof (normalMantissa_pos _ prec_pos mp Hmp) as Hmppos.
  pose proof (normalMantissa_pos _ prec_pos my Hmy) as Hmypos.
  rewrite !B2R_posNormal by assumption.
  pose proof (normal_digits mp Hmp) as Hdp.
  pose proof (normal_digits my Hmy) as Hdy.
  unfold Float32.div, SFdiv, SFdiv_core_binary. cbn [xorb].
  rewrite !Z2Pos.id by assumption. rewrite Hdp, Hdy.
  replace (Z.min (fexp Float32.prec Float32.emax (24 + ep - (24 + ey)))
             (ep - ey)) with (ep - ey - 24)
    by (unfold fexp, emin, Float32.prec, Float32.emax; lia).
  replace (ep - ey - (ep - ey - 24)) with 24 by lia.
  cbv iota. rewrite Z.shiftl_mul_pow2 by lia.
  change (2 ^ 24) with 16777216.
  pose proof (Z_div_mod (mp * 16777216) my ltac:(lia)) as Hdiv.
  destruct (Z.div_eucl (mp * 16777216) my) as [q r].
  destruct Hdiv as [Hq Hr].
  unfold normalMantissa, Float32.prec in Hmp, Hmy.
  change (2 ^ (24 - 1)) with 8388608 in Hmp, Hmy.
  change (2 ^ 24) with 16777216 in Hmp, Hmy.
  assert (Hqlo : 8388608 <= q) by nia.
  assert (Hqhi : q < 33554432) by nia.
  assert (Hd : Zdigits2 q = 24 \/ Zdigits2 q = 25).
  { destruct (Z_lt_le_dec q 16777216).
    - left. apply Zdigits2_unique; [lia |].
      change (2 ^ (24 - 1)) with 8388608. change (2 ^ 24) with 16777216.
      lia.
    - right. apply Zdigits2_unique; [lia |].
      change (2 ^ (25 - 1)) with 16777216. change (2 ^ 25) with 33554432.
      lia. }
  assert (Hv : (F2R mp ep / F2R my ey
                = IZR (mp * 16777216) / IZR my * pow2 (ep - ey - 24))%R).
  { unfold F2R.
    replace ep with ((ep - ey - 24) + 24 + ey) at 1 by lia.
    rewrite !pow2_add, (pow2_IZR 24), mult_IZR by lia.
    change (2 ^ 24) with 16777216.
    pose proof (pow2_pos ey). pose proof (pow2_pos (ep - ey - 24)).
    assert (0 < IZR my)%R by now apply IZR_lt.
    field. split; lra. }
  rewrite Hv.
  apply rounded_weaken
    with (lo := Zdigits2 q + (ep - ey - 24) - Float32.prec)
         (hi := Zdigits2 q + (ep - ey - 24) - Float32.prec);
    try (unfold Float32.prec; lia).
  apply binary_round_aux_rounded.
  - exact prec_pos.
  - lia.
  - unfold Float32.prec. lia.
  - unfold emin, Float32.prec, Float32.emax. lia.
  - unfold Float32.prec, Float32.emax. lia.
  - now apply new_location_located with (r := r).
Qed.

(** An integer below [2^24], scaled by a power of two, is a float. *)
Lemma scaled_int_representable (N j : Z) :
  0 < N < 2 ^ 24 ->
  exists m e,
    normalMantissa Float32.prec m /\ (IZR N * pow2 j)%R = F2R m e.
Proof.
  intros [Hpos Hlt].
  pose proof (Zdigits2_bounds N Hpos) as Hdig.
  pose proof (Zdigits2_pos N Hpos) as Hd0.
  set (d := Zdigits2 N) in *.
  assert (Hd : d <= 24).
  { assert (d - 1 < 24); [| lia]. apply pow2_lt_inv; lia. }
  exists (N * 2 ^ (24 - d)), (j - (24 - d)). split.
  - unfold normalMantissa, Float32.prec.
    assert (E1 : 2 ^ (24 - 1) = 2 ^ (d - 1) * 2 ^ (24 - d))
      by (rewrite <- Z.pow_add_r by lia; f_equal; lia).
    assert (E2 : 2 ^ 24 = 2 ^ d * 2 ^ (24 - d))
      by (rewrite <- Z.pow_add_r by lia; f_equal; lia).
    rewrite E1, E2.
    assert (0 < 2 ^ (24 - d)) by (apply Z.pow_pos_nonneg; lia).
    split; [apply Z.mul_le_mono_nonneg_r | apply Z.mul_lt_mono_pos_r]; lia.
  - rewrite F2R_shift by lia. reflexivity.
Qed.

(** *** The percentage *)

Lemma percent_zero (countAll : Z) :
  0 < countAll <= Go.maxInt -> percent 0 countAll = Float32.zero.
Proof.
  intros H.
  destruct (rounded_posNormal _ prec_pos _ _ _ _ (of_int_rounded countAll H))
    as (m & e & Hy & _).
  unfold percent. rewrite Hy. reflexivity.
Qed.

(** With a positive number of complete assignments the percentage is the
    rounding of the quotient of the rounded product by the rounded
    total. *)
Lemma percent_rounded (countComplete countAll : Z) :
  0 < countComplete <= Go.maxInt -> 0 < countAll <= Go.maxInt ->
  rounded Float32.prec
    (B2R (Float32.mul Float32.hundred (Float32.of_int countComplete))
     / B2R (Float32.of_int countAll))
    (percent countComplete countAll) (-81) 48.
Proof.
  intros Hc Ha.
  pose proof (rounded_posNormal _ prec_pos _ _ _ _ (of_int_rounded _ Hc))
    as Hx.
  pose proof (rounded_posNormal _ prec_pos _ _ _ _ (of_int_rounded _ Ha))
    as Hy.
  pose proof (mul_hundred_rounded _ (-23) (39 + 1) ltac:(lia) ltac:(lia) Hx)
    as Hp.
  apply (rounded_posNormal _ prec_pos) in Hp.
  unfold percent.
  apply rounded_weaken with (lo := -23 + 6 - (39 + 1) - 24)
                            (hi := 39 + 1 + 7 + 1 - -23 - 23);
    [lia | lia |].
  apply div_rounded; try assumption; lia.
Qed.

(** The percentage does not decrease when the number of complete
    assignments grows. *)
Lemma percent_mono (countAll c1 c2 : Z) :
  0 < countAll <= Go.maxInt -> 0 <= c1 <= c2 -> c2 <= Go.maxInt ->
  Float32.leb (percent c1 countAll) (percent c2 countAll) = true.
Proof.
  intros Ha [H1 H12] H2. unfold Float32.leb.
  assert (Hc1 : c1 = 0 \/ 0 < c1) by lia.
  destruct Hc1 as [-> | Hc1].
  - rewrite percent_zero by exact Ha.
    assert (Hc2 : c2 = 0 \/ 0 < c2) by lia.
    destruct Hc2 as [-> | Hc2].
    + rewrite percent_zero by exact Ha. reflexivity.
    + destruct (rounded_posNormal _ prec_pos _ _ _ _
                  (percent_rounded c2 countAll ltac:(lia) Ha))
        as (m & e & -> & _).
      reflexivity.
  - assert (Hc1' : 0 < c1 <= Go.maxInt) by lia.
    assert (Hc2' : 0 < c2 <= Go.maxInt) by lia.
    pose proof (of_int_rounded c1 Hc1') as Hx1.
    pose proof (of_int_rounded c2 Hc2') as Hx2.
    assert (Hv : (IZR c1 <= IZR c2)%R) by now apply IZR_le.
    destruct (rounded_mono _ prec_pos _ _ _ _ _ _ _ _ Hx1 Hx2 Hv)
      as [_ Hxv].
    apply (rounded_posNormal _ prec_pos) in Hx1, Hx2.
    pose proof (mul_hundred_rounded _ (-23) (39 + 1)
                  ltac:(lia) ltac:(lia) Hx1) as Hp1.
    pose proof (mul_hundred_rounded _ (-23) (39 + 1)
                  ltac:(lia) ltac:(lia) Hx2) as Hp2.
    assert (Hpv : (100 * B2R (Float32.of_int c1)
                   <= 100 * B2R (Float32.of_int c2))%R) by lra.
    destruct (rounded_mono _ prec_pos _ _ _ _ _ _ _ _ Hp1 Hp2 Hpv)
      as [_ Hpv'].
    pose proof (posNormal_positive _ prec_pos _ _ _
                  (rounded_posNormal _ prec_pos _ _ _ _
                     (of_int_rounded _ Ha))) as Hy.
    assert (Hq : (B2R (Float32.mul Float32.hundred (Float32.of_int c1))
                    / B2R (Float32.of_int countAll)
                  <= B2R (Float32.mul Float32.hundred (Float32.of_int c2))
                    / B2R (Float32.of_int countAll))%R).
    { unfold Rdiv. apply Rmult_le_compat_r; [| exact Hpv'].
      apply Rlt_le, Rinv_0_lt_compat, Hy. }
    exact (proj1 (rounded_mono _ prec_pos _ _ _ _ _ _ _ _
                    (percent_rounded c1 countAll Hc1' Ha)
                    (percent_rounded c2 countAll Hc2' Ha) Hq)).
Qed.

(** A count up to [exactBound] is converted exactly. *)
Lemma of_int_exact (n : Z) :
  0 < n <= exactBound -> B2R (Float32.of_int n) = IZR n.
Proof.
  intros [Hpos Hle]. unfold exactBound in Hle.
  assert (Hn : 0 < n <= Go.maxInt) by (unfold Go.maxInt; lia).
  destruct (scaled_int_representable n 0) as (m & e & Hm & Hv).
  { change (2 ^ 24) with 16777216. lia. }
  assert (Hv' : IZR n = F2R m e).
  { rewrite <- Hv. unfold pow2. cbn. lra. }
  rewrite (rounded_exact _ prec_pos _ _ _ _ m e (of_int_rounded n Hn) Hm Hv').
  rewrite B2R_posNormal by (apply (normalMantissa_pos _ prec_pos), Hm).
  now rewrite Hv'.
Qed.

(** Up to [exactBound] the product by [100.0] is exact. *)
Lemma mul_hundred_exact (n : Z) :
  0 < n <= exactBound ->
  B2R (Float32.mul Float32.hundred (Float32.of_int n)) = (100 * IZR n)%R.
Proof.
  intros Hb. pose proof Hb as [Hpos Hle]. unfold exactBound in Hle.
  assert (Hn : 0 < n <= Go.maxInt) by (unfold Go.maxInt; lia).
  pose proof (rounded_posNormal _ prec_pos _ _ _ _ (of_int_rounded n Hn))
    as Hx.
  pose proof (mul_hundred_rounded _ (-23) (39 + 1) ltac:(lia) ltac:(lia) Hx)
    as Hp.
  rewrite of_int_exact in Hp by exact Hb.
  destruct (scaled_int_representable (25 * n) 2) as (m & e & Hm & Hv).
  { change (2 ^ 24) with 16777216. lia. }
  assert (Hv' : (100 * IZR n)%R = F2R m e).
  { rewrite <- Hv, mult_IZR, (pow2_IZR 2) by lia.
    change (IZR (2 ^ 2)) with 4%R. lra. }
  rewrite (rounded_exact _ prec_pos _ _ _ _ m e Hp Hm Hv').
  rewrite B2R_posNormal by (apply (normalMantissa_pos _ prec_pos), Hm).
  now rewrite Hv'.
Qed.

(** With every assignment complete the percentage is [100.0], up to
    [exactBound] assignments. *)
Lemma percent_all_complete (n : Z) :
  0 < n <= exactBound -> percent n n = Float32.hundred.
Proof.
  intros Hb. pose proof Hb as [Hpos Hle]. unfold exactBound in Hle.
  assert (Hn : 0 < n <= Go.maxInt) by (unfold Go.maxInt; lia).
  pose proof (percent_rounded n n Hn Hn) as Hr.
  rewrite mul_hundred_exact, of_int_exact in Hr by exact Hb.
  assert (Hm : normalMantissa Float32.prec 13107200).
  { unfold normalMantissa, Float32.prec.
    change (2 ^ (24 - 1)) with 8388608. change (2 ^ 24) with 16777216. lia. }
  assert (Hv : (100 * IZR n / IZR n)%R = F2R 13107200 (-17)).
  { assert (0 < IZR n)%R by now apply IZR_lt.
    unfold F2R. pose proof pow2_m17. field_simplify; [| lra]. nra. }
  exact (rounded_exact _ prec_pos _ _ _ _ _ _ Hr Hm Hv).
Qed.

End float32_facts.

(** ** The progress as a function of the number of complete assignments *)

Module progress_facts.

Import Go serializer handler rounding handler_facts float32_facts.

Local Open Scope Z_scope.

(** C9, as the code has it. For a fixed [countAll > 0] the progress does
    not decrease when [countComplete] grows from 0 to [countAll]; with
    every assignment complete it is exactly [100.0] as long as [countAll]
    is at most 671088, the counts for which the [float32] product
    [100.0 * countAll] is exact. *)
Theorem experimentProgress_monotone (env : Env) (experimentID userID : Z)
    (d1 d2 : DB env) (countAll c1 c2 : Z) :
  0 < countAll <= maxInt -> 0 <= c1 <= c2 -> c2 <= countAll ->
  CountUserAssignment env d1 experimentID userID = Ok countAll ->
  CountCompleteUserAssignment env d1 experimentID userID = Ok c1 ->
  CountUserAssignment env d2 experimentID userID = Ok countAll ->
  CountCompleteUserAssignment env d2 experimentID userID = Ok c2 ->
  exists p1 p2,
    fst (run env (experimentProgress env experimentID userID) d1)
      = Return p1 /\
    fst (run env (experimentProgress env experimentID userID) d2)
      = Return p2 /\
    Float32.leb p1 p2 = true /\
    (c2 = countAll -> countAll <= exactBound -> p2 = Float32.hundred).
Proof.
  intros Ha Hc Hc2 Hall1 Hcomp1 Hall2 Hcomp2.
  exists (percent c1 countAll), (percent c2 countAll).
  assert (Hne : (countAll =? 0) = false) by (apply Z.eqb_neq; lia).
  repeat split.
  - unfold run. rewrite experimentProgress_run. cbn.
    rewrite Hall1, Hcomp1. cbn. now rewrite Hne.
  - unfold run. rewrite experimentProgress_run. cbn.
    rewrite Hall2, Hcomp2. cbn. now rewrite Hne.
  - apply percent_mono; lia.
  - intros -> Hb. apply percent_all_complete. lia.
Qed.

Lemma experimentProgress_monotone_witness :
  exists p1 p2,
    fst (run memory.tally (experimentProgress memory.tally 1 7) (4, 1))
      = Return p1 /\
    fst (run memory.tally (experimentProgress memory.tally 1 7) (4, 4))
      = Return p2 /\
    Float32.leb p1 p2 = true /\
    (4 = 4 -> 4 <= exactBound -> p2 = Float32.hundred).
Proof.
  apply (experimentProgress_monotone memory.tally 1 7 (4, 1) (4, 4) 4 1 4);
    try reflexivity; unfold maxInt; lia.
Defined.

(** C9, as it is worded, fails: with 671089 assignments, all of them
    complete, the product [100.0 * float32(671089)] is rounded and the
    quotient is the float just below [100.0]. *)
Lemma experimentProgress_below_hundred :
  fst (run memory.tally (experimentProgress memory.tally 1 7)
         (671089, 671089))
    = Return (S754_finite false 13107199 (-17)) /\
  S754_finite false 13107199 (-17) <> Float32.hundred /\
  Float32.leb Float32.hundred (S754_finite false 13107199 (-17)) = false.
Proof.
  split; [vm_compute; reflexivity | split; [discriminate | reflexivity]].
Qed.

End progress_facts.

(** * Further properties of the serializers and of the handlers *)

(** ** Typed errors *)

Module error_facts.

Import Go serializer envelope_facts.


(** X1. The message of a typed HTTP error is never the empty string,
    whatever its status and title are. *)
Theorem httpError_Error_nonEmpty (e : httpError) :
  nonEmpty (httpError_Error e) = true.
Proof.
  unfold httpError_Error.
  destruct (nonEmpty (Title e)) eqn:Ht; [exact Ht |].
  destruct (nonEmpty (http.StatusText (Status e))) eqn:Hs; [exact Hs |].
  reflexivity.
Qed.



End error_facts.

(** ** The list of experiments *)

Module list_facts.

Import Go serializer behaviour.

Lemma update_length {A} (l : list A) (i : nat) (x : A) :
  List.length (update l i x) = List.length l.
Proof.
  revert i. induction l as [| h t IH]; intros [| j]; cbn; auto.
Qed.

Lemma firstn_update_succ {A} (l : list A) (i : nat) (x : A) :
  (i < List.length l)%nat ->
  firstn (S i) (update l i x) = firstn i l ++ [x].
Proof.
  revert i. induction l as [| h t IH]; intros [| j] H; cbn in *; try lia.
  - reflexivity.
  - f_equal. apply IH. lia.
Qed.

Lemma skipn_update_above {A} (l : list A) (i k : nat) (x : A) :
  (i < k)%nat -> skipn k (update l i x) = skipn k l.
Proof.
  revert i k. induction l as [| h t IH]; intros [| j] [| k] H; cbn;
    try lia; try reflexivity.
  apply IH. lia.
Qed.

Lemma nth_error_lt {A} (l : list A) (i : nat) (x : A) :
  nth_error l i = Some x -> (i < List.length l)%nat.
Proof.
  intros H. apply nth_error_Some. congruence.
Qed.

Lemma skipn_nth_error {A} (l : list A) (i : nat) (x : A) :
  nth_error l i = Some x -> skipn i l = x :: skipn (S i) l.
Proof.
  revert i. induction l as [| h t IH]; intros [| j] H; cbn in *;
    try discriminate.
  - now inversion H.
  - now apply IH.
Qed.

(** The loop, as long as both slices are long enough: the slots from [i]
    on receive the views, the others are left as they were. *)
Lemma fillExperiments_ok (es : list model.Experiment)
    (ps : slice Float32.float32) :
  forall (i : nat) (l : list experimentResponse),
    (i + List.length es <= List.length l)%nat ->
    (i + List.length es <= len ps)%nat ->
    fillExperiments i es ps (mkSlice l) =
      Some (mkSlice (firstn i l ++ views es (skipn i (elems ps))
                       ++ skipn (i + List.length es) l)).
Proof.
  unfold len.
  induction es as [| e rest IH]; intros i l Hl Hp; cbn [fillExperiments].
  - cbn. rewrite Nat.add_0_r. now rewrite firstn_skipn.
  - cbn [List.length] in Hl, Hp. unfold index.
    destruct (nth_error (elems ps) i) as [p |] eqn:Hnth.
    2:{ apply nth_error_None in Hnth. lia. }
    unfold assign, len. cbn [elems].
    destruct (Nat.ltb_spec i (List.length l)); [| lia].
    rewrite IH by (rewrite ?update_length; lia).
    rewrite firstn_update_succ by lia.
    rewrite skipn_update_above by lia.
    rewrite (skipn_nth_error _ _ _ Hnth).
    unfold views. cbn [combine map fst snd List.length].
    rewrite <- app_assoc. cbn [app].
    now replace (S i + List.length rest)%nat
      with (i + S (List.length rest))%nat by lia.
Qed.

(** The loop panics when the progresses run out. *)
Lemma fillExperiments_short (es : list model.Experiment)
    (ps : slice Float32.float32) :
  forall (i : nat) (l : list experimentResponse),
    (i + List.length es <= List.length l)%nat ->
    (i <= len ps < i + List.length es)%nat ->
    fillExperiments i es ps (mkSlice l) = None.
Proof.
  unfold len.
  induction es as [| e rest IH]; intros i l Hl Hp; cbn [fillExperiments].
  - cbn in Hp. lia.
  - cbn [List.length] in Hl, Hp. unfold index.
    destruct (nth_error (elems ps) i) as [p |] eqn:Hnth; [| reflexivity].
    apply nth_error_lt in Hnth.
    unfold assign, len. cbn [elems].
    destruct (Nat.ltb_spec i (List.length l)); [| lia].
    apply IH; rewrite ?update_length; lia.
Qed.

Lemma views_length (es : list model.Experiment) (ps : list Float32.float32) :
  (List.length es <= List.length ps)%nat ->
  List.length (views es ps) = List.length es.
Proof.
  intros H. unfold views. rewrite length_map, length_combine. lia.
Qed.

(** The envelope of a list of experiments, when there are enough
    progresses. *)
Lemma NewExperimentsResponse_ok (experiments : slice model.Experiment)
    (progresses : slice Float32.float32) :
  (len experiments <= len progresses)%nat ->
  NewExperimentsResponse experiments progresses =
    Some (mkResponse 200
            (Some (anyExperiments
                     (mkSlice (views (elems experiments)
                                 (elems progresses)))))
            nilSlice).
Proof.
  intros H. unfold NewExperimentsResponse, make.
  rewrite fillExperiments_ok
    by (rewrite ?repeat_length; unfold len in *; lia).
  cbn [firstn skipn app plus]. unfold len.
  rewrite skipn_all2 by (rewrite repeat_length; lia).
  now rewrite app_nil_r.
Qed.

Lemma views_nth (es : list model.Experiment) (ps : list Float32.float32)
    (i : nat) (e : model.Experiment) (p : Float32.float32) :
  nth_error es i = Some e -> nth_error ps i = Some p ->
  nth_error (views es ps) i = Some (view e p).
Proof.
  intros He Hp. unfold views. rewrite nth_error_map.
  assert (Hc : nth_error (combine es ps) i = Some (e, p)).
  { revert ps i He Hp.
    induction es as [| e' es IH]; intros [| p' ps] [| j] He Hp; cbn in *;
      try discriminate.
    - now inversion He; inversion Hp.
    - now apply IH. }
  now rewrite Hc.
Qed.

(** On pointers that are all set the loop is the loop on the experiments
    themselves. *)
Lemma fillExperiments_addresses (es : list model.Experiment)
    (ps : slice Float32.float32) :
  forall (i : nat) (result : slice experimentResponse),
    pointers.fillExperiments i (map Some es) ps result
      = fillExperiments i es ps result.
Proof.
  induction es as [| e es IH]; intros i result; cbn; [reflexivity |].
  destruct (index ps i); [| reflexivity].
  destruct (assign result i _); [apply IH | reflexivity].
Qed.

(** The loop panics when it meets a nil pointer, if it has not panicked
    before. *)
Lemma fillExperiments_nil_pointer (l : list (option model.Experiment))
    (ps : slice Float32.float32) :
  In None l ->
  forall (i : nat) (result : slice experimentResponse),
    pointers.fillExperiments i l ps result = None.
Proof.
  induction l as [| [e |] l IH]; intros Hin i result; cbn.
  - destruct Hin.
  - destruct Hin as [Hin | Hin]; [discriminate |].
    destruct (index ps i); [| reflexivity].
    destruct (assign result i _); [now apply IH | reflexivity].
  - reflexivity.
Qed.

Lemma pointers_cases {A} (l : list (option A)) :
  In None l \/ exists es, l = map Some es.
Proof.
  induction l as [| [a |] l [IH | [es IH]]].
  - right. now exists [].
  - left. now right.
  - right. exists (a :: es). cbn. now rewrite IH.
  - left. now left.
  - left. now left.
Qed.

Lemma NewExperimentsResponse_addresses (records : slice model.Experiment)
    (progresses : slice Float32.float32) :
  pointers.NewExperimentsResponse (pointers.addresses records) progresses
    = NewExperimentsResponse records progresses.
Proof.
  unfold pointers.NewExperimentsResponse, NewExperimentsResponse.
  destruct records as [| l]; [reflexivity |].
  unfold len. cbn [pointers.addresses elems].
  now rewrite fillExperiments_addresses, length_map.
Qed.

(** X3. [NewExperimentsResponse], on a listing of pointers, needs every
    pointer set and a progress for every experiment. With every pointer
    set and at least as many progresses as experiments it returns the
    envelope of status 200 whose data has one entry for each experiment,
    in the order of the experiments, each with the progress of the same
    index (progresses in excess are ignored). It panics when the listing
    holds a nil pointer, and when there are fewer progresses than
    elements. On pointers that are all set it is the function that the
    handlers are given in this development. *)
Theorem NewExperimentsResponse_bounds
    (experiments : slice (option model.Experiment))
    (progresses : slice Float32.float32) :
  (forall es : list model.Experiment,
     elems experiments = map Some es ->
     (List.length es <= len progresses)%nat ->
     pointers.NewExperimentsResponse experiments progresses =
       Some (mkResponse 200
               (Some (anyExperiments
                        (mkSlice (views es (elems progresses)))))
               nilSlice) /\
     List.length (views es (elems progresses)) = List.length es /\
     forall i e,
       nth_error es i = Some e ->
       exists p,
         nth_error (elems progresses) i = Some p /\
         nth_error (views es (elems progresses)) i = Some (view e p)) /\
  (In None (elems experiments) ->
   pointers.NewExperimentsResponse experiments progresses = None) /\
  ((len progresses < len experiments)%nat ->
   pointers.NewExperimentsResponse experiments progresses = None) /\
  (forall records : slice model.Experiment,
     experiments = pointers.addresses records ->
     pointers.NewExperimentsResponse experiments progresses
       = NewExperimentsResponse records progresses).
Proof.
  split; [| split; [| split]].
  - intros es Hes Hlen. split; [| split].
    + unfold pointers.NewExperimentsResponse, make, len. rewrite Hes.
      rewrite fillExperiments_addresses, length_map.
      rewrite fillExperiments_ok by (rewrite ?repeat_length; lia).
      cbn [firstn skipn app plus].
      rewrite skipn_all2 by (rewrite repeat_length; lia).
      now rewrite app_nil_r.
    + apply views_length. unfold len in Hlen. lia.
    + intros i e He.
      destruct (nth_error (elems progresses) i) as [p |] eqn:Hp.
      2:{ apply nth_error_None in Hp. apply nth_error_lt in He.
          unfold len in Hlen. lia. }
      exists p. split; [reflexivity | now apply views_nth].
  - intros Hin. unfold pointers.NewExperimentsResponse.
    now rewrite fillExperiments_nil_pointer.
  - intros Hlen. unfold pointers.NewExperimentsResponse.
    destruct (pointers_cases (elems experiments)) as [Hin | [es Hes]].
    + now rewrite fillExperiments_nil_pointer.
    + unfold make, len in *. rewrite Hes in *. rewrite length_map in *.
      rewrite fillExperiments_addresses.
      rewrite fillExperiments_short; [reflexivity | |].
      * rewrite repeat_length. lia.
      * unfold len. lia.
  - intros records ->. apply NewExperimentsResponse_addresses.
Qed.

Lemma NewExperimentsResponse_bounds_witness :
  (pointers.NewExperimentsResponse
     (mkSlice [Some memory.study; Some (model.mkExperiment 2 "B" "second")])
     (mkSlice [Float32.twenty_five; Float32.hundred; Float32.zero]) =
     Some (mkResponse 200
             (Some (anyExperiments
                      (mkSlice
                         (views [memory.study;
                                 model.mkExperiment 2 "B" "second"]
                            [Float32.twenty_five; Float32.hundred;
                             Float32.zero]))))
             nilSlice) /\
   List.length
     (views [memory.study; model.mkExperiment 2 "B" "second"]
        [Float32.twenty_five; Float32.hundred; Float32.zero]) = 2%nat /\
   forall i e,
     nth_error [memory.study; model.mkExperiment 2 "B" "second"] i
       = Some e ->
     exists p,
       nth_error [Float32.twenty_five; Float32.hundred; Float32.zero] i
         = Some p /\
       nth_error
         (views [memory.study; model.mkExperiment 2 "B" "second"]
            [Float32.twenty_five; Float32.hundred; Float32.zero]) i
         = Some (view e p)) /\
  pointers.NewExperimentsResponse (mkSlice [Some memory.study; None])
    (mkSlice [Float32.twenty_five; Float32.hundred]) = None /\
  pointers.NewExperimentsResponse (mkSlice [Some memory.study]) nilSlice
    = None /\
  pointers.NewExperimentsResponse (mkSlice [Some memory.study])
    (mkSlice [Float32.twenty_five])
    = NewExperimentsResponse (mkSlice [memory.study])
        (mkSlice [Float32.twenty_five]).
Proof.
  split; [| split; [| split]].
  - apply (proj1 (NewExperimentsResponse_bounds
                    (mkSlice [Some memory.study;
                              Some (model.mkExperiment 2 "B" "second")])
                    (mkSlice [Float32.twenty_five; Float32.hundred;
                              Float32.zero]))).
    + reflexivity.
    + cbn. lia.
  - apply (proj1 (proj2 (NewExperimentsResponse_bounds
                           (mkSlice [Some memory.study; None])
                           (mkSlice [Float32.twenty_five;
                                     Float32.hundred])))).
    cbn. right. left. reflexivity.
  - apply (proj1 (proj2 (proj2 (NewExperimentsResponse_bounds
                                  (mkSlice [Some memory.study])
                                  nilSlice)))).
    cbn. lia.
  - apply (proj2 (proj2 (proj2 (NewExperimentsResponse_bounds
                                  (mkSlice [Some memory.study])
                                  (mkSlice [Float32.twenty_five]))))
             (mkSlice [memory.study])).
    reflexivity.
Defined.

End list_facts.

(** ** The reading handlers *)

Module reading_facts.

Import Go serializer handler protocol behaviour.
Import envelope_facts handler_facts list_facts.

Lemma counts_not_persist (l : list Call) :
  forallb isCount l = true -> existsb isPersist l = false.
Proof.
  induction l as [| c l IH]; [reflexivity |].
  cbn. intros [Hc Hl]%andb_prop. rewrite (IH Hl).
  now destruct c.
Qed.

(** What a run of [experimentProgress] leaves behind: the database as it
    was, and the log extended by counting calls only. *)
Lemma experimentProgress_world (env : Env) (experimentID userID : Z)
    (w : World env) :
  exists l',
    snd (experimentProgress env experimentID userID w)
      = mkWorld (db w) (calls w ++ l') /\
    forallb isCount l' = true.
Proof.
  rewrite experimentProgress_run. cbv zeta. unfold record.
  destruct (CountUserAssignment env (db w) experimentID userID).
  - destruct (CountCompleteUserAssignment env (db w) experimentID userID);
      exists [CallCountUserAssignment experimentID userID;
              CallCountCompleteUserAssignment experimentID userID];
      cbn; rewrite <- app_assoc; split; reflexivity.
  - exists [CallCountUserAssignment experimentID userID].
    split; reflexivity.
Qed.

(** The value of a run of [experimentProgress] when both counts are
    available. *)
Lemma experimentProgress_value (env : Env) (experimentID userID : Z)
    (w : World env) (countAll countComplete : Z) :
  counts env (db w) experimentID userID = Some (countAll, countComplete) ->
  experimentProgress env experimentID userID w =
    (Return (progressValue countAll countComplete),
     mkWorld (db w)
       (calls w ++ [CallCountUserAssignment experimentID userID;
                    CallCountCompleteUserAssignment experimentID userID])).
Proof.
  unfold counts. intros H. rewrite experimentProgress_run. cbv zeta.
  destruct (CountUserAssignment env (db w) experimentID userID);
    [| discriminate].
  destruct (CountCompleteUserAssignment env (db w) experimentID userID);
    [| discriminate].
  inversion H; subst. unfold record, progressValue, rounding.percent. cbn.
  now rewrite <- app_assoc.
Qed.

(** A run of [experimentProgress] fails exactly when a count is not
    available, and it never panics. *)
Lemma experimentProgress_outcome (env : Env) (experimentID userID : Z)
    (w : World env) :
  match counts env (db w) experimentID userID with
  | Some (countAll, countComplete) =>
      fst (experimentProgress env experimentID userID w)
        = Return (progressValue countAll countComplete)
  | None =>
      exists err, fst (experimentProgress env experimentID userID w)
                  = Fail err
  end.
Proof.
  destruct (counts env (db w) experimentID userID) as [[ca cc] |] eqn:E.
  - now rewrite (experimentProgress_value _ _ _ _ _ _ E).
  - unfold counts in E. rewrite experimentProgress_run. cbv zeta.
    destruct (CountUserAssignment env (db w) experimentID userID);
      [| eexists; reflexivity].
    destruct (CountCompleteUserAssignment env (db w) experimentID userID);
      [discriminate | eexists; reflexivity].
Qed.

(** The loop of [GetExperiments]: the database is left as it was, the
    log is extended by counting calls only, there is no panic, and a
    result has one more progress for each experiment. *)
Lemma progressLoop_world (env : Env) (l : list model.Experiment)
    (userID : Z) :
  forall (ps : slice Float32.float32) (w : World env),
    exists l',
      snd (progressLoop env l userID ps w) = mkWorld (db w) (calls w ++ l') /\
      forallb isCount l' = true /\
      isPanic (fst (progressLoop env l userID ps w)) = false /\
      forall ps',
        fst (progressLoop env l userID ps w) = Return ps' ->
        len ps' = (len ps + List.length l)%nat.
Proof.
  induction l as [| e l IH]; intros ps w; cbn [progressLoop].
  - exists []. unfold ret. cbn. rewrite app_nil_r.
    destruct w. repeat split. intros ps' H. inversion H. lia.
  - unfold bind.
    destruct (experimentProgress_world env (model.ID e) userID w)
      as (l1 & Hw1 & Hc1).
    destruct (experimentProgress env (model.ID e) userID w)
      as [[p | err |] w1] eqn:E1; cbn [snd] in Hw1; subst w1.
    + destruct (IH (append ps p)
                  (mkWorld (db w) (calls w ++ l1)))
        as (l2 & Hw2 & Hc2 & Hp2 & Hlen2).
      cbn [db calls] in Hw2.
      exists (l1 ++ l2). rewrite Hw2, app_assoc.
      split; [reflexivity |]. split.
      { rewrite forallb_app. now rewrite Hc1, Hc2. }
      split; [exact Hp2 |].
      intros ps' H. rewrite (Hlen2 ps' H).
      unfold len, append. cbn [elems List.length].
      rewrite length_app. cbn. lia.
    + exists l1. cbn. repeat split; try assumption. discriminate.
    + pose proof (experimentProgress_outcome env (model.ID e) userID w) as Ho.
      rewrite E1 in Ho. cbn [fst] in Ho.
      destruct (counts env (db w) (model.ID e) userID) as [[ca cc] |];
        [discriminate Ho | destruct Ho as [? Ho]; discriminate Ho].
Qed.

(** A run of [experimentProgress] from a log is the run from the empty
    log, with the calls appended. *)
Lemma experimentProgress_frame (env : Env) (experimentID userID : Z)
    (w : World env) :
  experimentProgress env experimentID userID w =
    (fst (run env (experimentProgress env experimentID userID) (db w)),
     mkWorld (db w)
       (calls w ++
        calls (snd (run env (experimentProgress env experimentID userID)
                      (db w))))).
Proof.
  unfold run. rewrite !experimentProgress_run. cbv zeta. unfold record.
  cbn [db calls app].
  destruct (CountUserAssignment env (db w) experimentID userID);
    [| reflexivity].
  destruct (CountCompleteUserAssignment env (db w) experimentID userID);
    cbn; now rewrite <- app_assoc.
Qed.

(** The loop when every count is available: the progresses of the
    experiments, in their order, are appended, after two counting calls
    for each experiment. *)
Lemma progressLoop_ok (env : Env) (l : list model.Experiment) (userID : Z) :
  forall (ps : slice Float32.float32) (w : World env),
    Forall (fun e => counts env (db w) (model.ID e) userID <> None) l ->
    exists ps',
      progressLoop env l userID ps w =
        (Return ps',
         mkWorld (db w) (calls w ++ flat_map (countCalls userID) l)) /\
      elems ps' = elems ps ++ map (progressIn env (db w) userID) l.
Proof.
  induction l as [| e l IH]; intros ps w Hall; cbn [progressLoop].
  - exists ps. unfold ret. cbn. rewrite !app_nil_r. now destruct w.
  - inversion Hall as [| e' l' He Hl]; subst.
    destruct (counts env (db w) (model.ID e) userID) as [[ca cc] |] eqn:E;
      [| congruence].
    unfold bind. rewrite (experimentProgress_value _ _ _ _ _ _ E).
    destruct (IH (append ps (progressValue ca cc))
                (mkWorld (db w)
                   (calls w ++
                    [CallCountUserAssignment (model.ID e) userID;
                     CallCountCompleteUserAssignment (model.ID e) userID]))
                Hl) as (ps' & Hps' & Hel).
    exists ps'. rewrite Hps'. cbn [db calls flat_map countCalls].
    split.
    + now rewrite <- app_assoc.
    + rewrite Hel. cbn [append elems map].
      unfold progressIn at 2. rewrite E. now rewrite <- app_assoc.
Qed.

(** The loop when a count is missing: it stops at the first experiment
    whose counts are not both available, with the failure of that
    experiment's progress. *)
Lemma progressLoop_fault (env : Env) (l1 l2 : list model.Experiment)
    (e : model.Experiment) (userID : Z) :
  forall (ps : slice Float32.float32) (w : World env),
    Forall (fun x => counts env (db w) (model.ID x) userID <> None) l1 ->
    counts env (db w) (model.ID e) userID = None ->
    exists err,
      fst (run env (experimentProgress env (model.ID e) userID) (db w))
        = Fail err /\
      progressLoop env (l1 ++ e :: l2) userID ps w =
        (Fail err,
         mkWorld (db w)
           (calls w ++ flat_map (countCalls userID) l1 ++
            calls (snd (run env (experimentProgress env (model.ID e) userID)
                          (db w))))).
Proof.
  induction l1 as [| x l1 IH]; intros ps w Hall He;
    cbn [app progressLoop].
  - pose proof (experimentProgress_outcome env (model.ID e) userID
                  (mkWorld (db w) [])) as Ho.
    cbn [db] in Ho. rewrite He in Ho. destruct Ho as [err Herr].
    exists err. split; [exact Herr |].
    unfold bind. rewrite experimentProgress_frame.
    unfold run in *. rewrite Herr. reflexivity.
  - inversion Hall as [| x' l' Hx Hl]; subst.
    destruct (counts env (db w) (model.ID x) userID) as [[ca cc] |] eqn:E;
      [| congruence].
    unfold bind. rewrite (experimentProgress_value _ _ _ _ _ _ E).
    destruct (IH (append ps (progressValue ca cc))
                (mkWorld (db w)
                   (calls w ++
                    [CallCountUserAssignment (model.ID x) userID;
                     CallCountCompleteUserAssignment (model.ID x) userID]))
                Hl He) as (err & Herr & Hrun).
    cbn [db calls] in Herr, Hrun.
    exists err. split; [exact Herr |].
    rewrite Hrun. cbn [flat_map countCalls]. now rewrite <- !app_assoc.
Qed.

Lemma views_map (es : list model.Experiment)
    (f : model.Experiment -> Float32.float32) :
  views es (map f es) = map (fun e => view e (f e)) es.
Proof.
  unfold views. induction es as [| e es IH]; [reflexivity |].
  cbn. now rewrite IH.
Qed.

Lemma existsb_app_false {A} (f : A -> bool) (l1 l2 : list A) :
  existsb f l1 = false -> existsb f l2 = false ->
  existsb f (l1 ++ l2) = false.
Proof.
  intros H1 H2. now rewrite existsb_app, H1, H2.
Qed.

(** X4. [GetExperimentDetails] only reads: whatever the request and the
    collaborators do, it leaves the database as it was and makes no call
    to [Create] or [Update]; and, testing the pointer it is handed before
    it reads through it, it does not panic. *)
Theorem reading_handlers_readOnly (env : Env) (r : Request env)
    (d : DB env) :
  readOnly d (run env (GetExperimentDetails env r) d) /\
  isPanic (fst (run env (GetExperimentDetails env r) d)) = false.
Proof.
  unfold readOnly.
  unfold run, GetExperimentDetails, try, bind, reading, ret, fail, record.
  cbn.
  destruct (GetUserID env r) as [userID |]; cbn; [| repeat split].
  destruct (urlParamInt env r "experimentId") as [experimentID |]; cbn;
    [| repeat split].
  destruct (GetByID env d experimentID) as [[experiment |] |]; cbn;
    try (repeat split; fail).
  match goal with
  | |- context [experimentProgress env ?a ?b ?w] =>
      destruct (experimentProgress_world env a b w) as (l' & Hw & Hc);
      pose proof (experimentProgress_outcome env a b w) as Ho;
      destruct (experimentProgress env a b w) as [[p | err |] w']
  end; cbn [snd fst db calls] in *; subst w'; cbn [db calls snd fst isPanic].
  - repeat split. cbn. now apply counts_not_persist.
  - repeat split. cbn. now apply counts_not_persist.
  - destruct (counts env d (model.ID experiment) userID) as [[ca cc] |];
      [discriminate Ho | destruct Ho as [? Ho]; discriminate Ho].
Qed.

(** X21. [GetExperiments] only reads: whatever the request and the
    collaborators do, and however the run ends, it leaves the database as
    it was and makes no call to [Create] or [Update]. *)
Theorem GetExperiments_readOnly (env : Env) (r : Request env) (d : DB env) :
  readOnly d (run env (GetExperiments env r) d).
Proof.
  unfold readOnly.
  unfold run, GetExperiments, try, bind, reading, ret, fail, panic, record.
  cbn.
  destruct (GetUserID env r) as [userID |]; cbn; [| repeat split].
  destruct (GetAll env d) as [experiments |]; cbn; [| repeat split].
  match goal with
  | |- context [progressLoop env ?l ?u ?ps ?w] =>
      destruct (progressLoop_world env l u ps w)
        as (l' & Hw & Hc & _ & _);
      destruct (progressLoop env l u ps w) as [[ps' | err |] w']
  end; cbn [snd fst db calls] in *; subst w';
    try destruct (NewExperimentsResponse experiments ps');
    cbn; repeat split; now apply counts_not_persist.
Qed.

(** X5. [GetExperiments], once the caller is resolved and with every count
    available, returns the envelope of status 200 with one entry for each
    experiment of the listing, in the order of the listing, each with the
    progress of the caller in that experiment; it queries the two counts
    of each experiment once, in that order, and nothing else. *)
Theorem GetExperiments_content (env : Env) (r : Request env) (d : DB env)
    (userID : Z) (experiments : slice model.Experiment) :
  GetUserID env r = Ok userID ->
  GetAll env d = Ok experiments ->
  Forall (fun e => counts env d (model.ID e) userID <> None)
    (elems experiments) ->
  run env (GetExperiments env r) d =
    (Return (mkResponse 200
               (Some (anyExperiments
                        (mkSlice (map (fun e =>
                                         view e (progressIn env d userID e))
                                    (elems experiments)))))
               nilSlice),
     mkWorld d (CallGetUserID :: CallGetAll ::
                flat_map (countCalls userID) (elems experiments))).
Proof.
  intros Huser Hall Hcounts.
  unfold run, GetExperiments, try, bind, reading, ret, fail, panic, record.
  cbn. rewrite Huser. cbn. rewrite Hall. cbn.
  destruct (progressLoop_ok env (elems experiments) userID nilSlice
              (mkWorld d [CallGetUserID; CallGetAll]) Hcounts)
    as (ps' & Hrun & Hel).
  rewrite Hrun. cbn [elems app db] in Hel.
  rewrite NewExperimentsResponse_ok
    by (unfold len; rewrite Hel, length_map; lia).
  now rewrite Hel, views_map.
Qed.

Lemma GetExperiments_content_witness :
  run memory.env (GetExperiments memory.env (memory.fromUser 7 1 None))
    memory.sampleDB =
    (Return (mkResponse 200
               (Some (anyExperiments
                        (mkSlice (map (fun e =>
                                         view e (progressIn memory.env
                                                   memory.sampleDB 7 e))
                                    [memory.study]))))
               nilSlice),
     @mkWorld memory.env memory.sampleDB
       (CallGetUserID :: CallGetAll ::
        flat_map (countCalls 7) [memory.study])).
Proof.
  apply (GetExperiments_content memory.env (memory.fromUser 7 1 None)
           memory.sampleDB 7 (mkSlice [memory.study])).
  - reflexivity.
  - reflexivity.
  - repeat constructor. discriminate.
Defined.

(** X6. [GetExperiments] returns no partial list: when a count of some
    experiment is not available, the request fails with the failure that
    [experimentProgress] gives for the first such experiment of the
    listing, after the counts of the experiments before it, and the
    experiments after it are not queried. *)
Theorem GetExperiments_first_fault (env : Env) (r : Request env)
    (d : DB env) (userID : Z) (experiments : slice model.Experiment)
    (before after : list model.Experiment) (e : model.Experiment) :
  GetUserID env r = Ok userID ->
  GetAll env d = Ok experiments ->
  elems experiments = before ++ e :: after ->
  Forall (fun x => counts env d (model.ID x) userID <> None) before ->
  counts env d (model.ID e) userID = None ->
  exists err,
    fst (run env (experimentProgress env (model.ID e) userID) d) = Fail err /\
    run env (GetExperiments env r) d =
      (Fail err,
       mkWorld d
         (CallGetUserID :: CallGetAll ::
          flat_map (countCalls userID) before ++
          calls (snd (run env (experimentProgress env (model.ID e) userID)
                        d)))).
Proof.
  intros Huser Hall Hsplit Hbefore He.
  destruct (progressLoop_fault env before after e userID nilSlice
              (mkWorld d [CallGetUserID; CallGetAll]) Hbefore He)
    as (err & Herr & Hrun).
  exists err. split; [exact Herr |].
  unfold run, GetExperiments, try, bind, reading, ret, fail, panic, record.
  cbn. rewrite Huser. cbn. rewrite Hall. cbn.
  rewrite Hsplit, Hrun. reflexivity.
Qed.

Lemma GetExperiments_first_fault_witness :
  exists err,
    fst (run memory.env (experimentProgress memory.env 1 7)
           memory.countFaultDB) = Fail err /\
    run memory.env (GetExperiments memory.env (memory.fromUser 7 1 None))
      memory.countFaultDB =
      (Fail err,
       @mkWorld memory.env memory.countFaultDB
         (CallGetUserID :: CallGetAll ::
          flat_map (countCalls 7) [] ++
          calls (snd (run memory.env (experimentProgress memory.env 1 7)
                        memory.countFaultDB)))).
Proof.
  apply (GetExperiments_first_fault memory.env (memory.fromUser 7 1 None)
           memory.countFaultDB 7 (mkSlice [memory.study]) [] []
           memory.study); try reflexivity.
  constructor.
Defined.

(** X7. [GetExperimentDetails], once the caller and the path parameter are
    resolved and the experiment is found, returns the envelope of status
    200 with the identity, name and description of the experiment found
    and the progress of the caller, computed from the counts of the
    identity of the experiment found. *)
Theorem GetExperimentDetails_found (env : Env) (r : Request env)
    (d : DB env) (userID experimentID countAll countComplete : Z)
    (experiment : model.Experiment) :
  GetUserID env r = Ok userID ->
  urlParamInt env r "experimentId" = Ok experimentID ->
  GetByID env d experimentID = Ok (Some experiment) ->
  counts env d (model.ID experiment) userID
    = Some (countAll, countComplete) ->
  run env (GetExperimentDetails env r) d =
    (Return (mkResponse 200
               (Some (anyExperiment
                        (view experiment
                           (progressValue countAll countComplete))))
               nilSlice),
     mkWorld d
       ([CallGetUserID; CallUrlParamInt "experimentId";
         CallGetByID experimentID] ++ countCalls userID experiment)).
Proof.
  intros Huser Hparam Hget Hcounts.
  unfold run, GetExperimentDetails, try, bind, reading, ret, fail, record.
  cbn. rewrite Huser. cbn. rewrite Hparam. cbn. rewrite Hget. cbn.
  rewrite (experimentProgress_value env _ _
             (mkWorld d [CallGetUserID; CallUrlParamInt "experimentId";
                         CallGetByID experimentID]) _ _ Hcounts).
  reflexivity.
Qed.

Lemma GetExperimentDetails_found_witness :
  run memory.env (GetExperimentDetails memory.env (memory.fromUser 7 1 None))
    memory.sampleDB =
    (Return (mkResponse 200
               (Some (anyExperiment
                        (view memory.study (progressValue 4 1))))
               nilSlice),
     @mkWorld memory.env memory.sampleDB
       ([CallGetUserID; CallUrlParamInt "experimentId"; CallGetByID 1]
        ++ countCalls 7 memory.study)).
Proof.
  apply (GetExperimentDetails_found memory.env (memory.fromUser 7 1 None)
           memory.sampleDB 7 1 4 1 memory.study); reflexivity.
Defined.

(** X8. A path parameter that cannot be resolved ends
    [GetExperimentDetails] and [UpdateExperiment] with the error of
    [urlParamInt], handed back as it is, before any repository is
    reached and before the body is read. *)
Theorem path_parameter_failure (env : Env) (r : Request env) (d : DB env)
    (userID : Z) (err : error) :
  GetUserID env r = Ok userID ->
  urlParamInt env r "experimentId" = Err err ->
  run env (GetExperimentDetails env r) d =
    (Fail err, mkWorld d [CallGetUserID; CallUrlParamInt "experimentId"]) /\
  run env (UpdateExperiment env r) d =
    (Fail err, mkWorld d [CallGetUserID; CallUrlParamInt "experimentId"]).
Proof.
  intros Huser Hparam.
  split;
    unfold run, GetExperimentDetails, UpdateExperiment, try, bind, reading,
      ret, fail, record;
    cbn; rewrite Huser; cbn; rewrite Hparam; reflexivity.
Qed.

Lemma path_parameter_failure_witness :
  run memory.env
    (GetExperimentDetails memory.env (memory.mkRequest (Some 7) None None))
    memory.sampleDB =
    (Fail (NewHTTPError 400
             ["Wrong format for URL parameter"; "experimentId"]),
     @mkWorld memory.env memory.sampleDB
       [CallGetUserID; CallUrlParamInt "experimentId"]) /\
  run memory.env
    (UpdateExperiment memory.env (memory.mkRequest (Some 7) None None))
    memory.sampleDB =
    (Fail (NewHTTPError 400
             ["Wrong format for URL parameter"; "experimentId"]),
     @mkWorld memory.env memory.sampleDB
       [CallGetUserID; CallUrlParamInt "experimentId"]).
Proof.
  apply (path_parameter_failure memory.env
           (memory.mkRequest (Some 7) None None) memory.sampleDB 7);
    reflexivity.
Defined.

(** X9. [experimentProgress] queries the total before the complete count
    and stops at the first fault: when the total faults the complete
    count is not queried. In every case it makes no other call and leaves
    the database as it was. *)
Theorem experimentProgress_queries (env : Env) (experimentID userID : Z)
    (d : DB env) :
  (forall err,
     CountUserAssignment env d experimentID userID = Err err ->
     snd (run env (experimentProgress env experimentID userID) d) =
       mkWorld d [CallCountUserAssignment experimentID userID]) /\
  (forall countAll,
     CountUserAssignment env d experimentID userID = Ok countAll ->
     snd (run env (experimentProgress env experimentID userID) d) =
       mkWorld d [CallCountUserAssignment experimentID userID;
                  CallCountCompleteUserAssignment experimentID userID]).
Proof.
  split; intros x Hx; unfold run; rewrite experimentProgress_run; cbn;
    rewrite Hx; cbn; [reflexivity |].
  now destruct (CountCompleteUserAssignment env d experimentID userID).
Qed.

Lemma experimentProgress_queries_witness :
  snd (run memory.env (experimentProgress memory.env 1 7)
         memory.countFaultDB) =
    @mkWorld memory.env memory.countFaultDB [CallCountUserAssignment 1 7] /\
  snd (run memory.env (experimentProgress memory.env 1 7) memory.sampleDB) =
    @mkWorld memory.env memory.sampleDB
      [CallCountUserAssignment 1 7; CallCountCompleteUserAssignment 1 7].
Proof.
  split.
  - apply (proj1 (experimentProgress_queries memory.env 1 7
                    memory.countFaultDB) memory.fault).
    reflexivity.
  - apply (proj2 (experimentProgress_queries memory.env 1 7
                    memory.sampleDB) 4).
    reflexivity.
Defined.

End reading_facts.

(** ** The writing handlers *)

Module writing_facts.

Import Go serializer handler protocol behaviour.
Import envelope_facts handler_facts list_facts reading_facts.

(** X10. [CreateExperiment] on a body that cannot be read, or that is read
    and cannot be parsed, fails with a typed error of status 400 whose
    title is the message of the read or parse error; no repository is
    reached and the database is left as it was. *)
Theorem CreateExperiment_malformed (env : Env) (r : Request env) (d : DB env)
    (e : error) :
  ReadAll env r = Err e \/
  (exists body, ReadAll env r = Ok body /\ Unmarshal env body = Err e) ->
  let '(out, w) := run env (CreateExperiment env r) d in
  out = Fail (HTTPError (mkHttpError 400 (Error e) "")) /\
  existsb isRepository (calls w) = false /\
  db w = d.
Proof.
  intros Hbody.
  unfold run, CreateExperiment, tryWith, bind, reading, ret, fail, record.
  cbn.
  destruct Hbody as [Hread | [body [Hread Hparse]]].
  - rewrite Hread. cbn. repeat split.
  - rewrite Hread. cbn. rewrite Hparse. cbn. repeat split.
Qed.

Lemma CreateExperiment_malformed_witness :
  let '(out, w) :=
    run memory.env
      (CreateExperiment memory.env (memory.anonymous "{name"))
      memory.sampleDB in
  out = Fail (HTTPError (mkHttpError 400 "unexpected end of JSON input" ""))
  /\ existsb isRepository (calls w) = false
  /\ db w = memory.sampleDB.
Proof.
  apply (CreateExperiment_malformed memory.env (memory.anonymous "{name")
           memory.sampleDB (errorString "unexpected end of JSON input")).
  right. exists "{name". split; reflexivity.
Defined.

(** X11. [CreateExperiment] on a body that parses hands [Create] an
    experiment with the zero identity and the name and description of the
    body, once; when [Create] succeeds the envelope has status 200 and
    carries the experiment as [Create] left it (with the identity the
    repository gave it) and the progress 0, and no count is queried. *)
Theorem CreateExperiment_created (env : Env) (r : Request env) (d d' : DB env)
    (body : string) (req : experimentReq) (created : model.Experiment) :
  ReadAll env r = Ok body ->
  Unmarshal env body = Ok req ->
  Create env d (model.mkExperiment 0 (reqName req) (reqDescription req))
    = (d', created, None) ->
  run env (CreateExperiment env r) d =
    (Return (mkResponse 200
               (Some (anyExperiment (view created Float32.zero))) nilSlice),
     mkWorld d'
       [CallReadAll; CallUnmarshal body;
        CallCreate (model.mkExperiment 0 (reqName req)
                      (reqDescription req))]).
Proof.
  intros Hread Hparse Hcreate.
  unfold run, CreateExperiment, tryWith, bind, reading, writing, ret, fail,
    record.
  cbn. rewrite Hread. cbn. rewrite Hparse. cbn. rewrite Hcreate.
  reflexivity.
Qed.

Lemma CreateExperiment_created_witness :
  run memory.env
    (CreateExperiment memory.env
       (memory.anonymous "A/B test;compare styles"))
    memory.emptyDB =
    (Return (mkResponse 200
               (Some (anyExperiment (view memory.study Float32.zero)))
               nilSlice),
     @mkWorld memory.env
       (memory.withExperiments memory.emptyDB [memory.study])
       [CallReadAll; CallUnmarshal "A/B test;compare styles";
        CallCreate (model.mkExperiment 0 "A/B test" "compare styles")]).
Proof.
  apply (CreateExperiment_created memory.env
           (memory.anonymous "A/B test;compare styles") memory.emptyDB
           (memory.withExperiments memory.emptyDB [memory.study])
           "A/B test;compare styles"
           (mkExperimentReq "A/B test" "compare styles") memory.study);
    reflexivity.
Defined.

(** X12. A fault of the persisting call is handed back as it is: when
    [Create] fails [CreateExperiment] fails with its error, and when
    [Update] fails [UpdateExperiment] fails with its error without
    querying any count. *)
Theorem persisting_fault (env : Env) (r : Request env) (d d' : DB env)
    (body : string) (req : experimentReq) (left : model.Experiment)
    (err : error) :
  ReadAll env r = Ok body ->
  Unmarshal env body = Ok req ->
  (Create env d (model.mkExperiment 0 (reqName req) (reqDescription req))
     = (d', left, Some err) ->
   fst (run env (CreateExperiment env r) d) = Fail err) /\
  (forall userID experimentID experiment,
     GetUserID env r = Ok userID ->
     urlParamInt env r "experimentId" = Ok experimentID ->
     GetByID env d experimentID = Ok (Some experiment) ->
     Update env d
       (model.mkExperiment (model.ID experiment) (reqName req)
          (reqDescription req)) = (d', left, Some err) ->
     fst (run env (UpdateExperiment env r) d) = Fail err /\
     existsb isCount (calls (snd (run env (UpdateExperiment env r) d)))
       = false).
Proof.
  intros Hread Hparse. split.
  - intros Hcreate.
    unfold run, CreateExperiment, tryWith, bind, reading, writing, ret,
      fail, record.
    cbn. rewrite Hread. cbn. rewrite Hparse. cbn. rewrite Hcreate.
    reflexivity.
  - intros userID experimentID experiment Huser Hparam Hget Hupdate.
    unfold run, UpdateExperiment, try, tryWith, bind, reading, writing,
      ret, fail, record.
    cbn. rewrite Huser. cbn. rewrite Hparam. cbn. rewrite Hget. cbn.
    rewrite Hread. cbn. rewrite Hparse. cbn. rewrite Hupdate.
    split; reflexivity.
Qed.

Lemma persisting_fault_witness :
  fst (run frozen (CreateExperiment frozen (memory.fromUser 7 1 (Some "a;b")))
         memory.sampleDB) = Fail refused /\
  fst (run frozen (UpdateExperiment frozen (memory.fromUser 7 1 (Some "a;b")))
         memory.sampleDB) = Fail refused /\
  existsb isCount
    (calls (snd (run frozen
                   (UpdateExperiment frozen
                      (memory.fromUser 7 1 (Some "a;b")))
                   memory.sampleDB))) = false.
Proof.
  split.
  - apply (proj1 (persisting_fault frozen
                    (memory.fromUser 7 1 (Some "a;b")) memory.sampleDB
                    memory.sampleDB "a;b" (mkExperimentReq "a" "b")
                    (model.mkExperiment 0 "a" "b") refused
                    eq_refl eq_refl)).
    reflexivity.
  - apply (proj2 (persisting_fault frozen
                    (memory.fromUser 7 1 (Some "a;b")) memory.sampleDB
                    memory.sampleDB "a;b" (mkExperimentReq "a" "b")
                    (model.mkExperiment 1 "a" "b") refused
                    eq_refl eq_refl) 7 1 memory.study);
      reflexivity.
Defined.

(** X13. [UpdateExperiment], once the caller, the path parameter, the
    experiment and the body are resolved, hands [Update] the experiment
    found with its identity kept and its name and description replaced by
    those of the body, once; when [Update] succeeds the envelope has
    status 200 and carries the updated experiment with the progress of the
    caller, computed from the counts of the database after the update. *)
Theorem UpdateExperiment_updated (env : Env) (r : Request env)
    (d d' : DB env) (userID experimentID countAll countComplete : Z)
    (experiment updated : model.Experiment) (body : string)
    (req : experimentReq) :
  GetUserID env r = Ok userID ->
  urlParamInt env r "experimentId" = Ok experimentID ->
  GetByID env d experimentID = Ok (Some experiment) ->
  ReadAll env r = Ok body ->
  Unmarshal env body = Ok req ->
  Update env d
    (model.mkExperiment (model.ID experiment) (reqName req)
       (reqDescription req)) = (d', updated, None) ->
  counts env d' (model.ID updated) userID = Some (countAll, countComplete) ->
  run env (UpdateExperiment env r) d =
    (Return (mkResponse 200
               (Some (anyExperiment
                        (view updated
                           (progressValue countAll countComplete))))
               nilSlice),
     mkWorld d'
       ([CallGetUserID; CallUrlParamInt "experimentId";
         CallGetByID experimentID; CallReadAll; CallUnmarshal body;
         CallUpdate (model.mkExperiment (model.ID experiment) (reqName req)
                       (reqDescription req))]
        ++ countCalls userID updated)).
Proof.
  intros Huser Hparam Hget Hread Hparse Hupdate Hcounts.
  unfold run, UpdateExperiment, try, tryWith, bind, reading, writing, ret,
    fail, record.
  cbn. rewrite Huser. cbn. rewrite Hparam. cbn. rewrite Hget. cbn.
  rewrite Hread. cbn. rewrite Hparse. cbn. rewrite Hupdate.
  rewrite (experimentProgress_value env _ _
             (mkWorld d'
                [CallGetUserID; CallUrlParamInt "experimentId";
                 CallGetByID experimentID; CallReadAll; CallUnmarshal body;
                 CallUpdate (model.mkExperiment (model.ID experiment)
                               (reqName req) (reqDescription req))])
             _ _ Hcounts).
  reflexivity.
Qed.

Lemma UpdateExperiment_updated_witness :
  run memory.env
    (UpdateExperiment memory.env
       (memory.fromUser 7 1 (Some "renamed;new text")))
    memory.sampleDB =
    (Return (mkResponse 200
               (Some (anyExperiment
                        (view (model.mkExperiment 1 "renamed" "new text")
                           (progressValue 4 1))))
               nilSlice),
     @mkWorld memory.env
       (memory.withExperiments memory.sampleDB
          [model.mkExperiment 1 "renamed" "new text"])
       ([CallGetUserID; CallUrlParamInt "experimentId"; CallGetByID 1;
         CallReadAll; CallUnmarshal "renamed;new text";
         CallUpdate (model.mkExperiment 1 "renamed" "new text")]
        ++ countCalls 7 (model.mkExperiment 1 "renamed" "new text"))).
Proof.
  apply (UpdateExperiment_updated memory.env
           (memory.fromUser 7 1 (Some "renamed;new text")) memory.sampleDB
           (memory.withExperiments memory.sampleDB
              [model.mkExperiment 1 "renamed" "new text"])
           7 1 4 1 memory.study
           (model.mkExperiment 1 "renamed" "new text") "renamed;new text"
           (mkExperimentReq "renamed" "new text"));
    reflexivity.
Defined.

(** X14. [UpdateExperiment] on an identifier whose lookup succeeds without
    an entity fails with the typed error of status 404 and title
    "no experiment found"; the body is not read, nothing is persisted and
    the database is left as it was. *)
Theorem UpdateExperiment_missing (env : Env) (r : Request env) (d : DB env)
    (userID experimentID : Z) :
  GetUserID env r = Ok userID ->
  urlParamInt env r "experimentId" = Ok experimentID ->
  GetByID env d experimentID = Ok None ->
  run env (UpdateExperiment env r) d =
    (Fail (HTTPError (mkHttpError 404 "no experiment found" "")),
     mkWorld d [CallGetUserID; CallUrlParamInt "experimentId";
                CallGetByID experimentID]).
Proof.
  intros Huser Hparam Hget.
  unfold run, UpdateExperiment, try, bind, reading, ret, fail, record.
  cbn. rewrite Huser. cbn. rewrite Hparam. cbn. rewrite Hget. reflexivity.
Qed.

Lemma UpdateExperiment_missing_witness :
  run memory.env
    (UpdateExperiment memory.env (memory.fromUser 7 42 (Some "a;b")))
    memory.sampleDB =
    (Fail (HTTPError (mkHttpError 404 "no experiment found" "")),
     @mkWorld memory.env memory.sampleDB
       [CallGetUserID; CallUrlParamInt "experimentId"; CallGetByID 42]).
Proof.
  apply (UpdateExperiment_missing memory.env
           (memory.fromUser 7 42 (Some "a;b")) memory.sampleDB 7 42);
    reflexivity.
Defined.

Lemma NewExperimentsResponse_success (experiments : slice model.Experiment)
    (progresses : slice Float32.float32) (resp : Response) :
  NewExperimentsResponse experiments progresses = Some resp ->
  successEnvelope resp.
Proof.
  unfold NewExperimentsResponse.
  destruct (fillExperiments 0 (elems experiments) progresses
              (make zeroExperimentResponse (len experiments)));
    [| discriminate].
  intros H. inversion H. repeat split. discriminate.
Qed.

Ltac outcome_cases :=
  repeat (cbn;
    match goal with
    | |- context [match ?x with Ok _ => _ | Err _ => _ end] => destruct x
    | |- context [match ?x with Some _ => _ | None => _ end] => destruct x
    | |- context [Create ?env ?d ?e] =>
        destruct (Create env d e) as [[? ?] ?]
    | |- context [Update ?env ?d ?e] =>
        destruct (Update env d e) as [[? ?] ?]
    | |- context [experimentProgress ?env ?a ?b ?w] =>
        destruct (experimentProgress env a b w) as [[? | ? |] ?]
    end);
  cbn; try discriminate;
  try (intros Hresp; inversion Hresp; repeat split; discriminate).

(** X15. A response is always a success envelope: whenever one of the four
    handlers returns a response, it has status 200, a payload and no
    error list; neither the 204 envelope of the nil payload nor the empty
    envelope is ever returned. *)
Theorem handlers_success_envelope (env : Env) (r : Request env) (d : DB env)
    (resp : Response) :
  (fst (run env (GetExperimentDetails env r) d) = Return resp ->
   successEnvelope resp) /\
  (fst (run env (GetExperiments env r) d) = Return resp ->
   successEnvelope resp) /\
  (fst (run env (CreateExperiment env r) d) = Return resp ->
   successEnvelope resp) /\
  (fst (run env (UpdateExperiment env r) d) = Return resp ->
   successEnvelope resp).
Proof.
  split; [| split; [| split]].
  - unfold run, GetExperimentDetails, try, tryWith, bind, reading, ret, fail,
      record.
    outcome_cases.
  - unfold run, GetExperiments, try, bind, reading, ret, fail, panic, record.
    cbn.
    destruct (GetUserID env r) as [userID |]; cbn; [| discriminate].
    destruct (GetAll env d) as [experiments |]; cbn; [| discriminate].
    match goal with
    | |- context [progressLoop env ?l ?u ?ps ?w] =>
        destruct (progressLoop env l u ps w) as [[ps' | err |] w']
    end; cbn; try discriminate.
    destruct (NewExperimentsResponse experiments ps') as [resp' |] eqn:E;
      cbn; [| discriminate].
    intros H. inversion H; subst.
    now apply (NewExperimentsResponse_success _ _ _ E).
  - unfold run, CreateExperiment, try, tryWith, bind, reading, writing, ret,
      fail, record.
    outcome_cases.
  - unfold run, UpdateExperiment, try, tryWith, bind, reading, writing, ret,
      fail, record.
    outcome_cases.
Qed.

Lemma handlers_success_envelope_witness :
  successEnvelope
    (mkResponse 200
       (Some (anyExperiment (view memory.study (progressValue 4 1))))
       nilSlice) /\
  successEnvelope
    (mkResponse 200
       (Some (anyExperiments
                (mkSlice [view memory.study (progressValue 4 1)])))
       nilSlice) /\
  successEnvelope
    (mkResponse 200
       (Some (anyExperiment (view memory.study Float32.zero))) nilSlice) /\
  successEnvelope
    (mkResponse 200
       (Some (anyExperiment
                (view (model.mkExperiment 1 "renamed" "new text")
                   (progressValue 4 1))))
       nilSlice).
Proof.
  split; [| split; [| split]].
  - apply (proj1 (handlers_success_envelope memory.env
                    (memory.fromUser 7 1 None) memory.sampleDB _)).
    reflexivity.
  - apply (proj1 (proj2 (handlers_success_envelope memory.env
                           (memory.fromUser 7 1 None) memory.sampleDB _))).
    reflexivity.
  - apply (proj1 (proj2 (proj2 (handlers_success_envelope memory.env
                                  (memory.anonymous "A/B test;compare styles")
                                  memory.emptyDB _)))).
    reflexivity.
  - apply (proj2 (proj2 (proj2 (handlers_success_envelope memory.env
                                  (memory.fromUser 7 1
                                     (Some "renamed;new text"))
                                  memory.sampleDB _)))).
    reflexivity.
Defined.

End writing_facts.

(** ** The range and the exact values of the progress *)

Module progress_range_facts.

Import Go serializer handler behaviour rounding rounding_facts.
Import handler_facts float32_facts reading_facts.

Local Open Scope Z_scope.

Lemma percent_posNormal (countComplete countAll : Z) :
  0 < countComplete <= maxInt -> 0 < countAll <= maxInt ->
  posNormal Float32.prec (percent countComplete countAll) (-81) 49.
Proof.
  intros Hc Ha.
  exact (rounded_posNormal _ prec_pos _ _ (-81) 48
           (percent_rounded _ _ Hc Ha)).
Qed.

Lemma progressValue_cases (countAll countComplete : Z) :
  0 <= countAll <= maxInt -> 0 <= countComplete <= maxInt ->
  (progressValue countAll countComplete = Float32.zero /\
   (countAll = 0 \/ countComplete = 0)) \/
  (posNormal Float32.prec (progressValue countAll countComplete) (-81) 49 /\
   0 < countAll /\ 0 < countComplete).
Proof.
  intros Ha Hc. unfold progressValue.
  destruct (Z.eqb_spec countAll 0) as [-> | Hne].
  - left. split; [reflexivity | now left].
  - assert (Hc' : countComplete = 0 \/ 0 < countComplete) by lia.
    destruct Hc' as [-> | Hpos].
    + left. split; [apply percent_zero; lia | now right].
    + right. split; [apply percent_posNormal; lia | lia].
Qed.

(** X16. For counts in the range of [int], [experimentProgress] returns a
    finite number that is not negative: never a NaN, never an infinity.
    The number is 0 exactly when there is no assignment or no complete
    assignment: one complete assignment is enough for a progress above
    0, however many assignments there are. *)
Theorem experimentProgress_finite (env : Env) (experimentID userID : Z)
    (d : DB env) (countAll countComplete : Z) :
  0 <= countAll <= maxInt -> 0 <= countComplete <= maxInt ->
  counts env d experimentID userID = Some (countAll, countComplete) ->
  exists p,
    fst (run env (experimentProgress env experimentID userID) d) = Return p /\
    Float32.is_nan p = false /\ Float32.is_inf p = false /\
    Float32.leb Float32.zero p = true /\
    (p = Float32.zero <-> countAll = 0 \/ countComplete = 0).
Proof.
  intros Ha Hc Hcounts.
  exists (progressValue countAll countComplete). split.
  - unfold run.
    now rewrite (experimentProgress_value env _ _ (mkWorld d []) _ _ Hcounts).
  - destruct (progressValue_cases countAll countComplete Ha Hc)
      as [[Hz Hor] | [(m & e & Hp & _) [Hpa Hpc]]].
    + rewrite Hz. repeat split; auto.
    + rewrite Hp. repeat split; try reflexivity.
      * discriminate.
      * lia.
Qed.

Lemma experimentProgress_finite_witness :
  exists p,
    fst (run memory.tally (experimentProgress memory.tally 1 7)
           (Go.maxInt, 1)) = Return p /\
    Float32.is_nan p = false /\ Float32.is_inf p = false /\
    Float32.leb Float32.zero p = true /\
    (p = Float32.zero <-> Go.maxInt = 0 \/ 1 = 0).
Proof.
  apply (experimentProgress_finite memory.tally 1 7 (Go.maxInt, 1)
           Go.maxInt 1); try reflexivity; unfold Go.maxInt; lia.
Defined.

(** X17. With at most 671088 assignments, of which no more are complete
    than there are, the progress is between [0.0] and [100.0]. *)
Theorem experimentProgress_percentage (env : Env) (experimentID userID : Z)
    (d : DB env) (countAll countComplete : Z) :
  0 <= countComplete <= countAll -> countAll <= exactBound ->
  counts env d experimentID userID = Some (countAll, countComplete) ->
  exists p,
    fst (run env (experimentProgress env experimentID userID) d) = Return p /\
    Float32.leb Float32.zero p = true /\
    Float32.leb p Float32.hundred = true.
Proof.
  intros Hc Hb Hcounts. unfold exactBound in Hb.
  exists (progressValue countAll countComplete). split.
  - unfold run.
    now rewrite (experimentProgress_value env _ _ (mkWorld d []) _ _ Hcounts).
  - assert (Hmax : 671088 <= maxInt) by (unfold maxInt; lia).
    split.
    + destruct (progressValue_cases countAll countComplete
                  ltac:(lia) ltac:(lia))
        as [[Hz _] | [(m & e & Hp & _) _]]; rewrite ?Hz, ?Hp; reflexivity.
    + unfold progressValue.
      destruct (Z.eqb_spec countAll 0) as [E | E]; [reflexivity |].
      rewrite <- (percent_all_complete countAll)
        by (unfold exactBound; lia).
      apply percent_mono; lia.
Qed.

Lemma experimentProgress_percentage_witness :
  exists p,
    fst (run memory.tally (experimentProgress memory.tally 1 7) (3, 2))
      = Return p /\
    Float32.leb Float32.zero p = true /\
    Float32.leb p Float32.hundred = true.
Proof.
  apply (experimentProgress_percentage memory.tally 1 7 (3, 2) 3 2);
    try reflexivity; unfold exactBound; lia.
Defined.

(** X18. With at most 671088 assignments, a percentage that is a whole
    number is returned exactly: when [100 * countComplete] is [k] times
    [countAll], the progress is the float [k]. *)
Theorem experimentProgress_whole (env : Env) (experimentID userID : Z)
    (d : DB env) (countAll countComplete k : Z) :
  0 < countComplete <= countAll -> countAll <= exactBound ->
  100 * countComplete = k * countAll ->
  counts env d experimentID userID = Some (countAll, countComplete) ->
  fst (run env (experimentProgress env experimentID userID) d)
    = Return (Float32.of_int k).
Proof.
  intros Hc Hb Hk Hcounts. pose proof Hb as Hb'. unfold exactBound in Hb'.
  unfold run.
  rewrite (experimentProgress_value env _ _ (mkWorld d []) _ _ Hcounts).
  cbn [fst]. f_equal. unfold progressValue.
  destruct (Z.eqb_spec countAll 0) as [E | _]; [lia |].
  assert (Hk0 : 0 < k <= 100) by nia.
  assert (Hmax : 671088 <= maxInt) by (unfold maxInt; lia).
  pose proof (percent_rounded countComplete countAll
                ltac:(lia) ltac:(lia)) as Hr.
  rewrite mul_hundred_exact, of_int_exact in Hr by lia.
  destruct (scaled_int_representable k 0) as (m & e & Hm & Hv).
  { change (2 ^ 24) with 16777216. lia. }
  assert (Hv' : IZR k = F2R m e).
  { rewrite <- Hv. unfold pow2. cbn. lra. }
  assert (Hq : (100 * IZR countComplete / IZR countAll)%R = F2R m e).
  { rewrite <- Hv'.
    assert (0 < IZR countAll)%R by (apply IZR_lt; lia).
    apply IZR_eq in Hk. rewrite !mult_IZR in Hk.
    field_simplify; [| lra]. rewrite Hk. field. lra. }
  rewrite (rounded_exact _ prec_pos _ _ _ _ m e Hr Hm Hq).
  symmetry.
  exact (rounded_exact _ prec_pos _ _ _ _ m e
           (of_int_rounded k ltac:(lia)) Hm Hv').
Qed.

Lemma experimentProgress_whole_witness :
  fst (run memory.tally (experimentProgress memory.tally 1 7) (8, 6))
    = Return (Float32.of_int 75).
Proof.
  apply (experimentProgress_whole memory.tally 1 7 (8, 6) 8 6 75);
    try reflexivity; unfold exactBound; lia.
Defined.

End progress_range_facts.

(** ** The progress as a function of the number of assignments *)

Module progress_total_facts.

Import Go serializer handler behaviour rounding rounding_facts.
Import handler_facts float32_facts reading_facts progress_range_facts.

Local Open Scope Z_scope.

(** The percentage does not grow when the number of assignments grows. *)
Lemma percent_antimono (countComplete a1 a2 : Z) :
  0 <= countComplete <= maxInt -> 0 < a1 <= a2 -> a2 <= maxInt ->
  Float32.leb (percent countComplete a2) (percent countComplete a1) = true.
Proof.
  intros Hc Ha Hmax. unfold Float32.leb.
  assert (Hc' : countComplete = 0 \/ 0 < countComplete) by lia.
  destruct Hc' as [-> | Hpos].
  - rewrite !percent_zero by lia. reflexivity.
  - assert (Hcc : 0 < countComplete <= maxInt) by lia.
    assert (Ha1 : 0 < a1 <= maxInt) by lia.
    assert (Ha2 : 0 < a2 <= maxInt) by lia.
    pose proof (of_int_rounded a1 Ha1) as Hy1.
    pose proof (of_int_rounded a2 Ha2) as Hy2.
    assert (Hv : (IZR a1 <= IZR a2)%R) by (apply IZR_le; lia).
    destruct (rounded_mono _ prec_pos _ _ _ _ _ _ _ _ Hy1 Hy2 Hv)
      as [_ Hyv].
    pose proof (posNormal_positive _ prec_pos _ _ _
                  (rounded_posNormal _ prec_pos _ _ _ _ Hy1)) as Hy1pos.
    pose proof (posNormal_positive _ prec_pos _ _ _
                  (rounded_posNormal _ prec_pos _ _ _ _
                     (mul_hundred_rounded _ (-23) (39 + 1)
                        ltac:(lia) ltac:(lia)
                        (rounded_posNormal _ prec_pos _ _ _ _
                           (of_int_rounded _ Hcc))))) as Hppos.
    assert (Hq : (B2R (Float32.mul Float32.hundred
                          (Float32.of_int countComplete))
                    / B2R (Float32.of_int a2)
                  <= B2R (Float32.mul Float32.hundred
                            (Float32.of_int countComplete))
                    / B2R (Float32.of_int a1))%R).
    { unfold Rdiv. apply Rmult_le_compat_l; [lra |].
      now apply Rinv_le_contravar. }
    exact (proj1 (rounded_mono _ prec_pos _ _ _ _ _ _ _ _
                    (percent_rounded countComplete a2 Hcc Ha2)
                    (percent_rounded countComplete a1 Hcc Ha1) Hq)).
Qed.

(** X20. For a fixed number of complete assignments, the progress does
    not grow when the number of assignments grows: more assignments with
    the same answers never show as more progress. *)
Theorem experimentProgress_antitone (env : Env) (experimentID userID : Z)
    (d1 d2 : DB env) (countComplete a1 a2 : Z) :
  0 <= countComplete <= maxInt -> 0 < a1 <= a2 -> a2 <= maxInt ->
  counts env d1 experimentID userID = Some (a1, countComplete) ->
  counts env d2 experimentID userID = Some (a2, countComplete) ->
  exists p1 p2,
    fst (run env (experimentProgress env experimentID userID) d1)
      = Return p1 /\
    fst (run env (experimentProgress env experimentID userID) d2)
      = Return p2 /\
    Float32.leb p2 p1 = true.
Proof.
  intros Hc Ha Hmax H1 H2.
  exists (progressValue a1 countComplete), (progressValue a2 countComplete).
  unfold run.
  rewrite (experimentProgress_value env _ _ (mkWorld d1 []) _ _ H1).
  rewrite (experimentProgress_value env _ _ (mkWorld d2 []) _ _ H2).
  split; [reflexivity | split; [reflexivity |]].
  unfold progressValue.
  destruct (Z.eqb_spec a1 0); [lia |]. destruct (Z.eqb_spec a2 0); [lia |].
  now apply percent_antimono.
Qed.

Lemma experimentProgress_antitone_witness :
  exists p1 p2,
    fst (run memory.tally (experimentProgress memory.tally 1 7) (3, 2))
      = Return p1 /\
    fst (run memory.tally (experimentProgress memory.tally 1 7) (7, 2))
      = Return p2 /\
    Float32.leb p2 p1 = true.
Proof.
  apply (experimentProgress_antitone memory.tally 1 7 (3, 2) (7, 2) 2 3 7);
    try reflexivity; unfold maxInt; lia.
Defined.

End progress_total_facts.

(** ** The accuracy of the progress *)

Module accuracy_facts.

Import Go serializer handler behaviour rounding rounding_facts.
Import handler_facts float32_facts reading_facts progress_range_facts.

Local Open Scope Z_scope.

(** Rounding a located value moves it by at most half a unit of the
    exponent. *)
Lemma rnec_error (v : R) (c e : Z) :
  located v c e ->
  (F2R (rnec c) e - pow2 e / 2 <= v <= F2R (rnec c) e + pow2 e / 2)%R.
Proof.
  unfold located, F2R, rnec. intros H.
  rewrite (pow2_quarter e).
  pose proof (pow2_pos (e - 2)) as HB.
  set (B := pow2 (e - 2)) in *.
  assert (Hc : (c = 4 * (c / 4) + c mod 4 /\ 0 <= c mod 4 < 4)%Z) by zdiv.
  destruct Hc as [Hc Hr]. set (q := (c / 4)%Z) in *.
  assert (Hcases : (c mod 4 = 0 \/ c mod 4 = 1 \/ c mod 4 = 2 \/ c mod 4 = 3)%Z)
    by lia.
  rewrite Hc in H.
  destruct Hcases as [E | [E | [E | E]]]; rewrite E in H |- *;
    rewrite even_4q_r in H; cbn [Z.even] in H;
    cbn [Z.leb Z.eqb Z.compare Pos.compare Pos.compare_cont Pos.eqb];
    try destruct (Z.even q);
    push_IZR; nra.
Qed.

Section Error.

Variable prec : Z.
Hypothesis Hprec : 0 < prec.

(** The relative error of a rounding is at most [2^-prec]. *)
Lemma rounded_error (v : R) (x : spec_float) (lo hi : Z) :
  rounded prec v x lo hi ->
  (v * (1 - pow2 (- prec)) <= B2R x <= v * (1 + pow2 (- prec)))%R.
Proof.
  intros (c & e & n & Hc & Hn & Hm & Hl & _ & ->).
  pose proof (located_binade prec Hprec v c e n Hn Hm Hl) as [Hlo _].
  pose proof (rnec_shifted prec Hprec c n Hc Hn Hm) as Hk.
  destruct (rnd_normal prec Hprec c e n Hc Hn Hm) as [Hnm _].
  pose proof (normalMantissa_pos prec Hprec _ Hnm) as Hpos.
  rewrite B2R_posNormal by exact Hpos.
  apply (located_iter _ _ _ (Z.to_nat n)) in Hl.
  rewrite Z2Nat.id in Hl by lia.
  apply rnec_error in Hl.
  set (k := rnec (Nat.iter (Z.to_nat n) shr1c c)) in *.
  assert (Hval : F2R (fst (rnd prec c e n)) (snd (rnd prec c e n))
                 = F2R k (e + n)).
  { unfold rnd. fold k.
    destruct (Z.ltb_spec k (2 ^ prec)); cbn [fst snd]; [reflexivity |].
    assert (Hk2 : k = 2 ^ prec) by lia.
    rewrite Hk2, (pow_prec_double prec Hprec). unfold F2R.
    rewrite mult_IZR, pow2_succ. lra. }
  rewrite Hval.
  assert (Hhalf : (pow2 (e + n) / 2 <= v * pow2 (- prec))%R).
  { assert (E1 : (pow2 (prec + n + e - 1)
                  = pow2 (e + n) / 2 * pow2 prec)%R).
    { replace (prec + n + e - 1) with (e + n - 1 + prec) by lia.
      rewrite pow2_add.
      replace (e + n) with (e + n - 1 + 1) at 2 by lia.
      rewrite pow2_succ. lra. }
    assert (E2 : (pow2 prec * pow2 (- prec) = 1)%R).
    { rewrite <- pow2_add. replace (prec + - prec) with 0 by lia.
      reflexivity. }
    pose proof (pow2_pos (- prec)). pose proof (pow2_pos prec).
    pose proof (pow2_pos (e + n)).
    rewrite E1 in Hlo.
    apply Rle_trans
      with (pow2 (e + n) / 2 * pow2 prec * pow2 (- prec))%R; [| nra].
    rewrite Rmult_assoc, E2. lra. }
  lra.
Qed.

End Error.

Local Open Scope R_scope.

Lemma u24_bounds : 0 < pow2 (-24) <= / 16777216.
Proof.
  pose proof (pow2_pos (-24)) as Hp. split; [exact Hp |].
  assert (E : pow2 (-24) * 16777216 = 1).
  { change 16777216 with (IZR (2 ^ 24)). rewrite <- pow2_IZR by lia.
    rewrite <- pow2_add. reflexivity. }
  apply Rmult_le_reg_r with 16777216; [lra |]. rewrite E. lra.
Qed.

Lemma pow2_m21 : pow2 (-21) = 8 * pow2 (-24).
Proof.
  replace (-21)%Z with (-24 + 1 + 1 + 1)%Z by lia.
  rewrite !pow2_succ. lra.
Qed.

(** Three roundings of relative error [u] upwards and one downwards stay
    within [8 * u]. *)
Lemma compose_errors (C A X P Y T R u : R) :
  0 < C -> 0 < A -> 0 < u <= / 16777216 ->
  C * (1 - u) <= X <= C * (1 + u) ->
  100 * X * (1 - u) <= P <= 100 * X * (1 + u) ->
  A * (1 - u) <= Y <= A * (1 + u) ->
  T * Y = P ->
  T * (1 - u) <= R <= T * (1 + u) ->
  100 * C * (1 - 8 * u) <= R * A <= 100 * C * (1 + 8 * u).
Proof.
  intros HC HA [Hu0 Hu1] [HXl HXu] [HPl HPu] [HYl HYu] HT [HRl HRu].
  assert (Hu : u <= / 16) by lra.
  assert (HY : 0 < Y) by nra.
  assert (HX : 0 < X) by nra.
  assert (HP : 0 < P) by nra.
  assert (HT0 : 0 < T).
  { destruct (Rlt_le_dec 0 T) as [| Hle]; [assumption | nra]. }
  assert (H1u : P <= 100 * C * ((1 + u) * (1 + u))) by nra.
  assert (H1l : 100 * C * ((1 - u) * (1 - u)) <= P) by nra.
  assert (H2u : T * A * (1 - u) <= P) by nra.
  assert (H2l : P <= T * A * (1 + u)) by nra.
  assert (H5u : (1 + u) * ((1 + u) * (1 + u)) <= (1 + 8 * u) * (1 - u))
    by nra.
  assert (H5l : (1 - 8 * u) * (1 + u) <= (1 - u) * ((1 - u) * (1 - u)))
    by nra.
  split.
  - apply Rmult_le_reg_r with (1 + u); [lra |].
    apply Rle_trans with (100 * C * ((1 - u) * ((1 - u) * (1 - u)))).
    + replace (100 * C * (1 - 8 * u) * (1 + u))
        with (100 * C * ((1 - 8 * u) * (1 + u))) by ring.
      apply Rmult_le_compat_l; [lra | exact H5l].
    + apply Rle_trans with ((1 - u) * P); [nra |].
      apply Rle_trans with ((1 - u) * (T * A * (1 + u))); [nra |].
      replace (R * A * (1 + u)) with (R * (A * (1 + u))) by ring.
      replace ((1 - u) * (T * A * (1 + u)))
        with (T * (1 - u) * (A * (1 + u))) by ring.
      apply Rmult_le_compat_r; [nra | exact HRl].
  - apply Rmult_le_reg_r with (1 - u); [lra |].
    apply Rle_trans with (100 * C * ((1 + u) * ((1 + u) * (1 + u)))).
    + apply Rle_trans with ((1 + u) * P); [| nra].
      apply Rle_trans with ((1 + u) * (T * A * (1 - u))); [| nra].
      replace (R * A * (1 - u)) with (R * (A * (1 - u))) by ring.
      replace ((1 + u) * (T * A * (1 - u)))
        with (T * (1 + u) * (A * (1 - u))) by ring.
      apply Rmult_le_compat_r; [nra | exact HRu].
    + replace (100 * C * (1 + 8 * u) * (1 - u))
        with (100 * C * ((1 + 8 * u) * (1 - u))) by ring.
      apply Rmult_le_compat_l; [lra | exact H5u].
Qed.

(** The real value of the percentage of two positive counts. *)
Lemma percent_accuracy (countComplete countAll : Z) :
  (0 < countComplete <= maxInt)%Z -> (0 < countAll <= maxInt)%Z ->
  100 * IZR countComplete * (1 - pow2 (-21))
    <= B2R (percent countComplete countAll) * IZR countAll
    <= 100 * IZR countComplete * (1 + pow2 (-21)).
Proof.
  intros Hc Ha. rewrite pow2_m21.
  pose proof (of_int_rounded _ Hc) as Hx.
  pose proof (of_int_rounded _ Ha) as Hy.
  pose proof (mul_hundred_rounded _ (-23) (39 + 1) ltac:(lia) ltac:(lia)
                (rounded_posNormal _ prec_pos _ _ _ _ Hx)) as Hp.
  pose proof (percent_rounded _ _ Hc Ha) as Hr.
  pose proof (posNormal_positive _ prec_pos _ _ _
                (rounded_posNormal _ prec_pos _ _ _ _ Hy)) as HY.
  apply (rounded_error _ prec_pos) in Hx, Hy, Hp, Hr.
  change (- Float32.prec)%Z with (-24)%Z in *.
  apply (compose_errors (IZR countComplete) (IZR countAll)
           (B2R (Float32.of_int countComplete))
           (B2R (Float32.mul Float32.hundred (Float32.of_int countComplete)))
           (B2R (Float32.of_int countAll))
           (B2R (Float32.mul Float32.hundred (Float32.of_int countComplete))
            / B2R (Float32.of_int countAll))
           (B2R (percent countComplete countAll)) (pow2 (-24))).
  - apply IZR_lt. lia.
  - apply IZR_lt. lia.
  - exact u24_bounds.
  - exact Hx.
  - lra.
  - exact Hy.
  - field. lra.
  - exact Hr.
Qed.

(** X19. For counts in the range of [int] with [countAll > 0], the
    progress that [experimentProgress] returns is within a relative error
    of [2^-21] of the exact percentage [100 * countComplete / countAll]. *)
Theorem experimentProgress_accuracy (env : Env) (experimentID userID : Z)
    (d : DB env) (countAll countComplete : Z) :
  (0 < countAll <= maxInt)%Z -> (0 <= countComplete <= maxInt)%Z ->
  counts env d experimentID userID = Some (countAll, countComplete) ->
  exists p,
    fst (run env (experimentProgress env experimentID userID) d) = Return p /\
    100 * IZR countComplete / IZR countAll * (1 - pow2 (-21))
      <= B2R p
      <= 100 * IZR countComplete / IZR countAll * (1 + pow2 (-21)).
Proof.
  intros Ha Hc Hcounts.
  exists (progressValue countAll countComplete). split.
  - unfold run.
    now rewrite (experimentProgress_value env _ _ (mkWorld d []) _ _ Hcounts).
  - unfold progressValue.
    destruct (Z.eqb_spec countAll 0) as [E | _]; [lia |].
    assert (HA : 0 < IZR countAll) by (apply IZR_lt; lia).
    assert (Hc' : (countComplete = 0 \/ 0 < countComplete)%Z) by lia.
    destruct Hc' as [-> | Hpos].
    + rewrite percent_zero by exact Ha. cbn [B2R Float32.zero].
      unfold Rdiv. rewrite !Rmult_0_r, !Rmult_0_l. lra.
    + pose proof (percent_accuracy countComplete countAll
                    ltac:(lia) Ha) as [Hlo Hhi].
      set (p := B2R (percent countComplete countAll)) in *.
      set (e := pow2 (-21)) in *.
      split.
      * apply Rmult_le_reg_r with (IZR countAll); [exact HA |].
        replace (100 * IZR countComplete / IZR countAll * (1 - e)
                 * IZR countAll)
          with (100 * IZR countComplete * (1 - e)) by (field; lra).
        exact Hlo.
      * apply Rmult_le_reg_r with (IZR countAll); [exact HA |].
        replace (100 * IZR countComplete / IZR countAll * (1 + e)
                 * IZR countAll)
          with (100 * IZR countComplete * (1 + e)) by (field; lra).
        exact Hhi.
Qed.

Lemma experimentProgress_accuracy_witness :
  exists p,
    fst (run memory.tally (experimentProgress memory.tally 1%Z 7%Z)
           (3%Z, 1%Z)) = Return p /\
    100 * IZR 1 / IZR 3 * (1 - pow2 (-21))
      <= B2R p
      <= 100 * IZR 1 / IZR 3 * (1 + pow2 (-21)).
Proof.
  apply (experimentProgress_accuracy memory.tally 1%Z 7%Z (3%Z, 1%Z)
           3%Z 1%Z);
    try reflexivity; unfold maxInt; lia.
Defined.

End accuracy_facts.
